(** * StreamWizard backend: EventSub ingestion and dispatch core

    A shallow embedding of the TypeScript sources that receive Twitch EventSub
    notifications (WebSocket receiver and HTTP webhook), verify them, and route
    them to per-event-type handlers, together with the outbound API client's
    token interceptors.

    Conventions of the embedding:
    - JavaScript values that reach the code from [JSON.parse] are modelled by
      [Js.JsValue]; objects are association lists read by property name.
    - [async] functions are modelled by their result once awaited: a trace of
      the effects they performed, in order, and either a value or the thrown
      exception (a rejected promise).
    - JavaScript numbers are modelled by exact integers ([Z], [nat]) where the
      code only counts or compares clock readings, and by exact rationals
      ([Q]) where it multiplies by [Math.random()]. *)

From Stdlib Require Import ZArith QArith Qminmax Lqa Lia Ascii String.
From stdpp Require Import base option list strings gmap.

Close Scope Q_scope.

(* ===================================================================== *)
(** ** JavaScript values *)
(* ===================================================================== *)

Module Js.

#[warnings="-register-all"]
Inductive JsValue : Type :=
| JUndefined
| JNull
| JBool (b : bool)
| JNum (q : Q)
| JStr (s : string)
| JArr (items : list JsValue)
| JObj (fields : list (string * JsValue)).

(** [ToBoolean]: what [if (v)] and [!v] test. *)
Definition truthy (v : JsValue) : bool :=
  match v with
  | JUndefined | JNull => false
  | JBool b => b
  | JNum q => negb (Qeq_bool q 0)
  | JStr s => negb (String.eqb s "")
  | JArr _ | JObj _ => true
  end.

Fixpoint assoc (k : string) (fs : list (string * JsValue)) : option JsValue :=
  match fs with
  | [] => None
  | (k', v) :: fs' => if String.eqb k' k then Some v else assoc k fs'
  end.

(** [v.k] for a value [v] that is neither [undefined] nor [null].  Only
    used with property names that no built-in prototype defines, so every
    non-object yields [undefined]. *)
Definition get (v : JsValue) (k : string) : JsValue :=
  match v with
  | JObj fs => default JUndefined (assoc k fs)
  | _ => JUndefined
  end.

Definition nullish (v : JsValue) : bool :=
  match v with
  | JUndefined | JNull => true
  | _ => false
  end.

(** [v?.k] *)
Definition get_opt (v : JsValue) (k : string) : JsValue :=
  if nullish v then JUndefined else get v k.

(** [typeof v === "string"] *)
Definition is_string (v : JsValue) : bool :=
  match v with
  | JStr _ => true
  | _ => false
  end.

(** The object [v] has an own property named [k]. *)
Definition has_key (k : string) (v : JsValue) : bool :=
  match v with
  | JObj fs => bool_decide (is_Some (assoc k fs))
  | _ => false
  end.

End Js.
Export Js.

(* ===================================================================== *)
(** ** Effects, exceptions and the result of an awaited call *)
(* ===================================================================== *)

Inductive Exn : Type :=
| Error (message : string)
| TypeError (message : string)
| SyntaxError (message : string)
| ZodError (issues : string)
| Rejected (reason : JsValue).

Inductive LogLevel := LvLog | LvWarn | LvError.

Inductive LogArg : Type :=
| LStr (s : string)
| LVal (v : JsValue)
| LExn (e : Exn).

(** What a call does to the outside world, in the order it does it.
    [ERegistryGet] and [EHandlerCall] mark the call sites
    [this.twitchHandlers.get(eventType)] and [handler(parsedData, context)];
    [EApp] is whatever an application handler itself does. *)
Inductive Effect : Type :=
| EConsole (lvl : LogLevel) (args : list LogArg)
| EDbSelect (table column : string) (key : JsValue)
| EAuditInsert (eventType : string)
| ERegistryGet (eventType : JsValue)
| ENewTwitchApi (broadcasterId : JsValue)
| EHandlerCall (eventType : string) (data : JsValue) (twitchApiFor : JsValue)
| EApp (tag : string) (data : JsValue).

Inductive Outcome (A : Type) : Type :=
| Ret (a : A)
| Throw (e : Exn).
Arguments Ret {A} a.
Arguments Throw {A} e.

(** An awaited computation: its trace and how it ended. *)
Definition M (A : Type) : Type := (list Effect * Outcome A)%type.

Definition ret {A} (a : A) : M A := ([], Ret a).
Definition throw {A} (e : Exn) : M A := ([], Throw e).
Definition emit (e : Effect) : M unit := ([e], Ret tt).
Definition lift {A} (o : Outcome A) : M A := ([], o).

Definition bind {A B} (m : M A) (k : A → M B) : M B :=
  match m with
  | (t, Ret a) => let '(t', r) := k a in (t ++ t', r)
  | (t, Throw e) => (t, Throw e)
  end.

(** [try { m } catch (e) { h e }] *)
Definition try_catch {A} (m : M A) (h : Exn → M A) : M A :=
  match m with
  | (t, Throw e) => let '(t', r) := h e in (t ++ t', r)
  | (t, Ret a) => (t, Ret a)
  end.

#[global] Instance M_ret : MRet M := @ret.
#[global] Instance M_bind : MBind M := λ A B k m, bind m k.

Definition console_log (args : list LogArg) : M unit := emit (EConsole LvLog args).
Definition console_warn (args : list LogArg) : M unit := emit (EConsole LvWarn args).
Definition console_error (args : list LogArg) : M unit := emit (EConsole LvError args).

Definition trace {A} (m : M A) : list Effect := m.1.
Definition outcome {A} (m : M A) : Outcome A := m.2.

Definition throws {A} (m : M A) : Prop := ∃ e, outcome m = Throw e.
Definition returns {A} (m : M A) : Prop := ∃ a, outcome m = Ret a.

(** [v.k] where [v] may be [undefined] or [null]: reading a property of
    either throws a [TypeError]. *)
Definition get_or_throw (v : JsValue) (k : string) : M JsValue :=
  if nullish v
  then throw (TypeError ("Cannot read properties of undefined (reading '" +:+ k +:+ "')"))
  else ret (get v k).

(* ===================================================================== *)
(** ** Handler registry and dispatcher
       (apps/rest-api/src/handlers/eventHandler.ts) *)
(* ===================================================================== *)

Module Dispatch.

(** [new TwitchApi(broadcasterId)]: the tenant-scoped client is determined
    by the identifier it was built for. *)
Record TwitchApi := { broadcaster_id : JsValue }.

Record RestApiHandlerContext := { twitchApi : TwitchApi }.

Definition EventHandler : Type := JsValue → RestApiHandlerContext → M unit.
Definition InternalHandler : Type := JsValue → RestApiHandlerContext → M unit.

(** A zod schema, as far as the registry uses it: [schema.parse(data)]
    returns the parsed value or throws. *)
Record ZodType := { parse : JsValue → Outcome JsValue }.

(** The answer of [supabase.from(..).select(..).eq(..).single()]. *)
Record DbResult := { data : JsValue; error : JsValue }.

Definition extractReceivingBroadcasterId (event : JsValue) : JsValue :=
  if negb (truthy event) then JNull
  else if is_string (get event "to_broadcaster_user_id")
          && truthy (get event "to_broadcaster_user_id")
  then get event "to_broadcaster_user_id"
  else if is_string (get event "broadcaster_user_id")
          && truthy (get event "broadcaster_user_id")
  then get event "broadcaster_user_id"
  else
    match get event "data" with
    | JArr (d0 :: _) =>
        if truthy (get_opt d0 "to_broadcaster_user_id")
        then get d0 "to_broadcaster_user_id"
        else if truthy (get_opt d0 "broadcaster_user_id")
        then get d0 "broadcaster_user_id"
        else JNull
    | _ => JNull
    end.

(** [schema ? schema.parse(data) : data] *)
Definition validated (schema : option ZodType) (data : JsValue) : Outcome JsValue :=
  match schema with
  | Some s => parse s data
  | None => Ret data
  end.

(** The wrapper that [registerTwitchHandler] stores. *)
Definition wrapped (eventType : string) (handler : EventHandler)
    (schema : option ZodType) : InternalHandler :=
  λ data context,
    try_catch
      (parsedData ← lift (validated schema data);
       emit (EHandlerCall eventType parsedData (broadcaster_id (twitchApi context)));;
       handler parsedData context)
      (λ error,
         console_log [LStr ("Error in handler for " +:+ eventType +:+ ":"); LExn error]).

Definition registerTwitchHandler (twitchHandlers : gmap string InternalHandler)
    (eventType : string) (handler : EventHandler) (schema : option ZodType)
    : gmap string InternalHandler :=
  <[eventType := wrapped eventType handler schema]> twitchHandlers.

(** [Map.prototype.get] with a key that arrives from the payload: only a
    string can equal a registered key. *)
Definition map_get (twitchHandlers : gmap string InternalHandler) (k : JsValue)
    : option InternalHandler :=
  match k with
  | JStr s => twitchHandlers !! s
  | _ => None
  end.

Section WithDatabase.

(** The [integrations_twitch] lookup by [twitch_user_id]. *)
Variable select_user_id : JsValue → DbResult.

Definition processTwitchEvent (twitchHandlers : gmap string InternalHandler)
    (eventType : JsValue) (data : JsValue) : M unit :=
  let broadcasterId := extractReceivingBroadcasterId data in
  if negb (truthy broadcasterId) then
    console_log [LStr "No broadcaster id found in event"];;
    throw (Error "No broadcaster id found in event")
  else
    emit (EDbSelect "integrations_twitch" "twitch_user_id" broadcasterId);;
    let r := select_user_id broadcasterId in
    if truthy (error r) || negb (truthy (Dispatch.data r)) then
      console_log [LStr "Broadcaster not found in database"]
    else
      emit (ERegistryGet eventType);;
      match map_get twitchHandlers eventType with
      | None =>
          console_log [LStr "No handler found for event type:"; LVal eventType]
      | Some handler =>
          emit (ENewTwitchApi broadcasterId);;
          let twitchApi := {| broadcaster_id := broadcasterId |} in
          let context := {| twitchApi := twitchApi |} in
          handler data context
      end.

(** The tenant resolves and the database has a row for it. *)
Definition known_tenant (event : JsValue) : Prop :=
  let id := extractReceivingBroadcasterId event in
  truthy id = true ∧
  truthy (error (select_user_id id)) = false ∧
  truthy (data (select_user_id id)) = true.

(** Consecutive [await handlers.processTwitchEvent(type, data)] calls: a
    throw ends the sequence. *)
Fixpoint dispatch_all (twitchHandlers : gmap string InternalHandler)
    (events : list (JsValue * JsValue)) : M unit :=
  match events with
  | [] => ret tt
  | (eventType, data) :: rest =>
      processTwitchEvent twitchHandlers eventType data;;
      dispatch_all twitchHandlers rest
  end.

End WithDatabase.

(** The payload names a tenant field at the top level. *)
Definition names_tenant (v : JsValue) : bool :=
  has_key "to_broadcaster_user_id" v || has_key "broadcaster_user_id" v.

(** The elements of the nested [data] array, if there is one. *)
Definition nested_items (v : JsValue) : list JsValue :=
  match get v "data" with
  | JArr items => items
  | _ => []
  end.

(** Neither field occurs at the top level nor in any element of [data]. *)
Definition no_tenant_id (v : JsValue) : bool :=
  negb (names_tenant v) && forallb (λ d, negb (names_tenant d)) (nested_items v).

End Dispatch.

(* ===================================================================== *)
(** ** Webhook transport
       (utils/twitch-eventsub.ts, middleware/twitch-eventsub.ts,
        routes/twitch-eventsub.ts, function/handle-eventsub.ts,
        middleware/security/utils.ts) *)
(* ===================================================================== *)

Module Webhook.
Import Dispatch.

Definition TWITCH_MESSAGE_ID : string := "twitch-eventsub-message-id".
Definition TWITCH_MESSAGE_TIMESTAMP : string := "twitch-eventsub-message-timestamp".
Definition TWITCH_MESSAGE_SIGNATURE : string := "twitch-eventsub-message-signature".
Definition TWITCH_MESSAGE_TYPE : string := "twitch-eventsub-message-type".

Definition MESSAGE_TYPE_VERIFICATION : string := "webhook_callback_verification".
Definition MESSAGE_TYPE_NOTIFICATION : string := "notification".
Definition MESSAGE_TYPE_REVOCATION : string := "revocation".

Definition HMAC_PREFIX : string := "sha256=".

(** [String.prototype.toLowerCase] on the ASCII letters header names use. *)
Definition lower_ascii (c : ascii) : ascii :=
  let n := nat_of_ascii c in
  if (65 <=? n)%nat && (n <=? 90)%nat then ascii_of_nat (n + 32) else c.

Fixpoint toLowerCase (s : string) : string :=
  match s with
  | EmptyString => EmptyString
  | String c rest => String (lower_ascii c) (toLowerCase rest)
  end.

(** The first entry whose lower-cased name matches; [None] is [null]. *)
Fixpoint getTwitchHeader (headers : list (string * string)) (headerName : string)
    : option string :=
  match headers with
  | [] => None
  | (key, value) :: rest =>
      if String.eqb (toLowerCase key) (toLowerCase headerName)
      then Some value
      else getTwitchHeader rest headerName
  end.

(** [!h] for a header value of type [string | null]. *)
Definition missing (h : option string) : bool :=
  match h with
  | None => true
  | Some s => String.eqb s ""
  end.

Inductive Body : Type :=
| BodyJson (fields : list (string * string))
| BodyText (text : string)
| BodyNull.

Record Response := { status : nat; body : Body }.

(** The Hono context, as far as this route reads and writes it. *)
Record Context := {
  req_headers : list (string * string);
  req_method : string;
  req_path : string;
  req_text : string;
  var_requestId : option string;
  var_rawBody : option string;
  var_twitchNotification : JsValue;
  var_twitchMessageType : JsValue
}.

Definition json_error (error message : string) (code : nat) : Response :=
  {| status := code; body := BodyJson [("error", error); ("message", message)] |}.

Definition exn_message (e : Exn) : string :=
  match e with
  | Error m | TypeError m | SyntaxError m | ZodError m => m
  | Rejected _ => ""
  end.

Section WithEnvironment.

(** [env.TWITCH_WEBHOOK_SECRET] *)
Variable TWITCH_WEBHOOK_SECRET : string.
(** [createHmac("sha256", secret).update(message).digest("hex")] *)
Variable createHmac_sha256_hex : string → string → string.
(** [JSON.parse]: a value, or a thrown [SyntaxError]. *)
Variable JSON_parse : string → Outcome JsValue.
(** [process.env.NODE_ENV === 'development'] *)
Variable isDevelopment : bool.
(** The database lookup and the registry singleton [handlers]. *)
Variable select_user_id : JsValue → DbResult.
Variable handlers : gmap string InternalHandler.

Definition getWebhookSecret : string := TWITCH_WEBHOOK_SECRET.

Definition buildHmacMessage (messageId timestamp body : string) : string :=
  messageId +:+ timestamp +:+ body.

Definition generateHmac (secret message : string) : string :=
  createHmac_sha256_hex secret message.

(** [crypto.timingSafeEqual] on the two byte buffers: throws when their
    lengths differ. *)
Definition timingSafeEqual (a b : string) : Outcome bool :=
  if (String.length a =? String.length b)%nat
  then Ret (String.eqb a b)
  else Throw (Error "Input buffers must have the same byte length").

Definition verifySignature (messageId timestamp body receivedSignature : string)
    : bool :=
  let secret := getWebhookSecret in
  let message := buildHmacMessage messageId timestamp body in
  let expectedHmac := generateHmac secret message in
  let expectedSignature := HMAC_PREFIX +:+ expectedHmac in
  match timingSafeEqual expectedSignature receivedSignature with
  | Ret b => b
  | Throw _ => false
  end.

(** The request as the verification middleware reads it. *)
Definition header (c : Context) (name : string) : option string :=
  getTwitchHeader (req_headers c) name.

Definition headers_complete (c : Context) : bool :=
  negb (missing (header c TWITCH_MESSAGE_ID)
        || missing (header c TWITCH_MESSAGE_TIMESTAMP)
        || missing (header c TWITCH_MESSAGE_SIGNATURE)
        || missing (header c TWITCH_MESSAGE_TYPE)).

Definition raw_body (c : Context) : string :=
  default (req_text c) (var_rawBody c).

Definition signature_valid (c : Context) : bool :=
  verifySignature (default "" (header c TWITCH_MESSAGE_ID))
                  (default "" (header c TWITCH_MESSAGE_TIMESTAMP))
                  (raw_body c)
                  (default "" (header c TWITCH_MESSAGE_SIGNATURE)).

Definition message_type (c : Context) : string :=
  default "" (header c TWITCH_MESSAGE_TYPE).

Definition rawBodyMiddleware (c : Context) (next : Context → M Response)
    : M Response :=
  if String.eqb (req_method c) "POST"
  then next {| req_headers := req_headers c; req_method := req_method c;
               req_path := req_path c; req_text := req_text c;
               var_requestId := var_requestId c;
               var_rawBody := Some (req_text c);
               var_twitchNotification := var_twitchNotification c;
               var_twitchMessageType := var_twitchMessageType c |}
  else next c.

Definition twitchEventSubVerification (c : Context) (next : Context → M Response)
    : M Response :=
  let headers := req_headers c in
  let messageId := getTwitchHeader headers TWITCH_MESSAGE_ID in
  let timestamp := getTwitchHeader headers TWITCH_MESSAGE_TIMESTAMP in
  let signature := getTwitchHeader headers TWITCH_MESSAGE_SIGNATURE in
  let messageType := getTwitchHeader headers TWITCH_MESSAGE_TYPE in
  if missing messageId || missing timestamp || missing signature
     || missing messageType
  then ret (json_error "Missing required headers"
              "Twitch EventSub webhook requires specific headers" 400)
  else
    let messageId := default "" messageId in
    let timestamp := default "" timestamp in
    let signature := default "" signature in
    let messageType := default "" messageType in
    let rawBody := default (req_text c) (var_rawBody c) in
    let isValid := verifySignature messageId timestamp rawBody signature in
    if negb isValid then
      console_warn [LStr "Invalid Twitch EventSub signature";
                    LStr messageId; LStr timestamp];;
      ret (json_error "Invalid signature"
             "Request signature verification failed" 403)
    else
      match JSON_parse rawBody with
      | Throw _ =>
          ret (json_error "Invalid JSON" "Failed to parse notification body" 400)
      | Ret notification =>
          next {| req_headers := req_headers c; req_method := req_method c;
                  req_path := req_path c; req_text := req_text c;
                  var_requestId := var_requestId c;
                  var_rawBody := var_rawBody c;
                  var_twitchNotification := notification;
                  var_twitchMessageType := JStr messageType |}
      end.

Definition handleVerification (notification : JsValue) : M Response :=
  let challenge := get notification "challenge" in
  if negb (truthy challenge) || negb (is_string challenge) then
    ret (json_error "Invalid challenge" "Challenge field is missing or invalid" 400)
  else
    subscriptionId ← get_or_throw (get notification "subscription") "id";
    subscriptionType ← get_or_throw (get notification "subscription") "type";
    console_log [LStr "EventSub verification challenge received";
                 LVal subscriptionId; LVal subscriptionType];;
    ret {| status := 200;
           body := BodyText (match challenge with JStr s => s | _ => "" end) |}.

Definition handleEventsub (payload : JsValue) : M unit :=
  let subscription := get payload "subscription" in
  let event := get payload "event" in
  eventType ← get_or_throw subscription "type";
  processTwitchEvent select_user_id handlers eventType event.

Definition handleNotification (notification : JsValue) : M Response :=
  handleEventsub notification;;
  ret {| status := 204; body := BodyNull |}.

Definition handleRevocation (notification : JsValue) : M Response :=
  let subscription := get notification "subscription" in
  subscriptionId ← get_or_throw subscription "id";
  subscriptionType ← get_or_throw subscription "type";
  subscriptionStatus ← get_or_throw subscription "status";
  condition ← get_or_throw subscription "condition";
  console_warn [LStr "EventSub subscription revoked"; LVal subscriptionId;
                LVal subscriptionType; LVal subscriptionStatus; LVal condition];;
  ret {| status := 204; body := BodyNull |}.

Definition handleTwitchEventSub (c : Context) : M Response :=
  let notification := var_twitchNotification c in
  let messageType := var_twitchMessageType c in
  if negb (truthy notification) || negb (truthy messageType) then
    ret (json_error "Internal error" "Notification data not found in context" 500)
  else
    match messageType with
    | JStr t =>
        if String.eqb t MESSAGE_TYPE_VERIFICATION then handleVerification notification
        else if String.eqb t MESSAGE_TYPE_NOTIFICATION then handleNotification notification
        else if String.eqb t MESSAGE_TYPE_REVOCATION then handleRevocation notification
        else
          console_warn [LStr "Unknown message type"; LVal messageType];;
          ret {| status := 204; body := BodyNull |}
    | _ =>
        console_warn [LStr "Unknown message type"; LVal messageType];;
        ret {| status := 204; body := BodyNull |}
    end.

(** [logSecurityEvent] catches its own failures, so it never throws. *)
Definition logSecurityEvent (eventType : string) : M unit :=
  emit (EAuditInsert eventType).

Definition safeErrorHandler (c : Context) (next : Context → M Response)
    : M Response :=
  try_catch (next c)
    (λ error,
       let requestId := default "unknown" (var_requestId c) in
       console_error [LStr "API Error:"; LStr requestId; LExn error;
                      LStr (req_path c); LStr (req_method c)];;
       logSecurityEvent "api_error";;
       ret {| status := 500;
              body := BodyJson
                [("error", "Internal server error");
                 ("message",
                  if isDevelopment then exn_message error
                  else "An unexpected error occurred. Please try again later.");
                 ("requestId", requestId)] |}).

(** The route [POST /webhooks/twitch/eventsub] from the verification
    middleware on: what the middleware and the route handler produce. *)
Definition eventsub_route (c : Context) : M Response :=
  twitchEventSubVerification c handleTwitchEventSub.

(** The same route below [safeErrorHandler] and [rawBodyMiddleware], as
    [index.ts] mounts it. *)
Definition eventsub_endpoint (c : Context) : M Response :=
  safeErrorHandler c (λ c, rawBodyMiddleware c eventsub_route).

End WithEnvironment.

End Webhook.

(* ===================================================================== *)
(** ** Brute-force protection
       (apps/rest-api/src/middleware/security/brute-force.ts) *)
(* ===================================================================== *)

Module BruteForce.

Record BruteForceRecord := {
  count : nat;
  resetAt : Z;
  blockedUntil : option Z
}.

Record BruteForceOptions := {
  maxAttempts : nat;
  windowMs : Z;
  blockDurationMs : Z
}.

(** The configuration when the middleware is created without options, as
    [index.ts] does. *)
Definition default_config : BruteForceOptions :=
  {| maxAttempts := 10;
     windowMs := 15 * 60 * 1000;
     blockDurationMs := 60 * 60 * 1000 |}.

(** The module-level [Map] holds references to record objects; a request
    in flight holds the reference it read, and [record.count++] changes the
    object for every holder.  [next_object] is the next unused
    reference. *)
Record Store := {
  bruteForceStore : gmap string nat;
  objects : gmap nat BruteForceRecord;
  next_object : nat
}.

Definition empty_store : Store :=
  {| bruteForceStore := ∅; objects := ∅; next_object := 0 |}.

(** The record the map holds for an address. *)
Definition record_of (st : Store) (ip : string) : option BruteForceRecord :=
  bruteForceStore st !! ip ≫= λ ref, objects st !! ref.

Definition store_delete (ip : string) (st : Store) : Store :=
  {| bruteForceStore := delete ip (bruteForceStore st);
     objects := objects st; next_object := next_object st |}.

Definition store_set (ip : string) (ref : nat) (st : Store) : Store :=
  {| bruteForceStore := <[ip := ref]> (bruteForceStore st);
     objects := objects st; next_object := next_object st |}.

(** [{ count: 1, resetAt }]: a new object. *)
Definition new_record (o : BruteForceRecord) (st : Store) : nat * Store :=
  (next_object st,
   {| bruteForceStore := bruteForceStore st;
      objects := <[next_object st := o]> (objects st);
      next_object := S (next_object st) |}).

(** An assignment to a field of the object behind [ref]. *)
Definition update_record (ref : nat) (f : BruteForceRecord → BruteForceRecord)
    (st : Store) : Store :=
  {| bruteForceStore := bruteForceStore st;
     objects := match objects st !! ref with
                | Some o => <[ref := f o]> (objects st)
                | None => objects st
                end;
     next_object := next_object st |}.

(** [Math.ceil(a / b)] for [b > 0]. *)
Definition ceil_div (a b : Z) : Z := (- ((- a) / b))%Z.

(** How the part of the middleware before [await next()] ends: with the
    429 answer (its [Retry-After] header and [retryAfter] field carry
    [waitSeconds], its message [ceil(waitSeconds / 60)] minutes), or with
    the value of the local variable [record]. *)
Inductive Entered : Type :=
| Blocked (waitSeconds : Z)
| Proceed (record : option nat).

Definition enter (ip : string) (now : Z) (st : Store) : Store * Entered :=
  let record := bruteForceStore st !! ip in
  let '(st, record) :=
    match record ≫= λ ref, objects st !! ref with
    | Some o =>
        if (resetAt o <? now)%Z then (store_delete ip st, None) else (st, record)
    | None => (st, record)
    end in
  match record ≫= λ ref, objects st !! ref ≫= blockedUntil with
  | Some until =>
      if negb (until =? 0)%Z && (now <? until)%Z
      then (st, Blocked (ceil_div (until - now) 1000))
      else (st, Proceed record)
  | None => (st, Proceed record)
  end.

(** The part after [await next()], given [c.res.status]. *)
Definition leave (config : BruteForceOptions) (ip : string) (now : Z)
    (record : option nat) (status : nat) (st : Store) : Store * M unit :=
  if (status =? 401)%nat then
    let '(ref, st) :=
      match record with
      | None =>
          new_record {| count := 1; resetAt := now + windowMs config;
                        blockedUntil := None |} st
      | Some ref =>
          (ref, update_record ref
                  (λ o, {| count := S (count o); resetAt := resetAt o;
                           blockedUntil := blockedUntil o |}) st)
      end in
    let reached :=
      match objects st !! ref with
      | Some o => (maxAttempts config <=? count o)%nat
      | None => false
      end in
    if reached then
      let st :=
        update_record ref
          (λ o, {| count := count o; resetAt := resetAt o;
                   blockedUntil := Some (now + blockDurationMs config)%Z |}) st in
      (store_set ip ref st, Webhook.logSecurityEvent "ip_blocked_brute_force")
    else (store_set ip ref st, ret tt)
  else if (status =? 200)%nat then (store_delete ip st, ret tt)
  else (st, ret tt).

(** What the client gets. *)
Inductive Answer : Type :=
| TooManyAttempts (waitSeconds : Z)
| Downstream (resp : Webhook.Response).

(** One request handled without another one in between: [next] is the
    rest of the chain for this request. *)
Definition bruteForceProtection (config : BruteForceOptions) (ip : string)
    (now : Z) (next : M Webhook.Response) (st : Store) : Store * M Answer :=
  match enter ip now st with
  | (st, Blocked waitSeconds) => (st, ret (TooManyAttempts waitSeconds))
  | (st, Proceed record) =>
      match outcome next with
      | Ret resp =>
          let '(st', log) := leave config ip now record (Webhook.status resp) st in
          (st', resp ← next; log;; ret (Downstream resp))
      | Throw e => (st, resp ← next; ret (Downstream resp))
      end
  end.

(** The status of an answer. *)
Definition answer_status (a : Answer) : nat :=
  match a with
  | TooManyAttempts _ => 429
  | Downstream resp => Webhook.status resp
  end.

(** Requests from one address, one after the other, each answered by the
    rest of the chain with the given status. *)
Definition request (config : BruteForceOptions) (ip : string) (st : Store)
    (r : Z * nat) : Store :=
  (bruteForceProtection config ip r.1
     (ret {| Webhook.status := r.2; Webhook.body := Webhook.BodyNull |}) st).1.

Definition requests (config : BruteForceOptions) (ip : string)
    (rs : list (Z * nat)) (st : Store) : Store :=
  fold_left (request config ip) rs st.

(** Two requests from one address that overlap: both pass the first part
    before either comes back from the rest of the chain; the first to come
    back is the first that arrived. *)
Definition overlapped (config : BruteForceOptions) (ip : string)
    (a b : Z * nat) (st : Store) : Store :=
  let '(st, enteredA) := enter ip a.1 st in
  let '(st, enteredB) := enter ip b.1 st in
  let st :=
    match enteredA with
    | Proceed record => (leave config ip a.1 record a.2 st).1
    | Blocked _ => st
    end in
  match enteredB with
  | Proceed record => (leave config ip b.1 record b.2 st).1
  | Blocked _ => st
  end.

(** The record after one more counted failure at [now], and the record a
    first failure creates. *)
Definition counted (config : BruteForceOptions) (now : Z) (o : BruteForceRecord)
    : BruteForceRecord :=
  {| count := S (count o); resetAt := resetAt o;
     blockedUntil := if (maxAttempts config <=? S (count o))%nat
                     then Some (now + blockDurationMs config)%Z
                     else blockedUntil o |}.

Definition first_record (config : BruteForceOptions) (now : Z) : BruteForceRecord :=
  {| count := 1; resetAt := (now + windowMs config)%Z;
     blockedUntil := if (maxAttempts config <=? 1)%nat
                     then Some (now + blockDurationMs config)%Z
                     else None |}.

(** Every reference the map holds points to an object, and unused
    references are unused. *)
Definition wf (st : Store) : Prop :=
  (∀ ip ref, bruteForceStore st !! ip = Some ref → is_Some (objects st !! ref)) ∧
  (∀ ref, (next_object st ≤ ref)%nat → objects st !! ref = None).

End BruteForce.

(* ===================================================================== *)
(** ** Outbound API client (packages/twitch-api/src/base-client.ts) *)
(* ===================================================================== *)

Module TwitchApiBase.

Definition MAX_RETRIES : nat := 2.

(** The axios request config, as far as the interceptors touch it. *)
Record Config := {
  url : string;
  headers : gmap string string;
  __retryCount : option nat
}.

Definition set_header (k v : string) (config : Config) : Config :=
  {| url := url config; headers := <[k := v]> (headers config);
     __retryCount := __retryCount config |}.

Definition set_retryCount (n : nat) (config : Config) : Config :=
  {| url := url config; headers := headers config; __retryCount := Some n |}.

Record AxiosResponse := { resp_status : nat; resp_config : Config }.

(** What a rejected call carries: an [AxiosError] with [error.config] and
    [error.response?.status], or any other thrown value (no [config]). *)
Inductive ApiError : Type :=
| AxiosError (config : Config) (status : option nat)
| PlainError (e : Exn).

Inductive Result (A : Type) : Type :=
| Resolved (a : A)
| Reject (e : ApiError).
Arguments Resolved {A} a.
Arguments Reject {A} e.

Record AppToken := { access_token : string; expires_in : Z; updated_at : Z }.

(** Everything the client has done so far. *)
Record World := {
  sent : list Config;
  userRefreshes : list string;
  appRefreshes : nat;
  console : list string
}.

Definition initial : World :=
  {| sent := []; userRefreshes := []; appRefreshes := 0; console := [] |}.

(** The collaborators, each free to answer according to the history:
    the token store, Twitch's token endpoint, the network and the clock.
    [updated_at] is the stored timestamp already read by
    [new Date(..).getTime()], in milliseconds. *)
Record Env := {
  TWITCH_CLIENT_ID : string;
  getChannelAccessToken : World → string → Outcome string;
  getTwitchAppToken : World → Outcome AppToken;
  user_token_endpoint : World → string → Result (option string);
  app_token_endpoint : World → Result (option string);
  adapter : World → Config → option nat;
  Date_now : World → Z
}.

(** A call in progress: [None] only when the recursion budget of the model
    is used up. *)
Definition Api (A : Type) : Type := World → option (Result A * World).

Definition resolve {A} (a : A) : Api A := λ w, Some (Resolved a, w).
Definition reject {A} (e : ApiError) : Api A := λ w, Some (Reject e, w).

Definition and_then {A B} (m : Api A) (k : A → Api B) : Api B :=
  λ w, match m w with
       | Some (Resolved a, w') => k a w'
       | Some (Reject e, w') => Some (Reject e, w')
       | None => None
       end.

Definition on_rejected {A} (m : Api A) (h : ApiError → Api A) : Api A :=
  λ w, match m w with
       | Some (Reject e, w') => h e w'
       | other => other
       end.

#[global] Instance Api_ret : MRet Api := @resolve.
#[global] Instance Api_bind : MBind Api := λ A B k m, and_then m k.

(** The four ways a call leaves a mark on the world. *)
Definition record_sent (config : Config) (w : World) : World :=
  {| sent := sent w ++ [config]; userRefreshes := userRefreshes w;
     appRefreshes := appRefreshes w; console := console w |}.

Definition record_user_refresh (id : string) (w : World) : World :=
  {| sent := sent w; userRefreshes := userRefreshes w ++ [id];
     appRefreshes := appRefreshes w; console := console w |}.

Definition record_app_refresh (w : World) : World :=
  {| sent := sent w; userRefreshes := userRefreshes w;
     appRefreshes := S (appRefreshes w); console := console w |}.

Definition record_console (msg : string) (w : World) : World :=
  {| sent := sent w; userRefreshes := userRefreshes w;
     appRefreshes := appRefreshes w; console := console w ++ [msg] |}.

Definition console_print (msg : string) : Api unit :=
  λ w, Some (Resolved tt, record_console msg w).

(** A read of the token store; what it throws carries no [config]. *)
Definition ask {A} (f : World → Outcome A) : Api A :=
  λ w, Some (match f w with
             | Ret a => Resolved a
             | Throw e => Reject (PlainError e)
             end, w).

(** [!t] for a token of type [string | null]. *)
Definition no_token (t : option string) : bool :=
  match t with
  | None => true
  | Some s => String.eqb s ""
  end.

Section WithEnv.

Variable env : Env.
(** [this.broadcaster_id] *)
Variable broadcaster_id : option string.

(** The adapter: the request goes out; a 2xx status resolves, anything
    else rejects with an [AxiosError] that carries the config. *)
Definition dispatchRequest (config : Config) : Api AxiosResponse :=
  λ w,
    let w' := record_sent config w in
    match adapter env w config with
    | Some s =>
        if (200 <=? s)%nat && (s <? 300)%nat
        then Some (Resolved {| resp_status := s; resp_config := config |}, w')
        else Some (Reject (AxiosError config (Some s)), w')
    | None => Some (Reject (AxiosError config None), w')
    end.

Definition refreshUserToken (id : string) : Api (option string) :=
  on_rejected
    (λ w, Some (user_token_endpoint env w id, record_user_refresh id w))
    (λ error, console_print "Token refresh failed:";; reject error).

Definition refreshAppToken : Api (option string) :=
  on_rejected
    (λ w, Some (app_token_endpoint env w, record_app_refresh w))
    (λ error, console_print "Token refresh failed:";; reject error).

Definition checkTokenExpiry (updated_at expires_in : Z) : Api bool :=
  λ w,
    let updatedAtTimestamp := updated_at in
    let expiresInMs := (expires_in * 1000)%Z in
    let isExpired := (updatedAtTimestamp + expiresInMs <? Date_now env w)%Z in
    Some (Resolved isExpired, w).

(** One axios instance: the request interceptor, the adapter, then the
    response interceptor's rejection handler, which may call the instance
    again ([api(config)]). *)
Definition request_phase (onRequest : Config → Api Config) (config : Config)
    : Api AxiosResponse :=
  config' ← onRequest config; dispatchRequest config'.

Fixpoint axios_request (fuel : nat)
    (onRequest : Config → Api Config)
    (onRejected : (Config → Api AxiosResponse) → ApiError → Api AxiosResponse)
    (config : Config) : Api AxiosResponse :=
  match fuel with
  | O => λ _, None
  | S fuel' =>
      on_rejected
        (request_phase onRequest config)
        (onRejected (axios_request fuel' onRequest onRejected))
  end.

(** *** [clientInterceptor] *)

Definition clientRequestInterceptor (config : Config) : Api Config :=
  if no_token broadcaster_id then
    reject (PlainError (Error "Broadcaster ID is required in Twitch client interceptor"))
  else
    token ← ask (λ w, getChannelAccessToken env w (default "" broadcaster_id));
    let config := set_header "Client-Id" (TWITCH_CLIENT_ID env) config in
    let config := set_header "Content-Type" "application/json" config in
    let config := set_header "Authorization" ("Bearer " +:+ token) config in
    resolve config.

Definition clientResponseRejected (api : Config → Api AxiosResponse)
    (error : ApiError) : Api AxiosResponse :=
  match error with
  | PlainError _ => reject error
  | AxiosError config statusCode =>
      let currentRetryCount := default 0%nat (__retryCount config) in
      if bool_decide (statusCode = Some 401%nat)
         && (currentRetryCount <? MAX_RETRIES)%nat
      then
        let config := set_retryCount (currentRetryCount + 1) config in
        on_rejected
          (if no_token broadcaster_id
           then reject (PlainError
                          (Error "Broadcaster ID is required in Twitch client interceptor"))
           else
             console_print "Token expired, attempting to refresh for broadcaster:";;
             refreshUserToken (default "" broadcaster_id))
          (λ refreshError, console_print "Token refresh failed:";; reject refreshError)
        ≫= λ newToken,
          if no_token newToken then reject (AxiosError config statusCode)
          else
            let config :=
              set_header "Authorization" ("Bearer " +:+ default "" newToken) config in
            console_print "Token refreshed, retrying request";;
            api config
      else reject error
  end.

Definition clientApi (fuel : nat) : Config → Api AxiosResponse :=
  axios_request fuel clientRequestInterceptor clientResponseRejected.

(** *** [appInterceptor] *)

Definition appRequestInterceptor (config : Config) : Api Config :=
  tok ← ask (getTwitchAppToken env);
  let access_token := access_token tok in
  expired ← checkTokenExpiry (updated_at tok) (expires_in tok);
  token ← (if expired : bool then
             newToken ← refreshAppToken;
             if no_token newToken
             then reject (PlainError (Error "Failed to refresh app token"))
             else resolve (default "" newToken)
           else resolve access_token);
  let config := set_header "Client-Id" (TWITCH_CLIENT_ID env) config in
  let config := set_header "Content-Type" "application/json" config in
  let config := set_header "Authorization" ("Bearer " +:+ access_token) config in
  resolve config.

Definition appResponseRejected (api : Config → Api AxiosResponse)
    (error : ApiError) : Api AxiosResponse :=
  match error with
  | PlainError _ => reject error
  | AxiosError config statusCode =>
      let currentRetryCount := default 0%nat (__retryCount config) in
      if bool_decide (statusCode = Some 401%nat)
         && (currentRetryCount <? MAX_RETRIES)%nat
      then
        let config := set_retryCount (currentRetryCount + 1) config in
        on_rejected
          (console_print "Token invalid, attempting to refresh for app token";;
           refreshAppToken)
          (λ refreshError, console_print "Token refresh failed:";; reject refreshError)
        ≫= λ newToken,
          if no_token newToken
          then reject (PlainError (Error "Failed to refresh app token"))
          else
            let config :=
              set_header "Authorization" ("Bearer " +:+ default "" newToken) config in
            console_print "Token refreshed, retrying request";;
            api config
      else reject error
  end.

Definition appApi (fuel : nat) : Config → Api AxiosResponse :=
  axios_request fuel appRequestInterceptor appResponseRejected.

(** The three headers both request interceptors write. *)
Definition stamped (token : string) (config : Config) : Config :=
  set_header "Authorization" ("Bearer " +:+ token)
    (set_header "Content-Type" "application/json"
       (set_header "Client-Id" (TWITCH_CLIENT_ID env) config)).

(** The token store and the user-token endpoint always answer with a
    token. *)
Definition store_answers : Prop :=
  ∀ w id, ∃ t, getChannelAccessToken env w id = Ret t.

Definition endpoint_grants : Prop :=
  ∀ w id, ∃ tok,
    user_token_endpoint env w id = Resolved (Some tok) ∧
    no_token (Some tok) = false.

(** A call made through a fresh instance, e.g.
    [this.clientApi().get(url)]: the config starts without a retry count.
    The interceptor can ask for [MAX_RETRIES + 1] rounds at most; the model
    allows one more. *)
Definition fresh_config (url : string) : Config :=
  {| url := url; headers := ∅; __retryCount := None |}.

Definition client_call (url : string) : Api AxiosResponse :=
  clientApi (S (S MAX_RETRIES)) (fresh_config url).

Definition app_call (url : string) : Api AxiosResponse :=
  appApi (S (S MAX_RETRIES)) (fresh_config url).

End WithEnv.

End TwitchApiBase.

(* ===================================================================== *)
(** ** WebSocket receiver (packages/twitch-eventsub/src/index.ts) *)
(* ===================================================================== *)

Module EventSub.

Inductive ConnectionState := disconnected | connecting | connected | reconnecting.

Inductive ReadyState := CONNECTING | OPEN | CLOSING | CLOSED.

(** A socket object: where it connects to, its [readyState], and whether
    the receiver's [onopen]/[onmessage]/[onerror]/[onclose] are installed. *)
Record WebSocket := { ws_url : string; readyState : ReadyState; hooked : bool }.

(** The three closures the receiver hands to [setTimeout]. *)
Inductive Callback := CheckKeepalive | Reconnect | CloseSocket.

Record Timer := { timer_id : nat; callback : Callback; delay : Q }.

Record Options := {
  wsUrl : string;
  maxReconnectAttempts : nat;
  baseReconnectDelay : Q;
  maxReconnectDelay : Q;
  maxMissedKeepalives : nat
}.

(** The constructor's defaults. *)
Definition default_options : Options :=
  {| wsUrl := "wss://eventsub.wss.twitch.tv/ws";
     maxReconnectAttempts := 10;
     baseReconnectDelay := 1000;
     maxReconnectDelay := 30000;
     maxMissedKeepalives := 10 |}.

(** The receiver's fields, followed by the host's side of the story: the
    pending timers, the next timer handle, the sockets [close()] was called
    on, and the console. *)
Record Receiver := {
  options : Options;
  ws : option WebSocket;
  sessionId : option string;
  reconnectUrl : option string;
  keepaliveTimer : option nat;
  keepaliveInterval : Z;
  lastKeepaliveTime : Z;
  missedKeepalives : nat;
  connectionState : ConnectionState;
  reconnectAttempts : nat;
  timers : list Timer;
  next_timer : nat;
  closed : list string;
  console : list string
}.

Definition set_ws (v : option WebSocket) (r : Receiver) : Receiver :=
  {| options := options r; ws := v; sessionId := sessionId r;
     reconnectUrl := reconnectUrl r; keepaliveTimer := keepaliveTimer r;
     keepaliveInterval := keepaliveInterval r;
     lastKeepaliveTime := lastKeepaliveTime r;
     missedKeepalives := missedKeepalives r;
     connectionState := connectionState r;
     reconnectAttempts := reconnectAttempts r; timers := timers r;
     next_timer := next_timer r; closed := closed r; console := console r |}.

Definition set_reconnectUrl (v : option string) (r : Receiver) : Receiver :=
  {| options := options r; ws := ws r; sessionId := sessionId r;
     reconnectUrl := v; keepaliveTimer := keepaliveTimer r;
     keepaliveInterval := keepaliveInterval r;
     lastKeepaliveTime := lastKeepaliveTime r;
     missedKeepalives := missedKeepalives r;
     connectionState := connectionState r;
     reconnectAttempts := reconnectAttempts r; timers := timers r;
     next_timer := next_timer r; closed := closed r; console := console r |}.

Definition set_keepaliveTimer (v : option nat) (r : Receiver) : Receiver :=
  {| options := options r; ws := ws r; sessionId := sessionId r;
     reconnectUrl := reconnectUrl r; keepaliveTimer := v;
     keepaliveInterval := keepaliveInterval r;
     lastKeepaliveTime := lastKeepaliveTime r;
     missedKeepalives := missedKeepalives r;
     connectionState := connectionState r;
     reconnectAttempts := reconnectAttempts r; timers := timers r;
     next_timer := next_timer r; closed := closed r; console := console r |}.

Definition set_keepaliveInterval (v : Z) (r : Receiver) : Receiver :=
  {| options := options r; ws := ws r; sessionId := sessionId r;
     reconnectUrl := reconnectUrl r; keepaliveTimer := keepaliveTimer r;
     keepaliveInterval := v;
     lastKeepaliveTime := lastKeepaliveTime r;
     missedKeepalives := missedKeepalives r;
     connectionState := connectionState r;
     reconnectAttempts := reconnectAttempts r; timers := timers r;
     next_timer := next_timer r; closed := closed r; console := console r |}.

Definition set_missedKeepalives (v : nat) (r : Receiver) : Receiver :=
  {| options := options r; ws := ws r; sessionId := sessionId r;
     reconnectUrl := reconnectUrl r; keepaliveTimer := keepaliveTimer r;
     keepaliveInterval := keepaliveInterval r;
     lastKeepaliveTime := lastKeepaliveTime r;
     missedKeepalives := v;
     connectionState := connectionState r;
     reconnectAttempts := reconnectAttempts r; timers := timers r;
     next_timer := next_timer r; closed := closed r; console := console r |}.

Definition set_connectionState (v : ConnectionState) (r : Receiver) : Receiver :=
  {| options := options r; ws := ws r; sessionId := sessionId r;
     reconnectUrl := reconnectUrl r; keepaliveTimer := keepaliveTimer r;
     keepaliveInterval := keepaliveInterval r;
     lastKeepaliveTime := lastKeepaliveTime r;
     missedKeepalives := missedKeepalives r;
     connectionState := v;
     reconnectAttempts := reconnectAttempts r; timers := timers r;
     next_timer := next_timer r; closed := closed r; console := console r |}.

Definition set_reconnectAttempts (v : nat) (r : Receiver) : Receiver :=
  {| options := options r; ws := ws r; sessionId := sessionId r;
     reconnectUrl := reconnectUrl r; keepaliveTimer := keepaliveTimer r;
     keepaliveInterval := keepaliveInterval r;
     lastKeepaliveTime := lastKeepaliveTime r;
     missedKeepalives := missedKeepalives r;
     connectionState := connectionState r;
     reconnectAttempts := v; timers := timers r;
     next_timer := next_timer r; closed := closed r; console := console r |}.

Definition set_host (ts : list Timer) (next : nat) (cl : list string)
    (out : list string) (r : Receiver) : Receiver :=
  {| options := options r; ws := ws r; sessionId := sessionId r;
     reconnectUrl := reconnectUrl r; keepaliveTimer := keepaliveTimer r;
     keepaliveInterval := keepaliveInterval r;
     lastKeepaliveTime := lastKeepaliveTime r;
     missedKeepalives := missedKeepalives r;
     connectionState := connectionState r;
     reconnectAttempts := reconnectAttempts r; timers := ts;
     next_timer := next; closed := cl; console := out |}.

(** A receiver as the constructor leaves it. *)
Definition new_receiver (opts : Options) (now : Z) : Receiver :=
  {| options := opts; ws := None; sessionId := None; reconnectUrl := None;
     keepaliveTimer := None; keepaliveInterval := 10; lastKeepaliveTime := now;
     missedKeepalives := 0; connectionState := disconnected;
     reconnectAttempts := 0; timers := []; next_timer := 0; closed := [];
     console := [] |}.

(** *** The host's primitives *)

Definition print (msg : string) (r : Receiver) : Receiver :=
  set_host (timers r) (next_timer r) (closed r) (console r ++ [msg]) r.

(** [setTimeout(cb, delay)]: the handle and the receiver afterwards. *)
Definition setTimeout (cb : Callback) (d : Q) (r : Receiver) : nat * Receiver :=
  (next_timer r,
   set_host (timers r ++ [{| timer_id := next_timer r; callback := cb; delay := d |}])
            (S (next_timer r)) (closed r) (console r) r).

Definition clearTimeout (id : nat) (r : Receiver) : Receiver :=
  set_host (filter (λ t, timer_id t ≠ id) (timers r))
           (next_timer r) (closed r) (console r) r.

(** [socket.close()] *)
Definition ws_close (s : WebSocket) (r : Receiver) : Receiver :=
  set_host (timers r) (next_timer r) (closed r ++ [ws_url s]) (console r) r.

(** [if (s)] for a field of type [string | null]. *)
Definition known (s : option string) : bool :=
  match s with
  | None => false
  | Some u => negb (String.eqb u "")
  end.

(** [Math.pow(2, n)] for a counter [n], exactly; in doubles it is
    [Infinity] from [n = 1024] on, which the cap absorbs for a base of 1 or
    more and a zero base turns into [NaN]. *)
Definition Math_pow2 (n : nat) : Q := inject_Z (2 ^ Z.of_nat n).

Section WithHost.

(** Whether [new WebSocket(url)] accepts the URL; it throws otherwise. *)
Variable url_ok : string → bool.

Definition cleanup (r : Receiver) : Receiver :=
  let r :=
    match keepaliveTimer r with
    | Some id => set_keepaliveTimer None (clearTimeout id r)
    | None => r
    end in
  match ws r with
  | Some s =>
      let r :=
        match readyState s with
        | OPEN | CONNECTING => ws_close s r
        | _ => r
        end in
      set_ws None r
  | None => r
  end.

Definition setupEventHandlers (r : Receiver) : Receiver :=
  match ws r with
  | None => r
  | Some s =>
      set_ws (Some {| ws_url := ws_url s; readyState := readyState s;
                      hooked := true |}) r
  end.

(** The body of [ws.onopen]. *)
Definition onopen (r : Receiver) : Receiver :=
  let r := print "WebSocket connected" r in
  let r := set_connectionState connected r in
  set_reconnectAttempts 0 r.

(** The transport reports that the connection is established: the socket
    becomes [OPEN] and, if the receiver's handlers are installed, [onopen]
    runs. *)
Definition open_event (r : Receiver) : Receiver :=
  match ws r with
  | Some s =>
      let r := set_ws (Some {| ws_url := ws_url s; readyState := OPEN;
                               hooked := hooked s |}) r in
      if hooked s then onopen r else r
  | None => r
  end.

Definition connect (r : Receiver) : Receiver * option Exn :=
  match connectionState r with
  | connecting | connected => (print "Already connected or connecting" r, None)
  | _ =>
      let r := set_connectionState connecting r in
      let r := print "Connecting to Twitch EventSub WebSocket..." r in
      let r := cleanup r in
      if url_ok (wsUrl (options r)) then
        let r := set_ws (Some {| ws_url := wsUrl (options r);
                                 readyState := CONNECTING; hooked := false |}) r in
        (setupEventHandlers r, None)
      else
        let error := SyntaxError "Invalid URL" in
        let r := print "Connection failed:" r in
        (set_connectionState disconnected r, Some error)
  end.

Definition disconnect (r : Receiver) : Receiver :=
  let r := print "Disconnecting from Twitch EventSub..." r in
  let r := set_connectionState disconnected r in
  let r := set_reconnectAttempts (maxReconnectAttempts (options r)) r in
  cleanup r.

(** [random] is the value [Math.random()] returns, in [0, 1).  The
    arithmetic is exact here; the code's doubles round the product
    [random * 1000] and the sum, so the delay it returns can be the upper
    end [min(..) + 1000] itself, which is [random = 1] here. *)
Definition getReconnectDelay (r : Receiver) (random : Q) : Q :=
  let delay :=
    Qmin (baseReconnectDelay (options r) * Math_pow2 (reconnectAttempts r))
         (maxReconnectDelay (options r)) in
  (delay + random * 1000)%Q.

Definition scheduleReconnect (r : Receiver) (random : Q) : Receiver :=
  let delay := getReconnectDelay r random in
  let r := print "Scheduling reconnect" r in
  (setTimeout Reconnect delay r).2.

Definition reconnect (r : Receiver) (random : Q) : Receiver * option Exn :=
  match connectionState r with
  | connecting | reconnecting =>
      (print "Already attempting to connect, skipping duplicate reconnect" r, None)
  | _ =>
      if (maxReconnectAttempts (options r) <=? reconnectAttempts r)%nat then
        let r := print "Max reconnection attempts reached. Giving up." r in
        (set_connectionState disconnected r, None)
      else
        let r := set_connectionState reconnecting r in
        let r := set_reconnectAttempts (S (reconnectAttempts r)) r in
        if known (reconnectUrl r) then
          let r := print "Reconnecting using reconnect URL..." r in
          let r := cleanup r in
          if url_ok (default "" (reconnectUrl r)) then
            let r := set_ws (Some {| ws_url := default "" (reconnectUrl r);
                                     readyState := CONNECTING;
                                     hooked := false |}) r in
            let r := setupEventHandlers r in
            let r := set_connectionState connected r in
            (set_reconnectAttempts 0 r, None)
          else
            let r := print "Reconnection failed:" r in
            (scheduleReconnect r random, None)
        else connect r
  end.

Definition startKeepaliveTimer (r : Receiver) (timeoutSeconds : Z) : Receiver :=
  let r :=
    match keepaliveTimer r with
    | Some id => clearTimeout id r
    | None => r
    end in
  let r := set_keepaliveInterval timeoutSeconds r in
  let checkInterval := ((timeoutSeconds + 2) * 1000)%Z in
  let '(id, r) := setTimeout CheckKeepalive (inject_Z checkInterval) r in
  set_keepaliveTimer (Some id) r.

(** [now] is the reading of [Date.now()]. *)
Definition checkKeepalive (r : Receiver) (now : Z) : Receiver :=
  let timeSinceLastKeepalive := (now - lastKeepaliveTime r)%Z in
  let expectedInterval := (keepaliveInterval r * 1000)%Z in
  let schedule_next (r : Receiver) : Receiver :=
    let nextCheckIn := (keepaliveInterval r * 1000)%Z in
    let '(id, r) := setTimeout CheckKeepalive (inject_Z nextCheckIn) r in
    set_keepaliveTimer (Some id) r in
  if (expectedInterval + 2000 <? timeSinceLastKeepalive)%Z then
    let r := set_missedKeepalives (S (missedKeepalives r)) r in
    if (maxMissedKeepalives (options r) <=? missedKeepalives r)%nat then
      match ws r with
      | Some s => ws_close s r
      | None => r
      end
    else schedule_next r
  else schedule_next r.

Definition getCloseReason (code : Z) : string :=
  if (code =? 4000)%Z then "Internal server error"
  else if (code =? 4001)%Z then "Client sent inbound traffic"
  else if (code =? 4002)%Z then "Client failed ping-pong"
  else if (code =? 4003)%Z then "Connection unused"
  else if (code =? 4004)%Z then "Reconnect grace time expired"
  else if (code =? 4005)%Z then "Network timeout"
  else if (code =? 4006)%Z then "Network error"
  else if (code =? 4007)%Z then "Invalid reconnect URL"
  else if (code =? 1000)%Z then "Normal closure"
  else "Unknown close code".

Definition handleClose (r : Receiver) (closeCode : Z) (random : Q) : Receiver :=
  let closeReason := getCloseReason closeCode in
  let r := print ("WebSocket closed: " +:+ closeReason) r in
  let r := set_connectionState disconnected r in
  let r := cleanup r in
  if (closeCode =? 4001)%Z then
    print "Client error - not reconnecting" r
  else if (closeCode =? 4003)%Z then
    let r := print "Connection unused - reconnecting with fresh connection" r in
    let r := set_reconnectUrl None r in
    scheduleReconnect r random
  else if (closeCode =? 4007)%Z then
    let r := print "Invalid reconnect URL - will use fresh connection" r in
    let r := set_reconnectUrl None r in
    scheduleReconnect r random
  else if (closeCode =? 1000)%Z then
    let r := print "Normal closure" r in
    if known (reconnectUrl r) then scheduleReconnect r random else r
  else
    if known (reconnectUrl r) then
      let r := print "Using reconnect URL for recovery" r in
      scheduleReconnect r random
    else
      let r := print "No reconnect URL, will create fresh connection" r in
      scheduleReconnect r random.

(** The transport reports a close: the socket is [CLOSED] and, if the
    receiver's handlers are installed, [handleClose] runs. *)
Definition close_event (r : Receiver) (closeCode : Z) (random : Q) : Receiver :=
  match ws r with
  | Some s =>
      let r := set_ws (Some {| ws_url := ws_url s; readyState := CLOSED;
                               hooked := hooked s |}) r in
      if hooked s then handleClose r closeCode random else r
  | None => r
  end.

(** The URL the next socket is opened on when [reconnect] goes ahead. *)
Definition best_url (r : Receiver) : string :=
  if known (reconnectUrl r) then default "" (reconnectUrl r)
  else wsUrl (options r).

End WithHost.

(** A call of [reconnect] is pending on a timer. *)
Definition reconnect_scheduled (r : Receiver) : bool :=
  existsb (λ t, match callback t with Reconnect => true | _ => false end) (timers r).

End EventSub.

(* ===================================================================== *)
(** ** The receiver's inbound messages and its timers' callbacks
       (packages/twitch-eventsub/src/index.ts) *)
(* ===================================================================== *)

Module Inbound.
Import EventSub.

(** A parsed message, with the fields [handleMessage] reads and the types
    its casts give them ([WebSocketMessage] in packages/types): [metadata]
    and [payload] are objects, the optional fields are [None] when absent.
    Console lines of [handleMessage] and [onmessage] are part of the trace
    of the awaited call, in order with the collaborators' effects. *)
Record Session := {
  id : option string;
  reconnect_url : option string;
  keepalive_timeout_seconds : option Z
}.

Record Subscription := { status : option string; type : option string }.

Record Metadata := { message_type : string; subscription_type : option string }.

Record Payload := {
  session : option Session;
  event : JsValue;
  subscription : option Subscription
}.

Record WebSocketMessage := { metadata : Metadata; payload : Payload }.

Definition set_sessionId (v : option string) (r : Receiver) : Receiver :=
  {| options := options r; ws := ws r; sessionId := v;
     reconnectUrl := reconnectUrl r; keepaliveTimer := keepaliveTimer r;
     keepaliveInterval := keepaliveInterval r;
     lastKeepaliveTime := lastKeepaliveTime r;
     missedKeepalives := missedKeepalives r;
     connectionState := connectionState r;
     reconnectAttempts := reconnectAttempts r; timers := timers r;
     next_timer := next_timer r; closed := closed r; console := console r |}.

Definition set_lastKeepaliveTime (v : Z) (r : Receiver) : Receiver :=
  {| options := options r; ws := ws r; sessionId := sessionId r;
     reconnectUrl := reconnectUrl r; keepaliveTimer := keepaliveTimer r;
     keepaliveInterval := keepaliveInterval r;
     lastKeepaliveTime := v;
     missedKeepalives := missedKeepalives r;
     connectionState := connectionState r;
     reconnectAttempts := reconnectAttempts r; timers := timers r;
     next_timer := next_timer r; closed := closed r; console := console r |}.

(** [s || null] for [s : string | undefined | null]. *)
Definition or_null (s : option string) : option string :=
  if known s then s else None.

(** [if (n)] for [n : number | undefined]. *)
Definition nonzero (n : option Z) : bool :=
  match n with
  | Some t => negb (t =? 0)%Z
  | None => false
  end.

Definition getRevocationReason (status : option string) : string :=
  match status with
  | Some s =>
      if String.eqb s "user_removed" then "The user no longer exists"
      else if String.eqb s "authorization_revoked"
      then "The authorization token was revoked"
      else if String.eqb s "version_removed"
      then "The subscription type/version is no longer supported"
      else "Unknown reason"
  | None => "Unknown reason"
  end.

(** The callback of the timer set on [session_reconnect]:
    [this.ws?.close()]. *)
Definition closeSocket (r : Receiver) : Receiver :=
  match ws r with
  | Some s => ws_close s r
  | None => r
  end.

Section WithCollaborators.

(** [this.conduitId] *)
Variable conduitId : string.
(** [this.twitchApi.eventsub.updateShardTransport(conduitId, shard,
    { method: 'websocket', session_id })] *)
Variable updateShardTransport : string → string → string → M unit.
(** [this.eventHandler.processTwitchEvent] *)
Variable processTwitchEvent : string → WebSocketMessage → M unit.
(** [JSON.parse(event.data)], read at the type the handler casts it to. *)
Variable JSON_parse : string → Outcome WebSocketMessage.

(** [now] is the reading of [Date.now()].  The receiver's fields change as
    the first component says, whether or not the awaited calls of the
    second succeed. *)
Definition handleMessage (r : Receiver) (now : Z) (message : WebSocketMessage)
    : Receiver * M unit :=
  let metadata := metadata message in
  let payload := payload message in
  if String.eqb (message_type metadata) "session_welcome" then
    let r := set_sessionId (or_null (session payload ≫= id)) r in
    let r := set_reconnectUrl (or_null (session payload ≫= reconnect_url)) r in
    let r := set_lastKeepaliveTime now r in
    let welcomeSession := session payload in
    let r :=
      if nonzero (welcomeSession ≫= keepalive_timeout_seconds)
      then startKeepaliveTimer r
             (default 0%Z (welcomeSession ≫= keepalive_timeout_seconds))
      else r in
    (r,
     if negb (String.eqb conduitId "") && known (sessionId r) then
       try_catch
         (console_log [LStr "Updating conduit shards with session ID:";
                       LVal (JStr (default "" (sessionId r)))];;
          updateShardTransport conduitId "0" (default "" (sessionId r)))
         (λ error, console_error [LStr "Failed to update conduit shards:"; LExn error])
     else ret tt)
  else if String.eqb (message_type metadata) "session_keepalive" then
    let r := set_lastKeepaliveTime now r in
    let r := set_missedKeepalives 0 r in
    let keepaliveSession := session payload in
    let r :=
      if nonzero (keepaliveSession ≫= keepalive_timeout_seconds)
      then set_keepaliveInterval
             (default 0%Z (keepaliveSession ≫= keepalive_timeout_seconds)) r
      else r in
    (r, ret tt)
  else if String.eqb (message_type metadata) "notification" then
    (r,
     if known (subscription_type metadata) && truthy (event payload)
     then processTwitchEvent (default "" (subscription_type metadata)) message
     else ret tt)
  else if String.eqb (message_type metadata) "session_reconnect" then
    let r := set_reconnectUrl (or_null (session payload ≫= reconnect_url)) r in
    if known (reconnectUrl r) then
      ((setTimeout CloseSocket 5000 r).2,
       console_log [LStr "Session reconnect requested"])
    else
      (r,
       console_log [LStr "Session reconnect requested"];;
       console_error [LStr "Reconnect URL not provided in session_reconnect message"])
  else if String.eqb (message_type metadata) "revocation" then
    let subscription := subscription payload in
    let revocationReason := getRevocationReason (subscription ≫= status) in
    (r,
     console_warn [LStr ("Subscription revoked (" +:+
                         default "undefined" (subscription ≫= type) +:+ "): " +:+
                         revocationReason)])
  else (r, ret tt).

(** The body of [ws.onmessage]. *)
Definition onmessage (r : Receiver) (now : Z) (data : string) : Receiver * M unit :=
  match JSON_parse data with
  | Ret message =>
      let '(r', m) := handleMessage r now message in
      (r', try_catch m
             (λ error, console_error [LStr "Error parsing WebSocket message:"; LExn error]))
  | Throw error =>
      (r, console_error [LStr "Error parsing WebSocket message:"; LExn error])
  end.

End WithCollaborators.

Section Sequences.

Variable url_ok : string → bool.

(** A connection that fails: the transport closes the socket with a code,
    and the timer set by [handleClose] runs [reconnect]. *)
Definition failed_attempt (r : Receiver) (a : Z * Q) : Receiver :=
  (reconnect url_ok (close_event r a.1 a.2) a.2).1.

Definition failed_attempts (attempts : list (Z * Q)) (r : Receiver) : Receiver :=
  fold_left failed_attempt attempts r.

(** The keepalive checks that run at the given clock readings. *)
Definition checks (times : list Z) (r : Receiver) : Receiver :=
  fold_left checkKeepalive times r.

End Sequences.

(** The receiver's socket exists and has the receiver's handlers. *)
Definition live (r : Receiver) : Prop :=
  ∃ s, ws r = Some s ∧ hooked s = true.

(** The message types that [handleMessage] lets change the receiver. *)
Definition session_message (m : WebSocketMessage) : bool :=
  String.eqb (message_type (metadata m)) "session_welcome"
  || String.eqb (message_type (metadata m)) "session_keepalive"
  || String.eqb (message_type (metadata m)) "session_reconnect".

End Inbound.

(* ===================================================================== *)
(** ** Concrete scenarios used to exercise the properties below *)
(* ===================================================================== *)

Module Scenario.
Import Dispatch.

(** A database whose [integrations_twitch] table holds broadcaster 42 only. *)
Definition db (id : JsValue) : DbResult :=
  match id with
  | JStr s =>
      if String.eqb s "42"
      then {| data := JObj [("user_id", JStr "user-1")]; error := JNull |}
      else {| data := JNull; error := JObj [("code", JStr "PGRST116")] |}
  | _ => {| data := JNull; error := JObj [("code", JStr "PGRST116")] |}
  end.

(** An application handler that always throws, and one that records the
    event it was given. *)
Definition failing_handler : EventHandler :=
  λ _ _, throw (Error "boom").

Definition recording_handler (tag : string) : EventHandler :=
  λ event _, emit (EApp tag event).

Definition accept_all : ZodType := {| parse := λ v, Ret v |}.

Definition offline_event : JsValue :=
  JObj [("broadcaster_user_id", JStr "42");
        ("broadcaster_user_login", JStr "wizard");
        ("broadcaster_user_name", JStr "Wizard")].

Definition online_event : JsValue :=
  JObj [("id", JStr "9001"); ("broadcaster_user_id", JStr "42");
        ("type", JStr "live")].

(** An event of an unknown shape: no tenant field anywhere. *)
Definition anonymous_event : JsValue :=
  JObj [("user_id", JStr "7"); ("data", JArr [JObj [("id", JStr "1")]])].

(** An event for a broadcaster the database does not know. *)
Definition stranger_event : JsValue :=
  JObj [("broadcaster_user_id", JStr "777")].

Definition registry : gmap string InternalHandler :=
  registerTwitchHandler
    (registerTwitchHandler ∅ "stream.offline" failing_handler (Some accept_all))
    "stream.online" (recording_handler "online") (Some accept_all).

(** *** A webhook environment *)

Definition secret : string := "s3cr3t-webhook-key".

(** A stand-in for HMAC-SHA256: the model is parametric in the digest
    function, and a request is signed by whatever digest it yields. *)
Definition digest (key message : string) : string :=
  "d1ce" +:+ key +:+ "/" +:+ message.

Definition dq : string := String (ascii_of_nat 34) EmptyString.

(** [{"challenge":"abc123","subscription":{"id":"sub-1","type":"stream.online"}}] *)
Definition challenge_body : string :=
  "{" +:+ dq +:+ "challenge" +:+ dq +:+ ":" +:+ dq +:+ "abc123" +:+ dq +:+ ","
  +:+ dq +:+ "subscription" +:+ dq +:+ ":{" +:+ dq +:+ "id" +:+ dq +:+ ":"
  +:+ dq +:+ "sub-1" +:+ dq +:+ "," +:+ dq +:+ "type" +:+ dq +:+ ":"
  +:+ dq +:+ "stream.online" +:+ dq +:+ "}}".

Definition subscription_value : JsValue :=
  JObj [("id", JStr "sub-1"); ("type", JStr "stream.online")].

Definition challenge_payload : JsValue :=
  JObj [("challenge", JStr "abc123"); ("subscription", subscription_value)].

(** [{"subscription":{"id":"sub-1","type":"stream.online"}}]: a
    verification request that carries no challenge. *)
Definition bare_body : string :=
  "{" +:+ dq +:+ "subscription" +:+ dq +:+ ":{" +:+ dq +:+ "id" +:+ dq +:+ ":"
  +:+ dq +:+ "sub-1" +:+ dq +:+ "," +:+ dq +:+ "type" +:+ dq +:+ ":"
  +:+ dq +:+ "stream.online" +:+ dq +:+ "}}".

Definition bare_payload : JsValue := JObj [("subscription", subscription_value)].

(** [{"subscription":{..},"event":{"id":"9001","broadcaster_user_id":"42","type":"live"}}] *)
Definition notification_body : string :=
  "{" +:+ dq +:+ "subscription" +:+ dq +:+ ":{" +:+ dq +:+ "id" +:+ dq +:+ ":"
  +:+ dq +:+ "sub-1" +:+ dq +:+ "," +:+ dq +:+ "type" +:+ dq +:+ ":"
  +:+ dq +:+ "stream.online" +:+ dq +:+ "}," +:+ dq +:+ "event" +:+ dq +:+ ":{"
  +:+ dq +:+ "id" +:+ dq +:+ ":" +:+ dq +:+ "9001" +:+ dq +:+ ","
  +:+ dq +:+ "broadcaster_user_id" +:+ dq +:+ ":" +:+ dq +:+ "42" +:+ dq +:+ ","
  +:+ dq +:+ "type" +:+ dq +:+ ":" +:+ dq +:+ "live" +:+ dq +:+ "}}".

Definition notification_payload : JsValue :=
  JObj [("subscription", subscription_value); ("event", online_event)].

(** [{"subscription":{"id":"sub-2","type":"user.authorization.revoke"},
      "event":{"client_id":"client-1","user_id":"7"}}]: an event type whose
    payload has no broadcaster field. *)
Definition revoke_body : string :=
  "{" +:+ dq +:+ "subscription" +:+ dq +:+ ":{" +:+ dq +:+ "id" +:+ dq +:+ ":"
  +:+ dq +:+ "sub-2" +:+ dq +:+ "," +:+ dq +:+ "type" +:+ dq +:+ ":"
  +:+ dq +:+ "user.authorization.revoke" +:+ dq +:+ "}," +:+ dq +:+ "event" +:+ dq +:+ ":{"
  +:+ dq +:+ "client_id" +:+ dq +:+ ":" +:+ dq +:+ "client-1" +:+ dq +:+ ","
  +:+ dq +:+ "user_id" +:+ dq +:+ ":" +:+ dq +:+ "7" +:+ dq +:+ "}}".

Definition revoke_payload : JsValue :=
  JObj [("subscription",
         JObj [("id", JStr "sub-2"); ("type", JStr "user.authorization.revoke")]);
        ("event", JObj [("client_id", JStr "client-1"); ("user_id", JStr "7")])].

(** [JSON.parse] on the bodies above; every other text used below is not
    JSON. *)
Definition JSON_parse (text : string) : Outcome JsValue :=
  if String.eqb text challenge_body then Ret challenge_payload
  else if String.eqb text bare_body then Ret bare_payload
  else if String.eqb text notification_body then Ret notification_payload
  else if String.eqb text revoke_body then Ret revoke_payload
  else Throw (SyntaxError "Unexpected token").

Definition sign (messageId timestamp body : string) : string :=
  "sha256=" +:+ digest secret (messageId +:+ timestamp +:+ body).

(** A [POST] whose signature header matches its body. *)
Definition signed_request (messageType body : string) : Webhook.Context :=
  {| Webhook.req_headers :=
       [("content-type", "application/json");
        ("twitch-eventsub-message-id", "msg-1");
        ("twitch-eventsub-message-timestamp", "2026-01-01T00:00:00Z");
        ("twitch-eventsub-message-signature",
         sign "msg-1" "2026-01-01T00:00:00Z" body);
        ("twitch-eventsub-message-type", messageType)];
     Webhook.req_method := "POST";
     Webhook.req_path := "/webhooks/twitch/eventsub";
     Webhook.req_text := body;
     Webhook.var_requestId := Some "req-1";
     Webhook.var_rawBody := Some body;
     Webhook.var_twitchNotification := JUndefined;
     Webhook.var_twitchMessageType := JUndefined |}.

(** The same request with the signature of another body. *)
Definition forged_request (messageType body : string) : Webhook.Context :=
  {| Webhook.req_headers :=
       [("twitch-eventsub-message-id", "msg-1");
        ("twitch-eventsub-message-timestamp", "2026-01-01T00:00:00Z");
        ("twitch-eventsub-message-signature",
         sign "msg-1" "2026-01-01T00:00:00Z" "other");
        ("twitch-eventsub-message-type", messageType)];
     Webhook.req_method := "POST";
     Webhook.req_path := "/webhooks/twitch/eventsub";
     Webhook.req_text := body;
     Webhook.var_requestId := Some "req-1";
     Webhook.var_rawBody := Some body;
     Webhook.var_twitchNotification := JUndefined;
     Webhook.var_twitchMessageType := JUndefined |}.

(** A request without the message-type header. *)
Definition untyped_request (body : string) : Webhook.Context :=
  {| Webhook.req_headers :=
       [("twitch-eventsub-message-id", "msg-1");
        ("twitch-eventsub-message-timestamp", "2026-01-01T00:00:00Z");
        ("twitch-eventsub-message-signature",
         sign "msg-1" "2026-01-01T00:00:00Z" body)];
     Webhook.req_method := "POST";
     Webhook.req_path := "/webhooks/twitch/eventsub";
     Webhook.req_text := body;
     Webhook.var_requestId := Some "req-1";
     Webhook.var_rawBody := Some body;
     Webhook.var_twitchNotification := JUndefined;
     Webhook.var_twitchMessageType := JUndefined |}.

Definition route : Webhook.Context → M Webhook.Response :=
  Webhook.eventsub_route secret digest JSON_parse db registry.

(** *** API environments *)

Definition stored_app_token : TwitchApiBase.AppToken :=
  {| TwitchApiBase.access_token := "old-app-token";
     TwitchApiBase.expires_in := 3600;
     TwitchApiBase.updated_at := 1767225600000 |}.

(** Twitch answers every request with the given status (depending on how
    many requests went out before); the token store and the token
    endpoint always answer. *)
Definition api_env (status : nat → nat) (now : Z) : TwitchApiBase.Env :=
  {| TwitchApiBase.TWITCH_CLIENT_ID := "client-1";
     TwitchApiBase.getChannelAccessToken := λ _ _, Ret "stored-token";
     TwitchApiBase.getTwitchAppToken := λ _, Ret stored_app_token;
     TwitchApiBase.user_token_endpoint := λ _ _, TwitchApiBase.Resolved (Some "fresh-token");
     TwitchApiBase.app_token_endpoint := λ _, TwitchApiBase.Resolved (Some "new-app-token");
     TwitchApiBase.adapter := λ w _, Some (status (length (TwitchApiBase.sent w)));
     TwitchApiBase.Date_now := λ _, now |}.

Definition always_401 : TwitchApiBase.Env :=
  api_env (λ _, 401%nat) 1767229200001.

Definition once_401 : TwitchApiBase.Env :=
  api_env (λ n, if (n =? 0)%nat then 401%nat else 200%nat) 1767229200001.

(** *** Receivers *)

Definition resume_url : string := "wss://eventsub.wss.twitch.tv/ws?resume=abc".

(** Connected since the welcome at time 0: keepalive every 10 s, first
    check pending, a reconnect URL on file. *)
Definition live_receiver : EventSub.Receiver :=
  {| EventSub.options := EventSub.default_options;
     EventSub.ws := Some {| EventSub.ws_url := "wss://eventsub.wss.twitch.tv/ws";
                            EventSub.readyState := EventSub.OPEN;
                            EventSub.hooked := true |};
     EventSub.sessionId := Some "session-1";
     EventSub.reconnectUrl := Some resume_url;
     EventSub.keepaliveTimer := Some 0%nat;
     EventSub.keepaliveInterval := 10;
     EventSub.lastKeepaliveTime := 0;
     EventSub.missedKeepalives := 0;
     EventSub.connectionState := EventSub.connected;
     EventSub.reconnectAttempts := 0;
     EventSub.timers := [{| EventSub.timer_id := 0; EventSub.callback := EventSub.CheckKeepalive;
                            EventSub.delay := inject_Z 12000 |}];
     EventSub.next_timer := 1;
     EventSub.closed := [];
     EventSub.console := [] |}.

(** The same receiver once the first check has fired and its timer is
    gone from the host's list. *)
Definition checking_receiver : EventSub.Receiver :=
  EventSub.set_host [] 1 [] [] live_receiver.

(** Disconnected after three failed attempts, with or without a reconnect
    URL on file. *)
Definition retrying_receiver (url : option string) : EventSub.Receiver :=
  EventSub.set_reconnectUrl url
    (EventSub.set_reconnectAttempts 3
       (EventSub.new_receiver EventSub.default_options 0)).

Definition any_url : string → bool := λ _, true.

End Scenario.


(* ===================================================================== *)
(** ** Observations used by the further properties *)
(* ===================================================================== *)

(** The effect is a console line (as opposed to a database query, a
    registry lookup, a client construction or a handler's own doing). *)
Definition is_console (e : Effect) : bool :=
  match e with
  | EConsole _ _ => true
  | _ => false
  end.


(** The entries a [Headers] object yields when it is iterated, as
    [getTwitchHeader] iterates [c.req.raw.headers]: the names are in lower
    case and there is one entry per name (the values of a header sent
    several times arrive joined in that one entry). *)
Definition Headers_entries (entries : list (string * string)) : Prop :=
  Forall (λ kv, Webhook.toLowerCase kv.1 = kv.1) entries ∧ NoDup entries.*1.

(** A request config stamped with the client id and with a token that the
    store returned for this tenant at some point. *)
Definition from_store (env : TwitchApiBase.Env) (broadcaster_id : option string)
    (c : TwitchApiBase.Config) : Prop :=
  ∃ w t,
    TwitchApiBase.getChannelAccessToken env w (default "" broadcaster_id) = Ret t ∧
    TwitchApiBase.headers c !! "Authorization" = Some ("Bearer " +:+ t) ∧
    TwitchApiBase.headers c !! "Client-Id" = Some (TwitchApiBase.TWITCH_CLIENT_ID env).

(* ===================================================================== *)
(** ** Further scenarios *)
(* ===================================================================== *)

Module Cases.

(** A raid: the raided channel is named by [to_broadcaster_user_id]. *)
Definition raid_event : JsValue :=
  JObj [("from_broadcaster_user_id", JStr "7");
        ("to_broadcaster_user_id", JStr "42");
        ("broadcaster_user_id", JStr "99")].

(** A batched payload: the tenant is named inside [data] only, by a number
    in the first element and by a string in the second. *)
Definition batch_event : JsValue :=
  JObj [("data", JArr [JObj [("to_broadcaster_user_id", JNum 42)];
                       JObj [("broadcaster_user_id", JStr "7")]])].

(** *** API environments *)

(** Twitch answers 500 to everything. *)
Definition always_500 : TwitchApiBase.Env :=
  Scenario.api_env (λ _, 500%nat) 1767229200001.

(** The clock stands at the instant the stored app token expires. *)
Definition at_expiry : TwitchApiBase.Env :=
  Scenario.api_env (λ _, 200%nat) 1767229200000.

(** Twitch answers 401 and the token endpoint refuses to refresh. *)
Definition refusing_refresh : TwitchApiBase.Env :=
  {| TwitchApiBase.TWITCH_CLIENT_ID := "client-1";
     TwitchApiBase.getChannelAccessToken := λ _ _, Ret "stored-token";
     TwitchApiBase.getTwitchAppToken := λ _, Ret Scenario.stored_app_token;
     TwitchApiBase.user_token_endpoint :=
       λ _ _, TwitchApiBase.Reject
                (TwitchApiBase.PlainError (Error "No refresh token found for channel"));
     TwitchApiBase.app_token_endpoint := λ _, TwitchApiBase.Resolved None;
     TwitchApiBase.adapter := λ _ _, Some 401%nat;
     TwitchApiBase.Date_now := λ _, 1767229200001%Z |}.

(** *** Receivers and frames *)

(** Two attempts and two missed keepalives at most. *)
Definition impatient : EventSub.Options :=
  {| EventSub.wsUrl := "wss://eventsub.wss.twitch.tv/ws";
     EventSub.maxReconnectAttempts := 2;
     EventSub.baseReconnectDelay := 1000;
     EventSub.maxReconnectDelay := 30000;
     EventSub.maxMissedKeepalives := 2 |}.

(** Connected since the welcome at time 0, keepalive every 10 s, no
    reconnect URL on file. *)
Definition quiet_receiver : EventSub.Receiver :=
  {| EventSub.options := impatient;
     EventSub.ws := Some {| EventSub.ws_url := "wss://eventsub.wss.twitch.tv/ws";
                            EventSub.readyState := EventSub.OPEN;
                            EventSub.hooked := true |};
     EventSub.sessionId := Some "session-1";
     EventSub.reconnectUrl := None;
     EventSub.keepaliveTimer := None;
     EventSub.keepaliveInterval := 10;
     EventSub.lastKeepaliveTime := 0;
     EventSub.missedKeepalives := 0;
     EventSub.connectionState := EventSub.connected;
     EventSub.reconnectAttempts := 0;
     EventSub.timers := [];
     EventSub.next_timer := 1;
     EventSub.closed := [];
     EventSub.console := [] |}.

(** A constructor that accepts the production URL only. *)
Definition production_only : string → bool :=
  λ u, String.eqb u "wss://eventsub.wss.twitch.tv/ws".

Definition frame (type : string) (subscription_type : option string)
    (session : option Inbound.Session) (event : JsValue) : Inbound.WebSocketMessage :=
  {| Inbound.metadata := {| Inbound.message_type := type;
                            Inbound.subscription_type := subscription_type |};
     Inbound.payload := {| Inbound.session := session; Inbound.event := event;
                           Inbound.subscription := None |} |}.

Definition welcome : Inbound.WebSocketMessage :=
  frame "session_welcome" None
    (Some {| Inbound.id := Some "session-2"; Inbound.reconnect_url := None;
             Inbound.keepalive_timeout_seconds := Some 30%Z |})
    JUndefined.

Definition keepalive : Inbound.WebSocketMessage :=
  frame "session_keepalive" None None JUndefined.

Definition move_url : string := "wss://eventsub.wss.twitch.tv/ws?resume=xyz".

Definition move_on : Inbound.WebSocketMessage :=
  frame "session_reconnect" None
    (Some {| Inbound.id := Some "session-1"; Inbound.reconnect_url := Some move_url;
             Inbound.keepalive_timeout_seconds := None |})
    JUndefined.

Definition went_live : Inbound.WebSocketMessage :=
  frame "notification" (Some "stream.online") None Scenario.online_event.

(** The collaborators: a conduit update that fails, a registry that
    records what it is handed, and a parser that knows one frame. *)
Definition conduit : string := "conduit-1".

Definition failing_update : string → string → string → M unit :=
  λ _ _ _, throw (Error "503 Service Unavailable").

Definition recording_registry : string → Inbound.WebSocketMessage → M unit :=
  λ eventType message,
    emit (EApp eventType (Inbound.event (Inbound.payload message))).

Definition parse_frame (data : string) : Outcome Inbound.WebSocketMessage :=
  if String.eqb data "went-live" then Ret went_live
  else Throw (SyntaxError "Unexpected token").

(** *** Brute-force protection *)

Definition three_strikes : BruteForce.BruteForceOptions :=
  {| BruteForce.maxAttempts := 3;
     BruteForce.windowMs := 15 * 60 * 1000;
     BruteForce.blockDurationMs := 60 * 60 * 1000 |}.

Definition caller : string := "203.0.113.7".

(** The store after three failures at 0 s, 1 s and 2 s. *)
Definition struck_out : BruteForce.Store :=
  BruteForce.requests three_strikes caller
    [(0%Z, 401%nat); (1000%Z, 401%nat); (2000%Z, 401%nat)]
    BruteForce.empty_store.

Definition no_content : M Webhook.Response :=
  ret {| Webhook.status := 204; Webhook.body := Webhook.BodyNull |}.

End Cases.

(* ===================================================================== *)
(** ** Proof tactics *)
(* ===================================================================== *)

(** Membership in a trace written with [::] and [++]. *)
Ltac in_trace :=
  repeat (rewrite elem_of_cons || rewrite elem_of_app); naive_solver.

(** Unfold the plumbing of [Api], keeping the adapter call folded
    ([api_steps]) or not ([api_unfold]). *)
Ltac api_steps :=
  repeat (progress (unfold TwitchApiBase.on_rejected, TwitchApiBase.request_phase, mbind,
                    TwitchApiBase.Api_bind, TwitchApiBase.and_then, TwitchApiBase.ask,
                    TwitchApiBase.reject, TwitchApiBase.resolve,
                    TwitchApiBase.console_print;
                    cbv beta iota zeta)).

Ltac api_unfold :=
  repeat (progress (api_steps; unfold TwitchApiBase.dispatchRequest; cbv beta iota zeta)).

(** Case analysis on everything [cleanup] looks at. *)
Ltac receiver_cases r :=
  destruct r as [opts [[u [] h]|] sid url [kt|] ki lk mk st n ts nt cl out].

(* ===================================================================== *)
(** * Properties *)
(* ===================================================================== *)

(** ** Shared facts about the effect monad *)

(** A [try]/[catch] whose handler only returns cannot throw. *)
Lemma try_catch_unit (m : M unit) (h : Exn → M unit) :
  (∀ e, outcome (h e) = Ret tt) → outcome (try_catch m h) = Ret tt.
Proof.
  intros Hh. destruct m as [t [[]|e]]; simpl; [done|].
  specialize (Hh e). unfold outcome in Hh. by destruct (h e) as [t' r].
Qed.

(** ** Tenant resolution and the dispatcher *)

Section DispatchFacts.
Import Dispatch.

Lemma has_key_false_get (k : string) (v : JsValue) :
  has_key k v = false → get v k = JUndefined.
Proof.
  destruct v; simpl; try done.
  intros H. apply bool_decide_eq_false in H.
  destruct (assoc k fields) eqn:E; [|done].
  exfalso. apply H. by eexists.
Qed.

Lemma names_tenant_false (v : JsValue) :
  names_tenant v = false →
  get v "to_broadcaster_user_id" = JUndefined ∧
  get v "broadcaster_user_id" = JUndefined.
Proof.
  unfold names_tenant. intros H. apply orb_false_iff in H as [H1 H2].
  split; by apply has_key_false_get.
Qed.

Lemma get_opt_undefined (v : JsValue) (k : string) :
  get v k = JUndefined → get_opt v k = JUndefined.
Proof. unfold get_opt. by destruct (nullish v). Qed.

(** A payload that names no tenant field, at the top level or in any
    element of its [data] array, resolves to [null]. *)
Lemma extract_no_tenant (event : JsValue) :
  no_tenant_id event = true → extractReceivingBroadcasterId event = JNull.
Proof.
  unfold no_tenant_id. intros H. apply andb_true_iff in H as [Htop Hnested].
  apply negb_true_iff, names_tenant_false in Htop as [Hto Hb].
  unfold extractReceivingBroadcasterId. rewrite Hto, Hb. simpl.
  destruct (truthy event); simpl; [|done].
  unfold nested_items in Hnested.
  destruct (get event "data") as [| | | | |items|]; try done.
  destruct items as [|d0 rest]; [done|].
  simpl in Hnested. apply andb_true_iff in Hnested as [Hd0 _].
  apply negb_true_iff, names_tenant_false in Hd0 as [Hto0 Hb0].
  by rewrite !get_opt_undefined.
Qed.

Variable select_user_id : JsValue → DbResult.

(** With a known tenant and a registered handler, the dispatcher queries
    the database, looks the handler up, builds the tenant's client and
    calls the handler with the payload. *)
Lemma processTwitchEvent_known (twitchHandlers : gmap string InternalHandler)
    (eventType : string) (event : JsValue) (handler : InternalHandler) :
  known_tenant select_user_id event →
  twitchHandlers !! eventType = Some handler →
  let id := extractReceivingBroadcasterId event in
  processTwitchEvent select_user_id twitchHandlers (JStr eventType) event =
    bind ([EDbSelect "integrations_twitch" "twitch_user_id" id;
           ERegistryGet (JStr eventType); ENewTwitchApi id], Ret tt)
         (λ _, handler event {| twitchApi := {| broadcaster_id := id |} |}).
Proof.
  intros (Hid & Herr & Hrow) Hreg. unfold processTwitchEvent. simpl in *.
  rewrite Hid, Herr, Hrow, Hreg. simpl.
  unfold mbind, M_bind, bind, emit. simpl.
  by destruct (handler _ _).
Qed.

Lemma wrapped_returns (eventType : string) (handler : EventHandler)
    (schema : option ZodType) (event : JsValue) (context : RestApiHandlerContext) :
  outcome (wrapped eventType handler schema event context) = Ret tt.
Proof. unfold wrapped. apply try_catch_unit. intros e. reflexivity. Qed.

(** Whenever no tenant resolves, the dispatcher logs once and throws. *)
Lemma processTwitchEvent_unresolved (twitchHandlers : gmap string InternalHandler)
    (eventType event : JsValue) :
  truthy (extractReceivingBroadcasterId event) = false →
  processTwitchEvent select_user_id twitchHandlers eventType event =
    ([EConsole LvLog [LStr "No broadcaster id found in event"]],
     Throw (Error "No broadcaster id found in event")).
Proof. intros H. unfold processTwitchEvent. by rewrite H. Qed.

End DispatchFacts.

Section DispatcherProperties.
Import Dispatch.

Variable select_user_id : JsValue → DbResult.

(** C1 (as amended).  When the payload names no tenant field, at the top
    level or in any element of a nested [data] array,
    [processTwitchEvent] writes one log line, queries nothing, looks up
    and invokes no handler, and throws
    [Error("No broadcaster id found in event")] to its caller. *)
Theorem processTwitchEvent_no_tenant
    (twitchHandlers : gmap string InternalHandler) (eventType event : JsValue) :
  no_tenant_id event = true →
  processTwitchEvent select_user_id twitchHandlers eventType event =
    ([EConsole LvLog [LStr "No broadcaster id found in event"]],
     Throw (Error "No broadcaster id found in event")).
Proof.
  intros H. apply processTwitchEvent_unresolved.
  by rewrite (extract_no_tenant _ H).
Qed.

(** C10.  When the resolved broadcaster id has no row in
    [integrations_twitch], or the lookup reports an error,
    [processTwitchEvent] returns normally after the query and one log
    line: no handler lookup, no [TwitchApi], no handler call, no throw. *)
Theorem processTwitchEvent_unknown_broadcaster
    (twitchHandlers : gmap string InternalHandler) (eventType event : JsValue) :
  let id := extractReceivingBroadcasterId event in
  truthy id = true →
  truthy (error (select_user_id id)) = true ∨
  truthy (data (select_user_id id)) = false →
  processTwitchEvent select_user_id twitchHandlers eventType event =
    ([EDbSelect "integrations_twitch" "twitch_user_id" id;
      EConsole LvLog [LStr "Broadcaster not found in database"]],
     Ret tt).
Proof.
  intros id Hid Hdb. unfold processTwitchEvent. fold id. rewrite Hid. simpl.
  assert (truthy (error (select_user_id id))
          || negb (truthy (data (select_user_id id))) = true) as ->; [|done].
  destruct Hdb as [-> | ->]; [done | by rewrite orb_true_r].
Qed.

(** C8.  The wrapper stored by [registerTwitchHandler] never throws: an
    exception of the validator or of the application handler is caught and
    logged.  Hence, with handlers registered for two types [X] and [Y],
    after two events of type [X] (whatever [X]'s handler does, throwing
    included) an event of type [Y] still reaches [Y]'s handler. *)
Theorem registered_wrapper_isolates
    (twitchHandlers : gmap string InternalHandler) (X Y : string)
    (hX hY : EventHandler) (sX sY : option ZodType)
    (x1 x2 y y' : JsValue) :
  X ≠ Y →
  known_tenant select_user_id x1 →
  known_tenant select_user_id x2 →
  known_tenant select_user_id y →
  validated sY y = Ret y' →
  let reg := registerTwitchHandler
               (registerTwitchHandler twitchHandlers X hX sX) Y hY sY in
  (* never rethrown *)
  (∀ eventType handler schema data context,
     outcome (wrapped eventType handler schema data context) = Ret tt) ∧
  (* a validator exception is logged *)
  (∀ eventType handler schema data context e,
     validated schema data = Throw e →
     wrapped eventType handler schema data context =
       ([EConsole LvLog [LStr ("Error in handler for " +:+ eventType +:+ ":"); LExn e]],
        Ret tt)) ∧
  (* a handler exception is logged *)
  (∀ eventType handler schema data context parsed t e,
     validated schema data = Ret parsed →
     handler parsed context = (t, Throw e) →
     wrapped eventType handler schema data context =
       (EHandlerCall eventType parsed (broadcaster_id (twitchApi context)) :: t ++
        [EConsole LvLog [LStr ("Error in handler for " +:+ eventType +:+ ":"); LExn e]],
        Ret tt)) ∧
  (* isolation *)
  let run := dispatch_all select_user_id reg
               [(JStr X, x1); (JStr X, x2); (JStr Y, y)] in
  outcome run = Ret tt ∧
  EHandlerCall Y y' (extractReceivingBroadcasterId y) ∈ trace run ∧
  (∀ ev, ev ∈ trace (hY y' {| twitchApi :=
                               {| broadcaster_id := extractReceivingBroadcasterId y |} |}) →
         ev ∈ trace run).
Proof.
  intros Hne Hx1 Hx2 Hy Hval reg.
  split; [intros; apply wrapped_returns|].
  split.
  { intros et h s d c e He. unfold wrapped, lift. rewrite He. done. }
  split.
  { intros et h s d c parsed t e Hv Hh.
    unfold wrapped, lift. rewrite Hv.
    unfold mbind, M_bind, emit. cbn. rewrite Hh. cbn. done. }
  assert (reg !! X = Some (wrapped X hX sX)) as HX.
  { unfold reg, registerTwitchHandler.
    rewrite lookup_insert_ne by done. apply lookup_insert_eq. }
  assert (reg !! Y = Some (wrapped Y hY sY)) as HY.
  { unfold reg, registerTwitchHandler. apply lookup_insert_eq. }
  intros run. unfold run, dispatch_all.
  rewrite (processTwitchEvent_known _ _ _ _ _ Hx1 HX).
  rewrite (processTwitchEvent_known _ _ _ _ _ Hx2 HX).
  rewrite (processTwitchEvent_known _ _ _ _ _ Hy HY).
  pose proof (wrapped_returns X hX sX x1
    {| twitchApi := {| broadcaster_id := extractReceivingBroadcasterId x1 |} |}) as R1.
  pose proof (wrapped_returns X hX sX x2
    {| twitchApi := {| broadcaster_id := extractReceivingBroadcasterId x2 |} |}) as R2.
  destruct (wrapped X hX sX x1 _) as [t1 o1]. destruct (wrapped X hX sX x2 _) as [t2 o2].
  unfold outcome in R1, R2. simpl in R1, R2. subst o1 o2.
  unfold wrapped, lift. rewrite Hval.
  unfold mbind, M_bind, emit, ret, bind, try_catch, outcome, trace. cbn.
  destruct (hY y' _) as [ty [[]|e]]; cbn;
    (split; [done|]); (split; [in_trace|]); intros ev Hev; in_trace.
Qed.

End DispatcherProperties.

Lemma processTwitchEvent_no_tenant_witness :
  Dispatch.processTwitchEvent Scenario.db Scenario.registry
    (JStr "stream.online") Scenario.anonymous_event =
  ([EConsole LvLog [LStr "No broadcaster id found in event"]],
   Throw (Error "No broadcaster id found in event")).
Proof.
  apply (processTwitchEvent_no_tenant Scenario.db). vm_compute. reflexivity.
Defined.

(** C1 as stated fails: the payload names no tenant, yet the dispatcher
    does not return normally. *)
Lemma processTwitchEvent_no_tenant_does_throw :
  Dispatch.no_tenant_id Scenario.anonymous_event = true ∧
  throws (Dispatch.processTwitchEvent Scenario.db Scenario.registry
            (JStr "stream.online") Scenario.anonymous_event) ∧
  ¬ returns (Dispatch.processTwitchEvent Scenario.db Scenario.registry
               (JStr "stream.online") Scenario.anonymous_event).
Proof.
  split; [vm_compute; reflexivity|]. split.
  - eexists. vm_compute. reflexivity.
  - intros [a Ha]. vm_compute in Ha. discriminate Ha.
Qed.

Lemma processTwitchEvent_unknown_broadcaster_witness :
  Dispatch.processTwitchEvent Scenario.db Scenario.registry
    (JStr "stream.online") Scenario.stranger_event =
  ([EDbSelect "integrations_twitch" "twitch_user_id" (JStr "777");
    EConsole LvLog [LStr "Broadcaster not found in database"]],
   Ret tt).
Proof.
  apply (processTwitchEvent_unknown_broadcaster Scenario.db).
  - vm_compute. reflexivity.
  - left. vm_compute. reflexivity.
Defined.

Lemma registered_wrapper_isolates_witness :
  let run := Dispatch.dispatch_all Scenario.db Scenario.registry
               [(JStr "stream.offline", Scenario.offline_event);
                (JStr "stream.offline", Scenario.offline_event);
                (JStr "stream.online", Scenario.online_event)] in
  outcome run = Ret tt ∧
  EHandlerCall "stream.online" Scenario.online_event (JStr "42") ∈ trace run.
Proof.
  pose proof (registered_wrapper_isolates Scenario.db ∅
                "stream.offline" "stream.online"
                Scenario.failing_handler (Scenario.recording_handler "online")
                (Some Scenario.accept_all) (Some Scenario.accept_all)
                Scenario.offline_event Scenario.offline_event
                Scenario.online_event Scenario.online_event) as H.
  destruct H as (_ & _ & _ & Hret & Hcall & _).
  - intros E. discriminate E.
  - repeat split; vm_compute; reflexivity.
  - repeat split; vm_compute; reflexivity.
  - repeat split; vm_compute; reflexivity.
  - reflexivity.
  - split; [exact Hret | exact Hcall].
Defined.

(** ** The webhook contract *)

Section WebhookProperties.
Import Dispatch Webhook.

Variable TWITCH_WEBHOOK_SECRET : string.
Variable createHmac_sha256_hex : string → string → string.
Variable JSON_parse : string → Outcome JsValue.
Variable select_user_id : JsValue → DbResult.
Variable handlers : gmap string InternalHandler.

#[local] Abbreviation route :=
  (eventsub_route TWITCH_WEBHOOK_SECRET createHmac_sha256_hex JSON_parse
                  select_user_id handlers).
#[local] Abbreviation valid :=
  (signature_valid TWITCH_WEBHOOK_SECRET createHmac_sha256_hex).
#[local] Abbreviation on_notification := (handleEventsub select_user_id handlers).

(** Once the headers are complete, the signature verifies and the body
    parses, the route handler runs on the parsed body. *)
Lemma verification_passes (c : Context) (notification : JsValue) :
  headers_complete c = true →
  valid c = true →
  JSON_parse (raw_body c) = Ret notification →
  route c =
    handleTwitchEventSub select_user_id handlers
      {| req_headers := req_headers c; req_method := req_method c;
         req_path := req_path c; req_text := req_text c;
         var_requestId := var_requestId c; var_rawBody := var_rawBody c;
         var_twitchNotification := notification;
         var_twitchMessageType := JStr (message_type c) |}.
Proof.
  unfold headers_complete, signature_valid, raw_body, message_type, header.
  intros Hh Hv Hp. apply negb_true_iff in Hh.
  unfold eventsub_route, twitchEventSubVerification.
  rewrite Hh, Hv. simpl. by rewrite Hp.
Qed.

Lemma message_type_truthy (c : Context) :
  headers_complete c = true → truthy (JStr (message_type c)) = true.
Proof.
  unfold headers_complete, message_type. intros Hh.
  apply negb_true_iff in Hh. rewrite !orb_false_iff in Hh.
  destruct Hh as (_ & Hm). unfold missing in Hm.
  destruct (header c TWITCH_MESSAGE_TYPE) as [s|]; [|done].
  simpl. by rewrite Hm.
Qed.

(** C2 (as amended).  A request lacking one of the four headers gets 400;
    complete headers with a signature that does not verify get 403; with a
    valid signature and a body that parses as JSON to a truthy value, a
    [webhook_callback_verification] whose payload has a non-empty string
    [challenge] and a [subscription] gets 200 with exactly the challenge as
    body, a [notification] whose dispatch returns without throwing gets 204
    with an empty body, and a [revocation] whose payload has a
    [subscription] gets 204 with an empty body. *)
Theorem webhook_contract (c : Context) :
  (headers_complete c = false →
   ∃ b, route c = ([], Ret {| status := 400; body := b |})) ∧
  (headers_complete c = true → valid c = false →
   ∃ t b, route c = (t, Ret {| status := 403; body := b |})) ∧
  (∀ notification,
     headers_complete c = true → valid c = true →
     JSON_parse (raw_body c) = Ret notification →
     truthy notification = true →
     (∀ challenge,
        message_type c = MESSAGE_TYPE_VERIFICATION →
        get notification "challenge" = JStr challenge → challenge ≠ "" →
        nullish (get notification "subscription") = false →
        outcome (route c) = Ret {| status := 200; body := BodyText challenge |}) ∧
     (message_type c = MESSAGE_TYPE_NOTIFICATION →
      outcome (on_notification notification) = Ret tt →
      outcome (route c) = Ret {| status := 204; body := BodyNull |}) ∧
     (message_type c = MESSAGE_TYPE_REVOCATION →
      nullish (get notification "subscription") = false →
      outcome (route c) = Ret {| status := 204; body := BodyNull |})).
Proof.
  split; [|split].
  - unfold headers_complete, header. intros Hh. apply negb_false_iff in Hh.
    unfold eventsub_route, twitchEventSubVerification. rewrite Hh.
    eexists. reflexivity.
  - unfold headers_complete, signature_valid, raw_body, header.
    intros Hh Hv. apply negb_true_iff in Hh.
    unfold eventsub_route, twitchEventSubVerification. rewrite Hh, Hv. simpl.
    do 2 eexists. reflexivity.
  - intros notification Hh Hv Hp Ht.
    rewrite (verification_passes c notification Hh Hv Hp).
    pose proof (message_type_truthy c Hh) as Hmt.
    unfold handleTwitchEventSub. cbn [var_twitchNotification var_twitchMessageType].
    rewrite Ht, Hmt. cbn [negb orb].
    split; [|split].
    + intros challenge -> Hch Hne Hsub. simpl.
      unfold handleVerification. rewrite Hch. simpl.
      assert ((challenge =? "")%string = false) as ->
        by (by apply String.eqb_neq).
      simpl. unfold get_or_throw. rewrite Hsub. reflexivity.
    + intros -> Hrun. simpl. unfold handleNotification.
      unfold outcome in *.
      destruct (handleEventsub select_user_id handlers notification)
        as [t [[]|e]]; [reflexivity | discriminate Hrun].
    + intros -> Hsub. simpl. unfold handleRevocation, get_or_throw.
      rewrite Hsub. reflexivity.
Qed.

End WebhookProperties.

Lemma webhook_contract_witness :
  (∃ b, Scenario.route (Scenario.untyped_request "oops")
        = ([], Ret {| Webhook.status := 400; Webhook.body := b |})) ∧
  (∃ t b, Scenario.route (Scenario.forged_request "notification" Scenario.notification_body)
          = (t, Ret {| Webhook.status := 403; Webhook.body := b |})) ∧
  outcome (Scenario.route
             (Scenario.signed_request "webhook_callback_verification"
                                      Scenario.challenge_body))
  = Ret {| Webhook.status := 200; Webhook.body := Webhook.BodyText "abc123" |} ∧
  outcome (Scenario.route
             (Scenario.signed_request "notification" Scenario.notification_body))
  = Ret {| Webhook.status := 204; Webhook.body := Webhook.BodyNull |}.
Proof.
  pose proof (webhook_contract Scenario.secret Scenario.digest Scenario.JSON_parse
                Scenario.db Scenario.registry) as W.
  split; [|split; [|split]].
  - destruct (W (Scenario.untyped_request "oops")) as (H400 & _ & _).
    apply H400. vm_compute. reflexivity.
  - destruct (W (Scenario.forged_request "notification" Scenario.notification_body))
      as (_ & H403 & _).
    apply H403; vm_compute; reflexivity.
  - destruct (W (Scenario.signed_request "webhook_callback_verification"
                                         Scenario.challenge_body))
      as (_ & _ & Hvalid).
    assert (Scenario.JSON_parse
              (Webhook.raw_body
                 (Scenario.signed_request "webhook_callback_verification"
                                          Scenario.challenge_body))
            = Ret Scenario.challenge_payload) as Hparse
      by (vm_compute; reflexivity).
    specialize (Hvalid Scenario.challenge_payload eq_refl eq_refl Hparse eq_refl).
    destruct Hvalid as (H200 & _ & _).
    apply (H200 "abc123" eq_refl eq_refl); [|reflexivity].
    intros E. discriminate E.
  - destruct (W (Scenario.signed_request "notification" Scenario.notification_body))
      as (_ & _ & Hvalid).
    assert (Scenario.JSON_parse
              (Webhook.raw_body
                 (Scenario.signed_request "notification" Scenario.notification_body))
            = Ret Scenario.notification_payload) as Hparse
      by (vm_compute; reflexivity).
    specialize (Hvalid Scenario.notification_payload eq_refl eq_refl Hparse eq_refl).
    destruct Hvalid as (_ & H204 & _).
    apply (H204 eq_refl). vm_compute. reflexivity.
Defined.

(** C2 as stated fails: a notification with complete headers and a valid
    signature, whose event names no tenant, makes the dispatcher throw; the
    route produces no 204 and [safeErrorHandler] answers 500. *)
Lemma webhook_notification_without_tenant :
  let c := Scenario.signed_request "notification" Scenario.revoke_body in
  Webhook.headers_complete c = true ∧
  Webhook.signature_valid Scenario.secret Scenario.digest c = true ∧
  Webhook.message_type c = Webhook.MESSAGE_TYPE_NOTIFICATION ∧
  throws (Scenario.route c) ∧
  ∃ t b,
    Webhook.eventsub_endpoint Scenario.secret Scenario.digest Scenario.JSON_parse
      false Scenario.db Scenario.registry c
    = (t, Ret {| Webhook.status := 500; Webhook.body := b |}).
Proof.
  repeat split; try (vm_compute; reflexivity).
  - eexists. vm_compute. reflexivity.
  - do 2 eexists. vm_compute. reflexivity.
Qed.

(** Likewise a signed verification request whose body carries no challenge
    is answered 400, and a signed body that is not JSON is answered 400. *)
Example webhook_verification_without_challenge :
  ∃ b,
    Scenario.route
      (Scenario.signed_request "webhook_callback_verification" Scenario.bare_body)
    = ([], Ret {| Webhook.status := 400; Webhook.body := b |}).
Proof. eexists. vm_compute. reflexivity. Qed.

Example webhook_body_not_json :
  ∃ b,
    Scenario.route (Scenario.signed_request "revocation" "oops")
    = ([], Ret {| Webhook.status := 400; Webhook.body := b |}).
Proof. eexists. vm_compute. reflexivity. Qed.

(** ** The outbound client's retry loop and token headers *)

Section ApiClientProperties.
Import TwitchApiBase.

Variable env : Env.
Variable broadcaster_id : option string.

#[local] Abbreviation id := (default "" broadcaster_id).

(** What the request phase of the per-tenant instance does. *)
Lemma client_request_phase_sends (config : Config) (w : World) (t : string) (st : nat) :
  no_token broadcaster_id = false →
  getChannelAccessToken env w id = Ret t →
  adapter env w (stamped env t config) = Some st →
  request_phase env (clientRequestInterceptor env broadcaster_id) config w =
    Some (if (200 <=? st) && (st <? 300)
          then Resolved {| resp_status := st; resp_config := stamped env t config |}
          else Reject (AxiosError (stamped env t config) (Some st)),
          record_sent (stamped env t config) w).
Proof.
  intros Hb Ht Hst. unfold clientRequestInterceptor. api_unfold.
  rewrite Hb. api_unfold. rewrite Ht. fold (stamped env t config). rewrite Hst.
  by destruct ((200 <=? st) && (st <? 300)).
Qed.

(** What the rejection handler does with a 401 while retries are left and
    the refresh yields a token. *)
Lemma client_rejected_retries (api : Config → Api AxiosResponse)
    (c : Config) (w : World) (tok : string) :
  no_token broadcaster_id = false →
  default 0 (__retryCount c) < MAX_RETRIES →
  user_token_endpoint env
    (record_console "Token expired, attempting to refresh for broadcaster:" w) id
    = Resolved (Some tok) →
  no_token (Some tok) = false →
  clientResponseRejected env broadcaster_id api (AxiosError c (Some 401)) w =
    api (set_header "Authorization" ("Bearer " +:+ tok)
           (set_retryCount (default 0 (__retryCount c) + 1) c))
        (record_console "Token refreshed, retrying request"
           (record_user_refresh id
              (record_console "Token expired, attempting to refresh for broadcaster:" w))).
Proof.
  intros Hb Hlt Htok Hne. unfold clientResponseRejected.
  apply Nat.ltb_lt in Hlt. rewrite Hlt.
  rewrite bool_decide_eq_true_2 by done. cbn [andb].
  unfold refreshUserToken. api_unfold. rewrite Hb. api_unfold.
  rewrite Htok. cbv beta iota. rewrite Hne. reflexivity.
Qed.

(** A rejection that is not a 401, or arrives when the count has reached
    [MAX_RETRIES], is passed on untouched. *)
Lemma client_rejected_gives_up (api : Config → Api AxiosResponse)
    (c : Config) (st : option nat) (w : World) :
  st ≠ Some 401 ∨ MAX_RETRIES ≤ default 0 (__retryCount c) →
  clientResponseRejected env broadcaster_id api (AxiosError c st) w =
    Some (Reject (AxiosError c st), w).
Proof.
  intros H. unfold clientResponseRejected.
  destruct H as [H|H].
  - by rewrite bool_decide_eq_false_2.
  - apply Nat.ltb_ge in H. rewrite H. by rewrite andb_false_r.
Qed.

Lemma clientApi_unfold (fuel : nat) (config : Config) (w : World) :
  clientApi env broadcaster_id (S fuel) config w =
    on_rejected
      (request_phase env (clientRequestInterceptor env broadcaster_id) config)
      (clientResponseRejected env broadcaster_id (clientApi env broadcaster_id fuel)) w.
Proof. reflexivity. Qed.

(** A round answered 401 while retries are left: one request, one refresh,
    and the instance runs again with the count raised by one. *)
Lemma client_round_401 (fuel : nat) (config : Config) (w : World) :
  no_token broadcaster_id = false →
  store_answers env → endpoint_grants env →
  (∀ c, adapter env w c = Some 401) →
  default 0 (__retryCount config) < MAX_RETRIES →
  ∃ c' w',
    clientApi env broadcaster_id (S fuel) config w
      = clientApi env broadcaster_id fuel c' w' ∧
    __retryCount c' = Some (default 0 (__retryCount config) + 1) ∧
    length (sent w') = length (sent w) + 1 ∧
    length (userRefreshes w') = length (userRefreshes w) + 1.
Proof.
  intros Hb Hstore Hgrant H401 Hlt.
  destruct (Hstore w id) as [t Ht].
  rewrite clientApi_unfold. unfold on_rejected.
  rewrite (client_request_phase_sends config w t 401 Hb Ht (H401 _)).
  change ((200 <=? 401) && (401 <? 300)) with false. cbv iota.
  match goal with
  | |- context [clientResponseRejected _ _ ?api (AxiosError ?c _) ?w1] =>
      destruct (Hgrant
                  (record_console
                     "Token expired, attempting to refresh for broadcaster:" w1) id)
        as (tok & Htok & Hne);
      rewrite (client_rejected_retries api c w1 tok Hb Hlt Htok Hne)
  end.
  do 2 eexists. split; [reflexivity|]. simpl. rewrite !length_app. simpl. done.
Qed.

(** A round answered 401 when the count has reached [MAX_RETRIES]: one
    request, no refresh, and the error goes to the caller. *)
Lemma client_round_last (fuel : nat) (config : Config) (w : World) :
  no_token broadcaster_id = false →
  store_answers env →
  (∀ c, adapter env w c = Some 401) →
  MAX_RETRIES ≤ default 0 (__retryCount config) →
  ∃ c w',
    clientApi env broadcaster_id (S fuel) config w
      = Some (Reject (AxiosError c (Some 401)), w') ∧
    __retryCount c = __retryCount config ∧
    length (sent w') = length (sent w) + 1 ∧
    userRefreshes w' = userRefreshes w.
Proof.
  intros Hb Hstore H401 Hge.
  destruct (Hstore w id) as [t Ht].
  rewrite clientApi_unfold. unfold on_rejected.
  rewrite (client_request_phase_sends config w t 401 Hb Ht (H401 _)).
  change ((200 <=? 401) && (401 <? 300)) with false. cbv iota.
  rewrite client_rejected_gives_up by (right; exact Hge).
  do 2 eexists. split; [reflexivity|]. simpl. rewrite length_app. simpl. done.
Qed.

(** A round answered with a 2xx status: one request, no refresh, and the
    response goes to the caller. *)
Lemma client_round_ok (fuel : nat) (config : Config) (w : World) (st : nat) :
  no_token broadcaster_id = false →
  store_answers env →
  (∀ c, adapter env w c = Some st) →
  (200 <=? st) && (st <? 300) = true →
  ∃ a w',
    clientApi env broadcaster_id (S fuel) config w = Some (Resolved a, w') ∧
    resp_status a = st ∧
    length (sent w') = length (sent w) + 1 ∧
    userRefreshes w' = userRefreshes w.
Proof.
  intros Hb Hstore Hst H2xx.
  destruct (Hstore w id) as [t Ht].
  rewrite clientApi_unfold. unfold on_rejected.
  rewrite (client_request_phase_sends config w t st Hb Ht (Hst _)).
  rewrite H2xx.
  do 2 eexists. split; [reflexivity|]. simpl. rewrite length_app. simpl. done.
Qed.

(** *** Any environment: the budget of one call *)

Lemma client_request_phase (config : Config) (w : World) :
  ∃ r w',
    request_phase env (clientRequestInterceptor env broadcaster_id) config w
      = Some (r, w') ∧
    userRefreshes w' = userRefreshes w ∧
    match r with
    | Reject (PlainError _) => sent w' = sent w
    | Reject (AxiosError c _) =>
        sent w' = sent w ++ [c] ∧ __retryCount c = __retryCount config
    | Resolved a => sent w' = sent w ++ [resp_config a]
    end.
Proof.
  unfold clientRequestInterceptor. api_unfold.
  destruct (no_token broadcaster_id); [by do 2 eexists|].
  api_unfold.
  destruct (getChannelAccessToken env w _); [|by do 2 eexists].
  destruct (adapter env w _) as [s|]; [|by do 2 eexists].
  destruct ((200 <=? s) && (s <? 300)); by do 2 eexists.
Qed.

Lemma client_rejected (api : Config → Api AxiosResponse)
    (c : Config) (st : option nat) (w : World) :
  (∃ e w',
     clientResponseRejected env broadcaster_id api (AxiosError c st) w
       = Some (Reject e, w') ∧
     sent w' = sent w ∧
     (userRefreshes w' = userRefreshes w ∨
      default 0 (__retryCount c) < MAX_RETRIES ∧
      length (userRefreshes w') = length (userRefreshes w) + 1)) ∨
  (∃ c' w',
     clientResponseRejected env broadcaster_id api (AxiosError c st) w = api c' w' ∧
     st = Some 401 ∧
     default 0 (__retryCount c) < MAX_RETRIES ∧
     __retryCount c' = Some (default 0 (__retryCount c) + 1) ∧
     sent w' = sent w ∧
     length (userRefreshes w') = length (userRefreshes w) + 1).
Proof.
  unfold clientResponseRejected.
  destruct (bool_decide (st = Some 401) && (default 0 (__retryCount c) <? MAX_RETRIES))
    eqn:Hretry.
  2:{ left. do 2 eexists. split; [reflexivity|]. split; [done|by left]. }
  apply andb_true_iff in Hretry as [Hst Hlt].
  apply bool_decide_eq_true in Hst. apply Nat.ltb_lt in Hlt.
  unfold refreshUserToken. api_unfold.
  destruct (no_token broadcaster_id).
  { left. do 2 eexists. split; [reflexivity|]. simpl. split; [done|by left]. }
  api_unfold.
  destruct (user_token_endpoint env _ _) as [newToken|e].
  2:{ left. do 2 eexists. split; [reflexivity|]. simpl.
      rewrite length_app. simpl. split; [done|by right]. }
  cbv beta iota.
  destruct (no_token newToken).
  { left. do 2 eexists. split; [reflexivity|]. simpl.
      rewrite length_app. simpl. split; [done|by right]. }
  right. do 2 eexists. split; [reflexivity|]. simpl.
  rewrite length_app. simpl. done.
Qed.

(** With at most [k] retries left on the config, a call ends within
    [k + 1] rounds, after [f ≤ k] refreshes and at most [f + 1] requests. *)
Lemma clientApi_budget (k : nat) :
  ∀ (fuel : nat) (config : Config) (w : World),
    MAX_RETRIES - default 0 (__retryCount config) ≤ k →
    k < fuel →
    ∃ r w' s f,
      clientApi env broadcaster_id fuel config w = Some (r, w') ∧
      length (sent w') = length (sent w) + s ∧
      length (userRefreshes w') = length (userRefreshes w) + f ∧
      f ≤ k ∧ s ≤ f + 1.
Proof.
  induction k as [|k IH]; intros fuel config w Hk Hfuel;
    (destruct fuel as [|fuel]; [lia|]);
    rewrite clientApi_unfold; unfold on_rejected at 1;
    destruct (client_request_phase config w) as (r & w1 & -> & Href & Hr);
    destruct r as [a|[c st|e]].
  all: try (exists (Resolved a), w1, 1, 0; rewrite Hr, length_app, Href; simpl;
            repeat split; lia).
  all: try (exists (Reject (PlainError e)), w1, 0, 0; rewrite Hr, Href; simpl;
            repeat split; lia).
  - destruct Hr as [Hs Hc].
    destruct (client_rejected (clientApi env broadcaster_id fuel) c st w1)
      as [(e & w2 & -> & Hs2 & [Hf2|[Hlt _]]) | (c' & w2 & _ & _ & Hlt & _)];
      [|rewrite Hc in Hlt; lia ..].
    exists (Reject e), w2, 1, 0. rewrite Hs2, Hs, Hf2, Href, length_app. simpl.
    repeat split; lia.
  - destruct Hr as [Hs Hc].
    destruct (client_rejected (clientApi env broadcaster_id fuel) c st w1)
      as [(e & w2 & -> & Hs2 & [Hf2|[Hlt Hf2]])
         | (c' & w2 & -> & _ & Hlt & Hc' & Hs2 & Hf2)].
    + exists (Reject e), w2, 1, 0. rewrite Hs2, Hs, Hf2, Href, length_app. simpl.
      repeat split; lia.
    + exists (Reject e), w2, 1, 1. rewrite Hs2, Hs, Hf2, Href, length_app. simpl.
      repeat split; lia.
    + destruct (IH fuel c' w2) as (r & w3 & s & f & Heq & Hs3 & Hf3 & Hfk & Hsf).
      { rewrite Hc', Hc. rewrite Hc in Hlt. simpl. lia. }
      { lia. }
      rewrite Heq.
      exists r, w3, (S s), (S f). rewrite Hs3, Hf3, Hs2, Hf2, Hs, Href, length_app.
      simpl. repeat split; lia.
Qed.

(** C3 (as amended).  Each per-tenant call carries its own retry count,
    starting at zero whatever happened before.  A 401 received while the
    count is below [MAX_RETRIES = 2] triggers one token refresh and, when
    the refresh yields a token, one retry.  So a call always ends, after at
    most two refreshes and at most one request more than refreshes; under
    persistent 401s it refreshes exactly twice, sends exactly three
    requests and then propagates the 401 without a further retry; and when
    only the first request is answered 401 it refreshes once and retries
    once. *)
Theorem client_retry_is_bounded_per_call (url : string) (w : World) :
  (∃ r w' s f,
     client_call env broadcaster_id url w = Some (r, w') ∧
     length (sent w') = length (sent w) + s ∧
     length (userRefreshes w') = length (userRefreshes w) + f ∧
     f ≤ MAX_RETRIES ∧ s ≤ f + 1) ∧
  (no_token broadcaster_id = false →
   store_answers env → endpoint_grants env →
   (∀ w' c, adapter env w' c = Some 401) →
   ∃ c w',
     client_call env broadcaster_id url w
       = Some (Reject (AxiosError c (Some 401)), w') ∧
     __retryCount c = Some MAX_RETRIES ∧
     length (sent w') = length (sent w) + 3 ∧
     length (userRefreshes w') = length (userRefreshes w) + 2) ∧
  (∀ st,
     no_token broadcaster_id = false →
     store_answers env → endpoint_grants env →
     (∀ c, adapter env w c = Some 401) →
     (∀ w' c, length (sent w') = length (sent w) + 1 → adapter env w' c = Some st) →
     (200 <=? st) && (st <? 300) = true →
     ∃ a w',
       client_call env broadcaster_id url w = Some (Resolved a, w') ∧
       resp_status a = st ∧
       length (sent w') = length (sent w) + 2 ∧
       length (userRefreshes w') = length (userRefreshes w) + 1).
Proof.
  unfold client_call. change (S (S MAX_RETRIES)) with 4. split; [|split].
  - apply clientApi_budget; [|unfold MAX_RETRIES; lia].
    cbv. lia.
  - intros Hb Hstore Hgrant H401.
    destruct (client_round_401 3 (fresh_config url) w)
      as (c1 & w1 & -> & Hc1 & Hs1 & Hf1); try done.
    { simpl. unfold MAX_RETRIES. lia. }
    destruct (client_round_401 2 c1 w1)
      as (c2 & w2 & -> & Hc2 & Hs2 & Hf2); try done.
    { rewrite Hc1. simpl. unfold MAX_RETRIES. lia. }
    destruct (client_round_last 1 c2 w2)
      as (c3 & w3 & -> & Hc3 & Hs3 & Hf3); try done.
    { rewrite Hc2, Hc1. simpl. unfold MAX_RETRIES. lia. }
    exists c3, w3. split; [reflexivity|].
    rewrite Hc3, Hc2, Hc1, Hs3, Hs2, Hs1, Hf3, Hf2, Hf1. simpl.
    repeat split; lia.
  - intros st Hb Hstore Hgrant H401 Hnext H2xx.
    destruct (client_round_401 3 (fresh_config url) w)
      as (c1 & w1 & -> & Hc1 & Hs1 & Hf1); try done.
    { simpl. unfold MAX_RETRIES. lia. }
    destruct (client_round_ok 2 c1 w1 st)
      as (a & w2 & -> & Ha & Hs2 & Hf2); try done.
    { intros c. by apply Hnext. }
    exists a, w2. split; [reflexivity|].
    rewrite Ha, Hs2, Hs1, Hf2, Hf1. repeat split; lia.
Qed.

End ApiClientProperties.

Lemma client_retry_is_bounded_per_call_witness :
  (∃ c w',
     TwitchApiBase.client_call Scenario.always_401 (Some "42") "/clips"
       TwitchApiBase.initial
       = Some (TwitchApiBase.Reject (TwitchApiBase.AxiosError c (Some 401%nat)), w') ∧
     TwitchApiBase.__retryCount c = Some 2%nat ∧
     length (TwitchApiBase.sent w') = 3%nat ∧
     length (TwitchApiBase.userRefreshes w') = 2%nat) ∧
  (∃ a w',
     TwitchApiBase.client_call Scenario.once_401 (Some "42") "/clips"
       TwitchApiBase.initial
       = Some (TwitchApiBase.Resolved a, w') ∧
     TwitchApiBase.resp_status a = 200%nat ∧
     length (TwitchApiBase.sent w') = 2%nat ∧
     length (TwitchApiBase.userRefreshes w') = 1%nat).
Proof.
  split.
  - destruct (client_retry_is_bounded_per_call Scenario.always_401 (Some "42")
                "/clips" TwitchApiBase.initial) as (_ & Hpersist & _).
    apply Hpersist.
    + reflexivity.
    + intros w id. eexists. reflexivity.
    + intros w id. eexists. split; reflexivity.
    + intros w c. reflexivity.
  - destruct (client_retry_is_bounded_per_call Scenario.once_401 (Some "42")
                "/clips" TwitchApiBase.initial) as (_ & _ & Honce).
    apply (Honce 200%nat).
    + reflexivity.
    + intros w id. eexists. reflexivity.
    + intros w id. eexists. split; reflexivity.
    + intros c. reflexivity.
    + intros w c Hlen. simpl in *. rewrite Hlen. reflexivity.
    + reflexivity.
Defined.

(** C3 as stated fails: when Twitch keeps answering 401, one call refreshes
    the token twice and sends the request three times. *)
Lemma client_refreshes_twice_under_401 :
  ∃ r w',
    TwitchApiBase.client_call Scenario.always_401 (Some "42") "/clips"
      TwitchApiBase.initial = Some (r, w') ∧
    length (TwitchApiBase.userRefreshes w') = 2%nat ∧
    length (TwitchApiBase.sent w') = 3%nat.
Proof.
  do 2 eexists. split; [vm_compute; reflexivity|]. split; reflexivity.
Qed.

Section AppTokenProperties.
Import TwitchApiBase.

Variable env : Env.

Lemma dispatchRequest_sends (config : Config) (w : World) :
  ∃ r, dispatchRequest env config w = Some (r, record_sent config w).
Proof.
  unfold dispatchRequest. destruct (adapter env w config) as [s|]; [|by eexists].
  destruct ((200 <=? s) && (s <? 300)); by eexists.
Qed.

Lemma stamped_authorization (t : string) (config : Config) :
  headers (stamped env t config) !! "Authorization" = Some ("Bearer " +:+ t).
Proof. unfold stamped, set_header. simpl. apply lookup_insert_eq. Qed.

(** C9.  When the stored app token is already expired at request time, the
    app request interceptor calls the token refresh, and whenever it lets
    the request go out, the [Authorization] header is built from the stored
    (pre-refresh) [access_token]; with a successful refresh the request
    does go out, carrying the stored token and not the new one. *)
Theorem app_request_carries_stale_token
    (config : Config) (w : World) (tok : AppToken) :
  getTwitchAppToken env w = Ret tok →
  (updated_at tok + expires_in tok * 1000 < Date_now env w)%Z →
  (∃ r w',
     appRequestInterceptor env config w = Some (r, w') ∧
     appRefreshes w' = S (appRefreshes w) ∧
     ∀ config', r = Resolved config' →
       headers config' !! "Authorization" = Some ("Bearer " +:+ access_token tok)) ∧
  (∀ newToken,
     app_token_endpoint env w = Resolved (Some newToken) →
     no_token (Some newToken) = false →
     ∃ r w',
       request_phase env (appRequestInterceptor env) config w = Some (r, w') ∧
       appRefreshes w' = S (appRefreshes w) ∧
       sent w' = sent w ++ [stamped env (access_token tok) config] ∧
       headers (stamped env (access_token tok) config) !! "Authorization"
         = Some ("Bearer " +:+ access_token tok) ∧
       (newToken ≠ access_token tok →
        headers (stamped env (access_token tok) config) !! "Authorization"
          ≠ Some ("Bearer " +:+ newToken))).
Proof.
  intros Htok Hexp. apply Z.ltb_lt in Hexp.
  split.
  - unfold appRequestInterceptor, checkTokenExpiry, refreshAppToken. api_unfold.
    rewrite Htok. cbv beta iota. rewrite Hexp. api_unfold.
    destruct (app_token_endpoint env w) as [newToken|e]; cbv beta iota.
    + destruct (no_token newToken).
      * do 2 eexists. split; [reflexivity|]. split; [reflexivity|]. intros ? [=].
      * do 2 eexists. split; [reflexivity|]. split; [reflexivity|].
        intros ? [= <-]. apply stamped_authorization.
    + do 2 eexists. split; [reflexivity|]. split; [reflexivity|]. intros ? [=].
  - intros newToken Hnew Hne.
    unfold appRequestInterceptor, checkTokenExpiry, refreshAppToken. api_steps.
    rewrite Htok. cbv beta iota. rewrite Hexp. api_steps.
    rewrite Hnew. cbv beta iota. rewrite Hne.
    fold (stamped env (access_token tok) config).
    destruct (dispatchRequest_sends (stamped env (access_token tok) config)
                (record_app_refresh w)) as [r ->].
    exists r, (record_sent (stamped env (access_token tok) config) (record_app_refresh w)).
    split; [reflexivity|]. split; [reflexivity|]. split; [reflexivity|].
    split; [apply stamped_authorization|].
    rewrite stamped_authorization. intros Hdiff [= E]. done.
Qed.

End AppTokenProperties.

Lemma app_request_carries_stale_token_witness :
  ∃ r w',
    TwitchApiBase.request_phase Scenario.always_401
      (TwitchApiBase.appRequestInterceptor Scenario.always_401)
      (TwitchApiBase.fresh_config "/eventsub/conduits") TwitchApiBase.initial
      = Some (r, w') ∧
    TwitchApiBase.appRefreshes w' = 1%nat ∧
    (λ c, TwitchApiBase.headers c !! "Authorization") <$> TwitchApiBase.sent w'
      = [Some "Bearer old-app-token"].
Proof.
  destruct (app_request_carries_stale_token Scenario.always_401
              (TwitchApiBase.fresh_config "/eventsub/conduits")
              TwitchApiBase.initial Scenario.stored_app_token)
    as (_ & Hout).
  - reflexivity.
  - reflexivity.
  - destruct (Hout "new-app-token" eq_refl eq_refl)
      as (r & w' & Hrun & Hrefresh & Hsent & Hheader & _).
    exists r, w'. split; [exact Hrun|]. split; [exact Hrefresh|].
    rewrite Hsent.
    change ([TwitchApiBase.headers
               (TwitchApiBase.stamped Scenario.always_401
                  (TwitchApiBase.access_token Scenario.stored_app_token)
                  (TwitchApiBase.fresh_config "/eventsub/conduits"))
             !! "Authorization"] = [Some "Bearer old-app-token"]).
    rewrite Hheader. reflexivity.
Defined.
(** ** The receiver: backoff, close codes, keepalive, attempt counter *)

Section ReceiverProperties.
Import EventSub.

(** C4 (as amended).  For every attempt count, every base delay of at
    least one millisecond, every cap between 0 and 2^53 milliseconds and
    every jitter [random * 1000] between 0 and 1000, both ends included,
    the delay lies in
    [[min(base*2^attempt, cap), min(base*2^attempt, cap) + 1000]]; it never
    exceeds [cap + 1000] nor [base*2^attempt + 1000], and it is at least
    [base*2^attempt] whenever [base*2^attempt <= cap].

    The interval is closed at both ends because the code computes in
    doubles: [Math.random() * 1000] stays below 1000, but the rounded sum
    can be [min(..) + 1000] itself, so [random] stands for the jitter that
    the returned delay contains, as a fraction of 1000.  The ranges of the
    base and the cap are those in which the exact arithmetic used here
    stands for the doubles of the code.  [Math.pow(2, attempt)] is
    [Infinity] from attempt 1024 on: the product is then [NaN] for a zero
    base, and is capped whatever the exact value of [base*2^attempt] for a
    positive one, which agrees with [min(base*2^attempt, cap)] as soon as
    the base is 1 or more.  And a delay beyond 2^56 is rounded to a
    multiple of 16 or more, which can lie more than 1000 above the
    capped term. *)
Theorem reconnect_delay_bounds (r : Receiver) (random : Q) :
  (1 <= baseReconnectDelay (options r))%Q →
  (0 <= maxReconnectDelay (options r))%Q →
  (maxReconnectDelay (options r) <= inject_Z (2 ^ 53))%Q →
  (0 <= random)%Q → (random <= 1)%Q →
  let base := baseReconnectDelay (options r) in
  let cap := maxReconnectDelay (options r) in
  let uncapped := (base * Math_pow2 (reconnectAttempts r))%Q in
  let delay := getReconnectDelay r random in
  (Qmin uncapped cap <= delay)%Q ∧
  (delay <= Qmin uncapped cap + 1000)%Q ∧
  (delay <= uncapped + 1000)%Q ∧
  (delay <= cap + 1000)%Q ∧
  ((uncapped <= cap)%Q → (uncapped <= delay)%Q).
Proof.
  intros _ _ _ H0 H1 base cap uncapped delay.
  unfold delay, getReconnectDelay. fold base cap uncapped.
  clearbody uncapped cap. clear delay.
  destruct (Q.min_spec uncapped cap) as [[Hlt Hmin]|[Hle Hmin]];
    rewrite Hmin; (split; [lra|split; [lra|split; [lra|split; [lra|intros Hcap; lra]]]]).
Qed.

(** [handleClose] leaves the receiver [disconnected], whatever the code. *)
Lemma handleClose_disconnected (r : Receiver) (closeCode : Z) (random : Q) :
  connectionState (handleClose r closeCode random) = disconnected.
Proof.
  unfold handleClose.
  repeat (match goal with |- context [if ?b then _ else _] => destruct b end);
    receiver_cases r; reflexivity.
Qed.

Lemma handleClose_frame (r : Receiver) (closeCode : Z) (random : Q) :
  options (handleClose r closeCode random) = options r ∧
  reconnectAttempts (handleClose r closeCode random) = reconnectAttempts r.
Proof.
  unfold handleClose.
  repeat (match goal with |- context [if ?b then _ else _] => destruct b end);
    receiver_cases r; split; reflexivity.
Qed.

Lemma cleanup_frame (r : Receiver) :
  options (cleanup r) = options r ∧
  reconnectUrl (cleanup r) = reconnectUrl r ∧
  reconnectAttempts (cleanup r) = reconnectAttempts r ∧
  connectionState (cleanup r) = connectionState r ∧
  ws (cleanup r) = None.
Proof. receiver_cases r; repeat split; reflexivity. Qed.

(** A [reconnect] that goes ahead opens a socket on the stored reconnect
    URL if one is known, and on the configured URL otherwise. *)
Lemma reconnect_opens_best_url (url_ok : string → bool) (r : Receiver) (random : Q) :
  connectionState r = disconnected →
  (reconnectAttempts r < maxReconnectAttempts (options r))%nat →
  url_ok (best_url r) = true →
  ws (reconnect url_ok r random).1
    = Some {| ws_url := best_url r; readyState := CONNECTING; hooked := true |}.
Proof.
  intros Hst Hlt Hok. apply Nat.leb_gt in Hlt.
  unfold reconnect, connect, best_url in *. rewrite Hst, Hlt. simpl.
  destruct (cleanup_frame r) as (Ho & Hu & _).
  destruct (known (reconnectUrl r)) eqn:Hk;
    repeat match goal with
           | |- context [cleanup ?x] =>
               let H1 := fresh in let H2 := fresh in
               destruct (cleanup_frame x) as (H1 & H2 & _);
               rewrite ?H1, ?H2; clear H1 H2; simpl
           end;
    rewrite Hok; reflexivity.
Qed.

(** C5.  On close: code 4001 schedules nothing; 4003 and 4007 clear the
    stored reconnect URL and schedule a reconnect; 1000 schedules a
    reconnect exactly when a reconnect URL is known; every other code
    schedules a reconnect and keeps the stored URL.  The scheduled
    [reconnect], once it goes ahead, opens the socket on the best
    available URL: the stored reconnect URL if one is known, else the
    configured one. *)
Theorem handleClose_policy (r : Receiver) (closeCode : Z) (random : Q) :
  let r' := handleClose r closeCode random in
  let pending := timers (cleanup r) in
  let timer := {| timer_id := next_timer r; callback := Reconnect;
                  delay := getReconnectDelay r random |} in
  (closeCode = 4001%Z →
   timers r' = pending ∧ reconnectUrl r' = reconnectUrl r) ∧
  (closeCode = 4003%Z ∨ closeCode = 4007%Z →
   timers r' = pending ++ [timer] ∧ reconnectUrl r' = None ∧
   best_url r' = wsUrl (options r)) ∧
  (closeCode = 1000%Z →
   timers r' = (if known (reconnectUrl r) then pending ++ [timer] else pending) ∧
   reconnectUrl r' = reconnectUrl r) ∧
  (closeCode ≠ 4001%Z → closeCode ≠ 4003%Z → closeCode ≠ 4007%Z →
   closeCode ≠ 1000%Z →
   timers r' = pending ++ [timer] ∧ reconnectUrl r' = reconnectUrl r ∧
   best_url r' = best_url r) ∧
  (∀ url_ok random',
     url_ok (best_url r') = true →
     (reconnectAttempts r < maxReconnectAttempts (options r))%nat →
     ws (reconnect url_ok r' random').1
       = Some {| ws_url := best_url r'; readyState := CONNECTING; hooked := true |}).
Proof.
  intros r' pending timer.
  split; [|split; [|split; [|split]]].
  - intros ->. subst r' pending. unfold handleClose. simpl.
    receiver_cases r; split; reflexivity.
  - intros [-> | ->]; subst r' pending timer; unfold handleClose; simpl;
      receiver_cases r; repeat split; reflexivity.
  - intros ->. subst r' pending timer. unfold handleClose. simpl.
    receiver_cases r; simpl; destruct (known url); split; reflexivity.
  - intros H1 H2 H3 H4. subst r' pending timer. unfold handleClose.
    apply Z.eqb_neq in H1, H2, H3, H4. rewrite H1, H2, H3, H4.
    receiver_cases r; simpl; destruct (known url) eqn:Hk; simpl;
      unfold best_url; simpl; rewrite ?Hk; repeat split; reflexivity.
  - intros url_ok random' Hok Hlt. subst r'.
    apply reconnect_opens_best_url; [apply handleClose_disconnected| |exact Hok].
    by destruct (handleClose_frame r closeCode random) as [-> ->].
Qed.

(** C6 (as amended).  The first keepalive check is scheduled
    [(timeoutSeconds + 2) * 1000] ms ahead by [startKeepaliveTimer]; every
    later check is scheduled [keepaliveInterval * 1000] ms after the check
    before it.  Each check compares [now - lastKeepaliveTime] against
    [keepaliveInterval * 1000 + 2000] and raises [missedKeepalives] by
    exactly one when that is exceeded, leaving it alone otherwise; when the
    raised count reaches [maxMissedKeepalives] the socket is closed and no
    further check is scheduled. *)
Theorem keepalive_monitor (r : Receiver) (timeoutSeconds now : Z) :
  (let r' := startKeepaliveTimer r timeoutSeconds in
   let kept := match keepaliveTimer r with
               | Some id => timers (clearTimeout id r)
               | None => timers r
               end in
   keepaliveInterval r' = timeoutSeconds ∧
   keepaliveTimer r' = Some (next_timer r) ∧
   timers r' = kept ++ [{| timer_id := next_timer r; callback := CheckKeepalive;
                           delay := inject_Z ((timeoutSeconds + 2) * 1000) |}]) ∧
  (let r' := checkKeepalive r now in
   let next := {| timer_id := next_timer r; callback := CheckKeepalive;
                  delay := inject_Z (keepaliveInterval r * 1000) |} in
   ((now - lastKeepaliveTime r ≤ keepaliveInterval r * 1000 + 2000)%Z →
    missedKeepalives r' = missedKeepalives r ∧
    timers r' = timers r ++ [next] ∧
    keepaliveTimer r' = Some (next_timer r) ∧
    closed r' = closed r) ∧
   ((keepaliveInterval r * 1000 + 2000 < now - lastKeepaliveTime r)%Z →
    missedKeepalives r' = S (missedKeepalives r) ∧
    ((S (missedKeepalives r) < maxMissedKeepalives (options r))%nat →
     timers r' = timers r ++ [next] ∧
     keepaliveTimer r' = Some (next_timer r) ∧
     closed r' = closed r) ∧
    ((maxMissedKeepalives (options r) ≤ S (missedKeepalives r))%nat →
     timers r' = timers r ∧
     closed r' = closed r ++ match ws r with
                             | Some s => [ws_url s]
                             | None => []
                             end))).
Proof.
  split.
  - unfold startKeepaliveTimer. destruct (keepaliveTimer r); repeat split; reflexivity.
  - unfold checkKeepalive. cbv zeta. split.
    + intros Hle. apply Z.ltb_ge in Hle. rewrite Hle. repeat split; reflexivity.
    + intros Hlt. apply Z.ltb_lt in Hlt. rewrite Hlt.
      cbn [options missedKeepalives ws set_missedKeepalives].
      split; [|split].
      * destruct (maxMissedKeepalives (options r) <=? S (missedKeepalives r))%nat;
          [destruct (ws r)|]; reflexivity.
      * intros Hbelow. apply Nat.leb_gt in Hbelow. rewrite Hbelow.
        repeat split; reflexivity.
      * intros Hreached. apply Nat.leb_le in Hreached. rewrite Hreached.
        cbn [ws set_missedKeepalives]. destruct (ws r); split; try reflexivity.
        simpl. by rewrite app_nil_r.
Qed.

(** The path through a stored reconnect URL: as soon as the socket object
    exists the receiver calls itself [connected] and the counter is 0,
    although the socket is still [CONNECTING]. *)
Lemma reconnect_via_url_resets_counter (url_ok : string → bool) (r : Receiver) (random : Q) :
  connectionState r = disconnected →
  (reconnectAttempts r < maxReconnectAttempts (options r))%nat →
  known (reconnectUrl r) = true →
  url_ok (default "" (reconnectUrl r)) = true →
  let r' := (reconnect url_ok r random).1 in
  reconnectAttempts r' = 0%nat ∧
  connectionState r' = connected ∧
  ws r' = Some {| ws_url := default "" (reconnectUrl r);
                  readyState := CONNECTING; hooked := true |}.
Proof.
  intros Hst Hlt Hk Hok. apply Nat.leb_gt in Hlt.
  unfold reconnect. rewrite Hst, Hlt. simpl. rewrite Hk.
  repeat match goal with
         | |- context [cleanup ?x] =>
             let H1 := fresh in let H2 := fresh in
             destruct (cleanup_frame x) as (H1 & H2 & _);
             rewrite ?H1, ?H2; clear H1 H2; simpl
         end.
  rewrite Hok. repeat split; reflexivity.
Qed.

(** The path without a reconnect URL keeps the raised counter until the
    transport reports the connection open. *)
Lemma reconnect_fresh_keeps_counter (url_ok : string → bool) (r : Receiver) (random : Q) :
  connectionState r = disconnected →
  (reconnectAttempts r < maxReconnectAttempts (options r))%nat →
  known (reconnectUrl r) = false →
  url_ok (wsUrl (options r)) = true →
  let r' := (reconnect url_ok r random).1 in
  reconnectAttempts r' = S (reconnectAttempts r) ∧
  connectionState r' = connecting ∧
  reconnectAttempts (open_event r') = 0%nat ∧
  connectionState (open_event r') = connected.
Proof.
  intros Hst Hlt Hk Hok. apply Nat.leb_gt in Hlt.
  unfold reconnect, connect. rewrite Hst, Hlt. simpl. rewrite Hk. simpl.
  repeat match goal with
         | |- context [cleanup ?x] =>
             let H1 := fresh in
             destruct (cleanup_frame x) as (H1 & _); rewrite ?H1; clear H1; simpl
         end.
  rewrite Hok. simpl.
  match goal with
  | |- context [cleanup ?x] =>
      destruct (cleanup_frame x) as (_ & _ & Ha & Hs & _)
  end.
  unfold open_event. simpl. repeat split; try reflexivity; simpl; try done.
Qed.

End ReceiverProperties.

Lemma reconnect_delay_bounds_witness :
  let r := Scenario.retrying_receiver None in
  (Qmin (1000 * EventSub.Math_pow2 3) 30000 <= EventSub.getReconnectDelay r 1)%Q ∧
  (EventSub.getReconnectDelay r 1 <= Qmin (1000 * EventSub.Math_pow2 3) 30000 + 1000)%Q ∧
  (EventSub.getReconnectDelay r 1 <= 30000 + 1000)%Q.
Proof.
  intros r.
  destruct (reconnect_delay_bounds r 1) as (Hlow & Hhigh & _ & Hcap & _).
  - unfold Qle. simpl. lia.
  - unfold Qle. simpl. lia.
  - unfold Qle. simpl. lia.
  - unfold Qle. simpl. lia.
  - unfold Qle. simpl. lia.
  - split; [exact Hlow | split; [exact Hhigh | exact Hcap]].
Defined.

(** C4 as stated fails: after five attempts with the default options the
    exponential term is 32000 but the delay is capped at 30000 plus jitter,
    so it falls below [base * 2^attempt]. *)
Lemma capped_delay_is_below_exponential :
  let r := EventSub.set_reconnectAttempts 5
             (EventSub.new_receiver EventSub.default_options 0) in
  (0 <= 0)%Q ∧ (0 < 1)%Q ∧
  (EventSub.getReconnectDelay r 0
   < EventSub.baseReconnectDelay (EventSub.options r)
     * EventSub.Math_pow2 (EventSub.reconnectAttempts r))%Q.
Proof.
  split; [|split].
  - unfold Qle. simpl. lia.
  - reflexivity.
  - vm_compute. reflexivity.
Qed.

Lemma handleClose_policy_witness :
  let r' := EventSub.handleClose Scenario.live_receiver 4003 (1 # 2) in
  EventSub.reconnectUrl r' = None ∧
  EventSub.reconnect_scheduled r' = true ∧
  EventSub.ws (EventSub.reconnect Scenario.any_url r' 0).1
    = Some {| EventSub.ws_url := "wss://eventsub.wss.twitch.tv/ws";
              EventSub.readyState := EventSub.CONNECTING;
              EventSub.hooked := true |}.
Proof.
  intros r'.
  destruct (handleClose_policy Scenario.live_receiver 4003 (1 # 2))
    as (_ & Hfresh & _ & _ & Hopen).
  destruct (Hfresh (or_introl eq_refl)) as (Htimers & Hurl & Hbest).
  cbv zeta in Htimers, Hurl, Hbest, Hopen.
  split; [exact Hurl|]. split.
  - unfold EventSub.reconnect_scheduled, r'. rewrite Htimers.
    apply existsb_exists. eexists.
    split; [apply in_or_app; right; left; reflexivity | reflexivity].
  - unfold r'. rewrite (Hopen Scenario.any_url 0%Q eq_refl).
    + rewrite Hbest. reflexivity.
    + simpl. lia.
Defined.

Lemma keepalive_monitor_witness :
  let r' := EventSub.checkKeepalive Scenario.checking_receiver 25000 in
  EventSub.missedKeepalives r' = 1%nat ∧
  EventSub.timers r'
    = [{| EventSub.timer_id := 1; EventSub.callback := EventSub.CheckKeepalive;
          EventSub.delay := inject_Z 10000 |}].
Proof.
  intros r'.
  destruct (keepalive_monitor Scenario.checking_receiver 10 25000)
    as (_ & _ & Hmissed).
  destruct Hmissed as (Hcount & Hbelow & _).
  - vm_compute. reflexivity.
  - destruct Hbelow as (Htimers & _).
    + simpl. lia.
    + split; [exact Hcount | exact Htimers].
Defined.

(** C6 as stated fails: a check that finds the keepalive on time schedules
    the next check [keepaliveInterval] seconds ahead, not
    [keepaliveInterval + 2]. *)
Lemma next_keepalive_check_has_no_grace :
  EventSub.timers (EventSub.checkKeepalive Scenario.checking_receiver 5000)
    = [{| EventSub.timer_id := 1; EventSub.callback := EventSub.CheckKeepalive;
          EventSub.delay := inject_Z (10 * 1000) |}] ∧
  ¬ (inject_Z (10 * 1000) == inject_Z ((10 + 2) * 1000))%Q.
Proof.
  split; [vm_compute; reflexivity|].
  intros H. vm_compute in H. discriminate H.
Qed.

(** C7 at its failing input: with a reconnect URL on file, [reconnect]
    leaves the new socket still [CONNECTING] (no open event yet) while the
    state is already [connected] and the attempt counter, raised from 3 to
    4, is back at 0. *)
Theorem reconnect_via_url_resets_before_open :
  let r := Scenario.retrying_receiver (Some Scenario.resume_url) in
  let r' := (EventSub.reconnect Scenario.any_url r 0).1 in
  EventSub.reconnectAttempts r = 3%nat ∧
  EventSub.ws r' = Some {| EventSub.ws_url := Scenario.resume_url;
                           EventSub.readyState := EventSub.CONNECTING;
                           EventSub.hooked := true |} ∧
  EventSub.connectionState r' = EventSub.connected ∧
  EventSub.reconnectAttempts r' = 0%nat.
Proof.
  repeat split; vm_compute; reflexivity.
Qed.

(** The same receiver without a reconnect URL keeps the counter at 4 until
    the open event. *)
Example reconnect_fresh_counts_attempt :
  let r := Scenario.retrying_receiver None in
  let r' := (EventSub.reconnect Scenario.any_url r 0).1 in
  EventSub.reconnectAttempts r' = 4%nat ∧
  EventSub.connectionState r' = EventSub.connecting ∧
  EventSub.reconnectAttempts (EventSub.open_event r') = 0%nat.
Proof.
  destruct (reconnect_fresh_keeps_counter Scenario.any_url
              (Scenario.retrying_receiver None) 0%Q)
    as (Hn & Hs & Hz & _); try reflexivity.
  - simpl. lia.
  - intros r r'. repeat split; assumption.
Qed.

(* ===================================================================== *)
(** * Further properties: tenant resolution and the registry *)
(* ===================================================================== *)

Section DispatcherEdges.
Import Dispatch.

Variable select_user_id : JsValue → DbResult.

(** X1.  The fallback chain of [extractReceivingBroadcasterId]: a non-empty
    string [to_broadcaster_user_id] wins over everything else; failing
    that, a non-empty string [broadcaster_user_id] wins over the nested
    [data] array. *)
Theorem extract_prefers_destination (event : JsValue) (to from : string) :
  truthy event = true →
  (get event "to_broadcaster_user_id" = JStr to → to ≠ "" →
   extractReceivingBroadcasterId event = JStr to) ∧
  (get event "broadcaster_user_id" = JStr from → from ≠ "" →
   (is_string (get event "to_broadcaster_user_id")
    && truthy (get event "to_broadcaster_user_id")) = false →
   extractReceivingBroadcasterId event = JStr from).
Proof.
  intros Hev. unfold extractReceivingBroadcasterId. rewrite Hev. simpl. split.
  - intros -> Hne. simpl. apply String.eqb_neq in Hne. by rewrite Hne.
  - intros Hfrom Hne ->. rewrite Hfrom. simpl.
    apply String.eqb_neq in Hne. by rewrite Hne.
Qed.

(** X2.  Whatever the payload, the resolved identifier is [null] or a
    truthy value, so the dispatcher's [!broadcasterId] test fires exactly
    on [null]; and unless it comes from the nested [data] array it is a
    non-empty string. *)
Theorem extract_result_shape (event : JsValue) :
  (extractReceivingBroadcasterId event = JNull ∨
   truthy (extractReceivingBroadcasterId event) = true) ∧
  (nested_items event = [] →
   extractReceivingBroadcasterId event = JNull ∨
   ∃ s, extractReceivingBroadcasterId event = JStr s ∧ s ≠ "").
Proof.
  unfold extractReceivingBroadcasterId, nested_items.
  destruct (truthy event); simpl; [|split; intros; by left].
  destruct (get event "to_broadcaster_user_id") as [| | | |s| |] eqn:Hto; simpl;
    try (destruct (s =? "")%string eqn:Hs; simpl;
         [|split; [right; simpl; by rewrite Hs
                  |intros _; right; exists s; split; [done|by apply String.eqb_neq]]]);
    (destruct (get event "broadcaster_user_id") as [| | | |s'| |] eqn:Hb; simpl;
     try (destruct (s' =? "")%string eqn:Hs'; simpl;
          [|split; [right; simpl; by rewrite Hs'
                   |intros _; right; exists s'; split; [done|by apply String.eqb_neq]]]));
    (destruct (get event "data") as [| | | | |[|d0 rest]|]; simpl;
     try (split; intros; by left);
     (split; [|intros [=]]);
     destruct (truthy (get_opt d0 "to_broadcaster_user_id")) eqn:H1;
       [right; unfold get_opt in H1; destruct (nullish d0); [done|exact H1]|];
     destruct (truthy (get_opt d0 "broadcaster_user_id")) eqn:H2;
       [right; unfold get_opt in H2; destruct (nullish d0); [done|exact H2]|];
     by left).
Qed.

(** X3.  The nested lookup reads the first element of [data] only, and
    returns whatever truthy value it finds there, string or not: later
    elements never resolve a tenant. *)
Theorem extract_reads_first_item_only (event d0 : JsValue) (rest : list JsValue) :
  truthy event = true →
  (is_string (get event "to_broadcaster_user_id")
   && truthy (get event "to_broadcaster_user_id")) = false →
  (is_string (get event "broadcaster_user_id")
   && truthy (get event "broadcaster_user_id")) = false →
  get event "data" = JArr (d0 :: rest) →
  (truthy (get_opt d0 "to_broadcaster_user_id") = false →
   truthy (get_opt d0 "broadcaster_user_id") = false →
   extractReceivingBroadcasterId event = JNull) ∧
  (∀ v, get_opt d0 "to_broadcaster_user_id" = v → truthy v = true →
        extractReceivingBroadcasterId event = v).
Proof.
  intros Hev Hto Hb Hdata. unfold extractReceivingBroadcasterId.
  rewrite Hev, Hto, Hb, Hdata. simpl. split.
  - intros -> ->. reflexivity.
  - intros v Hv Ht. rewrite Hv, Ht.
    unfold get_opt in Hv. destruct (nullish d0); [subst v; discriminate Ht | exact Hv].
Qed.

(** X4.  An event of a type nobody registered, for a known tenant, is
    dropped after the lookup with one log line: the dispatcher returns
    normally and builds no [TwitchApi]. *)
Theorem processTwitchEvent_unknown_type
    (twitchHandlers : gmap string InternalHandler) (eventType event : JsValue) :
  known_tenant select_user_id event →
  map_get twitchHandlers eventType = None →
  processTwitchEvent select_user_id twitchHandlers eventType event =
    ([EDbSelect "integrations_twitch" "twitch_user_id"
        (extractReceivingBroadcasterId event);
      ERegistryGet eventType;
      EConsole LvLog [LStr "No handler found for event type:"; LVal eventType]],
     Ret tt).
Proof.
  intros (Hid & Herr & Hrow) Hget. unfold processTwitchEvent.
  rewrite Hid, Herr, Hrow, Hget. reflexivity.
Qed.

(** X5.  The registry keeps one handler per event type and the last
    registration wins; registering a type leaves the dispatch of every
    other type as it was. *)
Theorem registration_last_wins
    (twitchHandlers : gmap string InternalHandler) (X : string)
    (h1 h2 : EventHandler) (s1 s2 : option ZodType) :
  registerTwitchHandler (registerTwitchHandler twitchHandlers X h1 s1) X h2 s2
    = registerTwitchHandler twitchHandlers X h2 s2 ∧
  (∀ event,
     processTwitchEvent select_user_id
       (registerTwitchHandler (registerTwitchHandler twitchHandlers X h1 s1) X h2 s2)
       (JStr X) event
     = processTwitchEvent select_user_id
         (registerTwitchHandler ∅ X h2 s2) (JStr X) event) ∧
  (∀ eventType event,
     eventType ≠ JStr X →
     processTwitchEvent select_user_id
       (registerTwitchHandler twitchHandlers X h1 s1) eventType event
     = processTwitchEvent select_user_id twitchHandlers eventType event).
Proof.
  split; [|split].
  - unfold registerTwitchHandler. apply insert_insert_eq.
  - intros event. unfold processTwitchEvent, map_get, registerTwitchHandler.
    by rewrite !lookup_insert_eq.
  - intros eventType event Hne. unfold processTwitchEvent.
    assert (map_get (registerTwitchHandler twitchHandlers X h1 s1) eventType
            = map_get twitchHandlers eventType) as ->; [|done].
    unfold map_get, registerTwitchHandler.
    destruct eventType; try done.
    apply lookup_insert_ne. congruence.
Qed.

End DispatcherEdges.

Lemma extract_prefers_destination_witness :
  Dispatch.extractReceivingBroadcasterId Cases.raid_event = JStr "42".
Proof.
  destruct (extract_prefers_destination Cases.raid_event "42" "99" eq_refl)
    as [Hto _].
  apply Hto; [reflexivity|]. intros E. discriminate E.
Defined.

Lemma extract_result_shape_witness :
  Dispatch.extractReceivingBroadcasterId Scenario.online_event = JNull ∨
  ∃ s, Dispatch.extractReceivingBroadcasterId Scenario.online_event = JStr s ∧ s ≠ "".
Proof.
  destruct (extract_result_shape Scenario.online_event) as [_ Hshape].
  apply Hshape. reflexivity.
Defined.

Lemma extract_reads_first_item_only_witness :
  Dispatch.extractReceivingBroadcasterId Cases.batch_event = JNum 42.
Proof.
  destruct (extract_reads_first_item_only Cases.batch_event
              (JObj [("to_broadcaster_user_id", JNum 42)])
              [JObj [("broadcaster_user_id", JStr "7")]]
              eq_refl eq_refl eq_refl eq_refl) as [_ Hfirst].
  apply Hfirst; reflexivity.
Defined.

Lemma processTwitchEvent_unknown_type_witness :
  Dispatch.processTwitchEvent Scenario.db Scenario.registry
    (JStr "channel.follow") Scenario.online_event =
  ([EDbSelect "integrations_twitch" "twitch_user_id" (JStr "42");
    ERegistryGet (JStr "channel.follow");
    EConsole LvLog [LStr "No handler found for event type:";
                    LVal (JStr "channel.follow")]],
   Ret tt).
Proof.
  apply (processTwitchEvent_unknown_type Scenario.db Scenario.registry
           (JStr "channel.follow") Scenario.online_event).
  - repeat split; vm_compute; reflexivity.
  - vm_compute. reflexivity.
Defined.

Lemma registration_last_wins_witness :
  Dispatch.processTwitchEvent Scenario.db
    (Dispatch.registerTwitchHandler ∅ "stream.offline" Scenario.failing_handler None)
    (JStr "stream.online") Scenario.online_event
  = Dispatch.processTwitchEvent Scenario.db ∅ (JStr "stream.online")
      Scenario.online_event.
Proof.
  destruct (registration_last_wins Scenario.db ∅ "stream.offline"
              Scenario.failing_handler Scenario.failing_handler None None)
    as (_ & _ & Hother).
  apply Hother. intros E. discriminate E.
Defined.

(* ===================================================================== *)
(** * Further properties: the signature check and the header lookup *)
(* ===================================================================== *)

Section WebhookEdges.
Import Dispatch Webhook.

Variable TWITCH_WEBHOOK_SECRET : string.
Variable createHmac_sha256_hex : string → string → string.
Variable JSON_parse : string → Outcome JsValue.
Variable select_user_id : JsValue → DbResult.
Variable handlers : gmap string InternalHandler.

#[local] Abbreviation verify :=
  (verifySignature TWITCH_WEBHOOK_SECRET createHmac_sha256_hex).
#[local] Abbreviation expected_signature messageId timestamp body :=
  (HMAC_PREFIX +:+ createHmac_sha256_hex TWITCH_WEBHOOK_SECRET
                     (messageId +:+ timestamp +:+ body)).

Lemma verifySignature_eqb (messageId timestamp body received : string) :
  verify messageId timestamp body received
    = String.eqb (expected_signature messageId timestamp body) received.
Proof.
  unfold verifySignature, timingSafeEqual, getWebhookSecret, generateHmac,
    buildHmacMessage.
  destruct (String.length _ =? String.length received)%nat eqn:Hlen; [done|].
  symmetry. apply String.eqb_neq. intros Heq. apply Nat.eqb_neq in Hlen.
  by rewrite Heq in Hlen.
Qed.

(** X6.  [verifySignature] accepts exactly the string
    ["sha256=" + digest(secret, messageId + timestamp + body)]; anything
    else, a string of another length included, is answered [false] rather
    than by an exception.  So the verdict depends on the concatenation
    only, not on where the id ends and the timestamp begins. *)
Theorem verifySignature_exact (messageId timestamp body received : string) :
  (verifySignature TWITCH_WEBHOOK_SECRET createHmac_sha256_hex
     messageId timestamp body received = true ↔
   received = HMAC_PREFIX +:+ createHmac_sha256_hex TWITCH_WEBHOOK_SECRET
                                (messageId +:+ timestamp +:+ body)) ∧
  (∀ messageId' timestamp' body',
     messageId' +:+ timestamp' +:+ body' = messageId +:+ timestamp +:+ body →
     verifySignature TWITCH_WEBHOOK_SECRET createHmac_sha256_hex
       messageId' timestamp' body' received
     = verifySignature TWITCH_WEBHOOK_SECRET createHmac_sha256_hex
         messageId timestamp body received).
Proof.
  split.
  - rewrite verifySignature_eqb. rewrite String.eqb_eq. split; congruence.
  - intros m' t' b' Hcat. rewrite !verifySignature_eqb. by rewrite Hcat.
Qed.

Lemma append_inj_l (p a b : string) : p +:+ a = p +:+ b → a = b.
Proof. induction p as [|c p IH]; simpl; [done|]. intros [= H]. by apply IH. Qed.

(** X7.  A signature that verifies for one body is rejected for any other
    body whose digest differs. *)
Theorem tampered_body_rejected (messageId timestamp body body' received : string) :
  verifySignature TWITCH_WEBHOOK_SECRET createHmac_sha256_hex
    messageId timestamp body received = true →
  createHmac_sha256_hex TWITCH_WEBHOOK_SECRET (messageId +:+ timestamp +:+ body')
    ≠ createHmac_sha256_hex TWITCH_WEBHOOK_SECRET (messageId +:+ timestamp +:+ body) →
  verifySignature TWITCH_WEBHOOK_SECRET createHmac_sha256_hex
    messageId timestamp body' received = false.
Proof.
  rewrite !verifySignature_eqb. intros Hok Hdiff.
  apply String.eqb_eq in Hok. subst received.
  apply String.eqb_neq. intros Heq. apply Hdiff. by apply append_inj_l in Heq.
Qed.

(** X8.  Header lookup ignores the case of the wanted name, and answers
    [null] exactly when no entry has that name; on the entries of a
    [Headers] object (lower-case names, one entry per name) it returns the
    value of the entry with the wanted name in lower case, wherever that
    entry stands. *)
Theorem getTwitchHeader_case_insensitive
    (headers : list (string * string)) (name : string) :
  (∀ name', toLowerCase name' = toLowerCase name →
            getTwitchHeader headers name' = getTwitchHeader headers name) ∧
  (getTwitchHeader headers name = None ↔
   Forall (λ kv, toLowerCase kv.1 ≠ toLowerCase name) headers) ∧
  (Headers_entries headers →
   ∀ value,
     getTwitchHeader headers name = Some value ↔
     (toLowerCase name, value) ∈ headers).
Proof.
  split; [|split].
  - intros name' Heq. induction headers as [|[k v] hs IH]; simpl; [done|].
    by rewrite Heq, IH.
  - induction headers as [|[k v] hs IH]; simpl; [by split|].
    destruct (toLowerCase k =? toLowerCase name)%string eqn:E.
    + apply String.eqb_eq in E. split; [done|].
      intros Hall. apply Forall_cons in Hall as [Hne _]. done.
    + apply String.eqb_neq in E. rewrite IH. split.
      * intros Hall. by constructor.
      * intros Hall. by apply Forall_cons in Hall as [_ Hall].
  - intros [Hlower Hnodup] value.
    induction headers as [|[k v] hs IH]; simpl.
    { split; [done|]. intros Hin. by apply elem_of_nil in Hin. }
    apply Forall_cons in Hlower as [Hk Hlower]. simpl in Hk.
    simpl in Hnodup. apply NoDup_cons in Hnodup as [Hfresh Hnodup].
    specialize (IH Hlower Hnodup).
    destruct (toLowerCase k =? toLowerCase name)%string eqn:E.
    + apply String.eqb_eq in E. rewrite Hk in E. subst k. split.
      * intros [= ->]. apply elem_of_cons. by left.
      * intros Hin. apply elem_of_cons in Hin as [[= ->]|Hin]; [done|].
        exfalso. apply Hfresh.
        by apply (list_elem_of_fmap_2 fst hs (toLowerCase name, value)).
    + apply String.eqb_neq in E. rewrite Hk in E. rewrite IH. split.
      * intros Hin. apply elem_of_cons. by right.
      * intros Hin. apply elem_of_cons in Hin as [[= Heq _]|Hin]; [|done].
        by rewrite Heq in E.
Qed.

End WebhookEdges.

Lemma verifySignature_exact_witness :
  Webhook.verifySignature Scenario.secret Scenario.digest
    "msg-1" "2026-01-01T00:00:00Z" Scenario.notification_body
    (Scenario.sign "msg-1" "2026-01-01T00:00:00Z" Scenario.notification_body) = true.
Proof.
  destruct (verifySignature_exact Scenario.secret Scenario.digest
              "msg-1" "2026-01-01T00:00:00Z" Scenario.notification_body
              (Scenario.sign "msg-1" "2026-01-01T00:00:00Z" Scenario.notification_body))
    as [[_ Haccept] _].
  apply Haccept. reflexivity.
Defined.

Lemma tampered_body_rejected_witness :
  Webhook.verifySignature Scenario.secret Scenario.digest
    "msg-1" "2026-01-01T00:00:00Z" Scenario.revoke_body
    (Scenario.sign "msg-1" "2026-01-01T00:00:00Z" Scenario.notification_body) = false.
Proof.
  apply (tampered_body_rejected Scenario.secret Scenario.digest
           "msg-1" "2026-01-01T00:00:00Z" Scenario.notification_body).
  - vm_compute. reflexivity.
  - intros E. apply (f_equal String.length) in E. vm_compute in E. discriminate E.
Defined.

Lemma getTwitchHeader_case_insensitive_witness :
  Webhook.getTwitchHeader
    (Webhook.req_headers (Scenario.signed_request "notification" Scenario.notification_body))
    "Twitch-Eventsub-Message-Type"
  = Some "notification".
Proof.
  destruct (getTwitchHeader_case_insensitive
              (Webhook.req_headers
                 (Scenario.signed_request "notification" Scenario.notification_body))
              "Twitch-Eventsub-Message-Type") as (_ & _ & Hentry).
  apply Hentry.
  - split.
    + repeat constructor.
    + apply (bool_decide_unpack _). vm_compute. exact I.
  - change (Webhook.toLowerCase "Twitch-Eventsub-Message-Type")
      with "twitch-eventsub-message-type".
    unfold Scenario.signed_request. simpl.
    do 4 (apply elem_of_cons; right). apply elem_of_cons. by left.
Defined.

(* ===================================================================== *)
(** * Further properties: what reaches the dispatcher through the webhook *)
(* ===================================================================== *)


Section WebhookReach.
Import Dispatch Webhook.

Variable TWITCH_WEBHOOK_SECRET : string.
Variable createHmac_sha256_hex : string → string → string.
Variable JSON_parse : string → Outcome JsValue.
Variable select_user_id : JsValue → DbResult.
Variable handlers : gmap string InternalHandler.
Variable isDevelopment : bool.

#[local] Abbreviation the_route :=
  (eventsub_route TWITCH_WEBHOOK_SECRET createHmac_sha256_hex JSON_parse
                  select_user_id handlers).

Lemma handleVerification_quiet (notification : JsValue) :
  Forall (λ e, is_console e = true) (trace (handleVerification notification)) ∧
  ∀ resp, outcome (handleVerification notification) = Ret resp →
          status resp = 200 ∨ status resp = 400.
Proof.
  unfold handleVerification.
  destruct (negb (truthy (get notification "challenge"))
            || negb (is_string (get notification "challenge")));
    [split; [constructor|intros ? [= <-]; by right]|].
  unfold get_or_throw.
  destruct (nullish (get notification "subscription")); simpl.
  - split; [constructor|intros ? [=]].
  - split; [repeat constructor|intros ? [= <-]; by left].
Qed.

Lemma handleRevocation_quiet (notification : JsValue) :
  Forall (λ e, is_console e = true) (trace (handleRevocation notification)) ∧
  ∀ resp, outcome (handleRevocation notification) = Ret resp → status resp = 204.
Proof.
  unfold handleRevocation, get_or_throw.
  destruct (nullish (get notification "subscription")); simpl.
  - split; [constructor|intros ? [=]].
  - split; [repeat constructor|by intros ? [= <-]].
Qed.

Lemma handleNotification_status (notification : JsValue) (resp : Response) :
  outcome (handleNotification select_user_id handlers notification) = Ret resp →
  status resp = 204.
Proof.
  unfold handleNotification, outcome, mbind, M_bind, bind.
  destruct (handleEventsub _ _ _) as [t [[]|e]]; simpl; [by intros [= <-]|done].
Qed.

(** What the middleware and the route do, branch by branch. *)
Lemma route_cases (c : Context) :
  (headers_complete c = false ∧ the_route c
     = ret (json_error "Missing required headers"
              "Twitch EventSub webhook requires specific headers" 400)) ∨
  (headers_complete c = true ∧
   signature_valid TWITCH_WEBHOOK_SECRET createHmac_sha256_hex c = false ∧
   ∃ t b, the_route c = (t, Ret {| status := 403; body := b |}) ∧
          Forall (λ e, is_console e = true) t) ∨
  (headers_complete c = true ∧
   signature_valid TWITCH_WEBHOOK_SECRET createHmac_sha256_hex c = true ∧
   ((∃ e, JSON_parse (raw_body c) = Throw e ∧
          the_route c = ret (json_error "Invalid JSON"
                               "Failed to parse notification body" 400)) ∨
    (∃ n, JSON_parse (raw_body c) = Ret n ∧
          ((truthy n = false ∧
            the_route c = ret (json_error "Internal error"
                                 "Notification data not found in context" 500)) ∨
           (truthy n = true ∧
            ((message_type c = MESSAGE_TYPE_VERIFICATION ∧
              the_route c = handleVerification n) ∨
             (message_type c = MESSAGE_TYPE_NOTIFICATION ∧
              the_route c = handleNotification select_user_id handlers n) ∨
             (message_type c = MESSAGE_TYPE_REVOCATION ∧
              the_route c = handleRevocation n) ∨
             (message_type c ≠ MESSAGE_TYPE_VERIFICATION ∧
              message_type c ≠ MESSAGE_TYPE_NOTIFICATION ∧
              message_type c ≠ MESSAGE_TYPE_REVOCATION ∧
              the_route c =
                ([EConsole LvWarn [LStr "Unknown message type";
                                   LVal (JStr (message_type c))]],
                 Ret {| status := 204; body := BodyNull |})))))))).
Proof.
  destruct (headers_complete c) eqn:Hh.
  2:{ left. split; [done|]. unfold headers_complete, header in Hh.
      apply negb_false_iff in Hh.
      unfold eventsub_route, twitchEventSubVerification. by rewrite Hh. }
  right.
  destruct (signature_valid TWITCH_WEBHOOK_SECRET createHmac_sha256_hex c) eqn:Hv.
  2:{ left. split; [done|]. split; [done|].
      unfold headers_complete, signature_valid, raw_body, header in *.
      apply negb_true_iff in Hh.
      unfold eventsub_route, twitchEventSubVerification. rewrite Hh, Hv. simpl.
      do 2 eexists. split; [reflexivity|]. repeat constructor. }
  right. split; [done|]. split; [done|].
  destruct (JSON_parse (raw_body c)) as [n|e] eqn:Hp.
  2:{ left. exists e. split; [done|].
      unfold headers_complete, signature_valid, raw_body, header in *.
      apply negb_true_iff in Hh.
      unfold eventsub_route, twitchEventSubVerification. rewrite Hh, Hv. simpl.
      by rewrite Hp. }
  right. exists n. split; [done|].
  rewrite (verification_passes _ _ _ _ _ c n Hh Hv Hp).
  pose proof (message_type_truthy c Hh) as Hmt.
  unfold handleTwitchEventSub. cbn [var_twitchNotification var_twitchMessageType].
  rewrite Hmt. destruct (truthy n); simpl; [right; split; [done|]|by left].
  destruct (message_type c =? MESSAGE_TYPE_VERIFICATION)%string eqn:E1.
  { left. by apply String.eqb_eq in E1. }
  destruct (message_type c =? MESSAGE_TYPE_NOTIFICATION)%string eqn:E2.
  { right; left. by apply String.eqb_eq in E2. }
  destruct (message_type c =? MESSAGE_TYPE_REVOCATION)%string eqn:E3.
  { right; right; left. by apply String.eqb_eq in E3. }
  right; right; right. apply String.eqb_neq in E1, E2, E3. done.
Qed.

(** The endpoint as mounted always answers, and never with 401. *)
Lemma endpoint_answers (c : Context) :
  ∃ t resp,
    eventsub_endpoint TWITCH_WEBHOOK_SECRET createHmac_sha256_hex JSON_parse
      isDevelopment select_user_id handlers c = (t, Ret resp) ∧
    status resp ≠ 401 ∧
    (status resp = 200 → message_type c = MESSAGE_TYPE_VERIFICATION).
Proof.
  unfold eventsub_endpoint, safeErrorHandler, rawBodyMiddleware.
  match goal with
  | |- context [if ?b then eventsub_route _ _ _ _ _ ?c1 else _] =>
      assert (Hc : ∃ c', message_type c' = message_type c ∧
                (if b then the_route c1 else the_route c) = the_route c')
        by (destruct b; [exists c1|exists c]; split; reflexivity)
  end.
  destruct Hc as (c' & Hm & ->). rewrite <- Hm. clear Hm.
  destruct (the_route c') as [t [resp|e]] eqn:Hr.
  2:{ simpl. do 2 eexists. split; [reflexivity|]. simpl. done. }
  simpl. exists t, resp. split; [reflexivity|].
  destruct (route_cases c')
    as [[_ Hc] | [(_ & _ & t' & b & Hc & _)
       | (_ & _ & [(x & _ & Hc) | (n & _ & [[_ Hc] | [_ Hcases]])])]].
  1-4: rewrite Hc in Hr; injection Hr as _ <-; simpl; done.
  destruct Hcases as [[Hmt Hc] | [[_ Hc] | [[_ Hc] | (_ & _ & _ & Hc)]]];
    rewrite Hc in Hr.
  - assert (Ho : outcome (handleVerification n) = Ret resp) by (by rewrite Hr).
    destruct (proj2 (handleVerification_quiet n) resp Ho) as [-> | ->]; done.
  - assert (Ho : outcome (handleNotification select_user_id handlers n) = Ret resp)
      by (by rewrite Hr).
    by rewrite (handleNotification_status n resp Ho).
  - assert (Ho : outcome (handleRevocation n) = Ret resp) by (by rewrite Hr).
    by rewrite (proj2 (handleRevocation_quiet n) resp Ho).
  - injection Hr as _ <-. simpl. done.
Qed.

(** X9.  Nothing but console output happens for a request unless it is a
    notification with complete headers, a valid signature and a body that
    parses to a truthy value: no database query, no registry lookup, no
    client construction and no handler call otherwise. *)
Theorem dispatch_requires_verified_notification (c : Context) (e : Effect) :
  e ∈ trace (the_route c) →
  is_console e = false →
  headers_complete c = true ∧
  signature_valid TWITCH_WEBHOOK_SECRET createHmac_sha256_hex c = true ∧
  message_type c = MESSAGE_TYPE_NOTIFICATION ∧
  ∃ n, JSON_parse (raw_body c) = Ret n ∧ truthy n = true.
Proof.
  intros Hin Hquiet.
  assert (∀ t, Forall (λ e, is_console e = true) t → e ∈ t → False) as Hno.
  { intros t Hall Hin'. rewrite Forall_forall in Hall.
    specialize (Hall e Hin'). congruence. }
  destruct (route_cases c)
    as [[_ Hr] | [(_ & _ & t & b & Hr & Hall)
       | (Hh & Hv & [(x & _ & Hr) | (n & Hp & [[_ Hr] | [Ht Hcases]])])]].
  - rewrite Hr in Hin. by apply elem_of_nil in Hin.
  - rewrite Hr in Hin. exfalso. by apply (Hno t).
  - rewrite Hr in Hin. by apply elem_of_nil in Hin.
  - rewrite Hr in Hin. by apply elem_of_nil in Hin.
  - destruct Hcases as [[_ Hr] | [[Hm Hr] | [[_ Hr] | (_ & _ & _ & Hr)]]].
    + rewrite Hr in Hin. exfalso.
      by apply (Hno _ (proj1 (handleVerification_quiet n))).
    + repeat split; try done. by exists n.
    + rewrite Hr in Hin. exfalso.
      by apply (Hno _ (proj1 (handleRevocation_quiet n))).
    + rewrite Hr in Hin. exfalso. refine (Hno _ _ Hin). repeat constructor.
Qed.

(** X10.  Whenever the route answers, the status is one of 200, 204, 400,
    403 and 500; 200 is given to verification challenges only and 204 only
    to requests that passed the signature check. *)
Theorem route_status_codes (c : Context) (resp : Response) :
  outcome (the_route c) = Ret resp →
  status resp ∈ [200; 204; 400; 403; 500] ∧
  (status resp = 200 → message_type c = MESSAGE_TYPE_VERIFICATION) ∧
  (status resp = 204 →
   signature_valid TWITCH_WEBHOOK_SECRET createHmac_sha256_hex c = true).
Proof.
  intros Hret.
  destruct (route_cases c)
    as [[_ Hr] | [(_ & _ & t & b & Hr & Hall)
       | (Hh & Hv & [(x & _ & Hr) | (n & Hp & [[_ Hr] | [Ht Hcases]])])]].
  1-4: rewrite Hr in Hret; injection Hret as <-; simpl;
       (split; [set_solver|split; [done|done]]).
  destruct Hcases as [[Hm Hr] | [[Hm Hr] | [[Hm Hr] | (_ & _ & _ & Hr)]]];
    rewrite Hr in Hret.
  - destruct (proj2 (handleVerification_quiet n) resp Hret) as [-> | ->];
      (split; [set_solver|split; [done|done]]).
  - rewrite (handleNotification_status n resp Hret).
    split; [set_solver|split; [done|done]].
  - rewrite (proj2 (handleRevocation_quiet n) resp Hret).
    split; [set_solver|split; [done|done]].
  - injection Hret as <-. simpl. split; [set_solver|split; [done|done]].
Qed.

End WebhookReach.

Lemma dispatch_requires_verified_notification_witness :
  let c := Scenario.signed_request "notification" Scenario.notification_body in
  Webhook.headers_complete c = true ∧
  Webhook.signature_valid Scenario.secret Scenario.digest c = true ∧
  Webhook.message_type c = Webhook.MESSAGE_TYPE_NOTIFICATION ∧
  ∃ n, Scenario.JSON_parse (Webhook.raw_body c) = Ret n ∧ truthy n = true.
Proof.
  intros c.
  apply (dispatch_requires_verified_notification Scenario.secret Scenario.digest
           Scenario.JSON_parse Scenario.db Scenario.registry c
           (EDbSelect "integrations_twitch" "twitch_user_id" (JStr "42"))).
  - assert (Htrace : ∃ rest,
              trace (Webhook.eventsub_route Scenario.secret Scenario.digest
                       Scenario.JSON_parse Scenario.db Scenario.registry c)
              = EDbSelect "integrations_twitch" "twitch_user_id" (JStr "42") :: rest)
      by (eexists; vm_compute; reflexivity).
    destruct Htrace as [rest ->]. apply elem_of_cons. by left.
  - reflexivity.
Defined.

Lemma route_status_codes_witness :
  let c := Scenario.signed_request "webhook_callback_verification"
             Scenario.challenge_body in
  Webhook.message_type c = Webhook.MESSAGE_TYPE_VERIFICATION.
Proof.
  intros c.
  destruct (route_status_codes Scenario.secret Scenario.digest Scenario.JSON_parse
              Scenario.db Scenario.registry c
              {| Webhook.status := 200; Webhook.body := Webhook.BodyText "abc123" |})
    as (_ & H200 & _).
  - vm_compute. reflexivity.
  - apply H200. reflexivity.
Defined.

(* ===================================================================== *)
(** * Further properties: the outbound client's failure paths *)
(* ===================================================================== *)

Section ApiClientEdges.
Import TwitchApiBase.

Variable env : Env.
Variable broadcaster_id : option string.

#[local] Abbreviation tenant := (default "" broadcaster_id).

(** The request phase when the tenant is set and the store answers. *)
Lemma client_request_phase_any (config : Config) (w : World) (t : string) :
  no_token broadcaster_id = false →
  getChannelAccessToken env w tenant = Ret t →
  request_phase env (clientRequestInterceptor env broadcaster_id) config w =
    Some (match adapter env w (stamped env t config) with
          | Some st =>
              if (200 <=? st) && (st <? 300)
              then Resolved {| resp_status := st; resp_config := stamped env t config |}
              else Reject (AxiosError (stamped env t config) (Some st))
          | None => Reject (AxiosError (stamped env t config) None)
          end,
          record_sent (stamped env t config) w).
Proof.
  intros Hb Ht. unfold clientRequestInterceptor. api_unfold.
  rewrite Hb. api_unfold. rewrite Ht. fold (stamped env t config).
  destruct (adapter env w _) as [st|]; [|done].
  by destruct ((200 <=? st) && (st <? 300)).
Qed.

(** X11.  A failure that is not a 401 (another status, or no response at
    all) is passed to the caller as it is: one request, no token refresh,
    no retry. *)
Theorem client_other_failure_propagates (url : string) (w : World)
    (t : string) (answer : option nat) :
  no_token broadcaster_id = false →
  getChannelAccessToken env w tenant = Ret t →
  adapter env w (stamped env t (fresh_config url)) = answer →
  answer ≠ Some 401 →
  (∀ st, answer = Some st → (200 <=? st) && (st <? 300) = false) →
  client_call env broadcaster_id url w =
    Some (Reject (AxiosError (stamped env t (fresh_config url)) answer),
          record_sent (stamped env t (fresh_config url)) w).
Proof.
  intros Hb Ht Hans Hne H2xx. unfold client_call.
  rewrite clientApi_unfold. unfold on_rejected.
  rewrite (client_request_phase_any _ _ t Hb Ht). rewrite Hans.
  destruct answer as [st|].
  - rewrite (H2xx st eq_refl). by rewrite client_rejected_gives_up by (by left).
  - by rewrite client_rejected_gives_up by (by left).
Qed.

(** A first answer of 401 leads to the token endpoint; what it says
    decides the rest of the call. *)
Lemma client_call_after_401 (url : string) (w : World) (t : string) :
  no_token broadcaster_id = false →
  getChannelAccessToken env w tenant = Ret t →
  adapter env w (stamped env t (fresh_config url)) = Some 401 →
  let c := stamped env t (fresh_config url) in
  let w1 := record_console "Token expired, attempting to refresh for broadcaster:"
              (record_sent c w) in
  client_call env broadcaster_id url w =
    match user_token_endpoint env w1 tenant with
    | Reject e =>
        Some (Reject e,
              record_console "Token refresh failed:"
                (record_console "Token refresh failed:"
                   (record_user_refresh tenant w1)))
    | Resolved tok =>
        if no_token tok
        then Some (Reject (AxiosError (set_retryCount 1 c) (Some 401)),
                   record_user_refresh tenant w1)
        else clientApi env broadcaster_id (S MAX_RETRIES)
               (set_header "Authorization" ("Bearer " +:+ default "" tok)
                  (set_retryCount 1 c))
               (record_console "Token refreshed, retrying request"
                  (record_user_refresh tenant w1))
    end.
Proof.
  intros Hb Ht H401 c w1. unfold client_call.
  rewrite clientApi_unfold. unfold on_rejected at 1.
  rewrite (client_request_phase_any _ _ t Hb Ht). rewrite H401.
  change ((200 <=? 401) && (401 <? 300)) with false. cbv iota.
  fold c. unfold clientResponseRejected.
  change (default 0 (__retryCount c)) with 0.
  rewrite bool_decide_eq_true_2 by done.
  change (0 <? MAX_RETRIES) with true. cbn [andb].
  unfold refreshUserToken. api_unfold. rewrite Hb. api_unfold. fold w1.
  destruct (user_token_endpoint env w1 tenant) as [tok|e]; [|done].
  cbv beta iota. by destruct (no_token tok).
Qed.

(** X12.  When the refresh after a 401 fails, nothing is retried: if the
    token endpoint rejects, the caller gets the refresh error (not the
    401); if it yields no token, the caller gets the original 401.  Either
    way exactly one request and one refresh attempt were made. *)
Theorem client_refresh_failure_ends_call (url : string) (w : World) (t : string) :
  no_token broadcaster_id = false →
  getChannelAccessToken env w tenant = Ret t →
  adapter env w (stamped env t (fresh_config url)) = Some 401 →
  let c := stamped env t (fresh_config url) in
  let w1 := record_console "Token expired, attempting to refresh for broadcaster:"
              (record_sent c w) in
  (∀ e, user_token_endpoint env w1 tenant = Reject e →
        ∃ w',
          client_call env broadcaster_id url w = Some (Reject e, w') ∧
          sent w' = sent w ++ [c] ∧
          userRefreshes w' = userRefreshes w ++ [tenant]) ∧
  (∀ tok, user_token_endpoint env w1 tenant = Resolved tok →
          no_token tok = true →
          ∃ w',
            client_call env broadcaster_id url w
              = Some (Reject (AxiosError (set_retryCount 1 c) (Some 401)), w') ∧
            sent w' = sent w ++ [c] ∧
            userRefreshes w' = userRefreshes w ++ [tenant]).
Proof.
  intros Hb Ht H401 c w1.
  pose proof (client_call_after_401 url w t Hb Ht H401) as Hcall.
  cbv zeta in Hcall. fold c in Hcall. fold w1 in Hcall.
  split.
  - intros e He. rewrite He in Hcall. eexists. split; [exact Hcall|]. done.
  - intros tok Htok Hnone. rewrite Htok, Hnone in Hcall.
    eexists. split; [exact Hcall|]. done.
Qed.

(** X13.  Without a broadcaster id the call is rejected before anything
    happens: no token read, no request, no refresh. *)
Theorem client_without_tenant_sends_nothing (url : string) (w : World) :
  no_token broadcaster_id = true →
  client_call env broadcaster_id url w =
    Some (Reject (PlainError
                    (Error "Broadcaster ID is required in Twitch client interceptor")),
          w).
Proof.
  intros Hb. unfold client_call. rewrite clientApi_unfold.
  unfold clientRequestInterceptor. api_unfold. rewrite Hb. reflexivity.
Qed.

(** X14.  Whatever the collaborators answer, every request a call puts on
    the wire goes to the URL the caller asked for and carries the client id
    and a token the store returned: the header the rejection handler writes
    from the refreshed token is overwritten by the request interceptor
    before the retry is sent. *)
Theorem client_requests_carry_store_token (url : string) (w w' : World)
    (r : Result AxiosResponse) :
  client_call env broadcaster_id url w = Some (r, w') →
  ∃ added,
    sent w' = sent w ++ added ∧
    Forall (λ c, from_store env broadcaster_id c ∧ TwitchApiBase.url c = url) added.
Proof.
  unfold client_call.
  change url with (TwitchApiBase.url (fresh_config url)) at 2.
  generalize (fresh_config url) as config. generalize (S (S MAX_RETRIES)) as fuel.
  intros fuel. revert w w' r.
  induction fuel as [|fuel IH]; intros w w' r config; [discriminate|].
  rewrite clientApi_unfold. unfold on_rejected at 1.
  unfold clientRequestInterceptor. api_unfold.
  destruct (no_token broadcaster_id) eqn:Hb.
  { intros [= <- <-]. exists []. by rewrite app_nil_r. }
  api_unfold.
  destruct (getChannelAccessToken env w tenant) as [t|e] eqn:Ht.
  2:{ intros [= <- <-]. exists []. by rewrite app_nil_r. }
  fold (stamped env t config).
  assert (Hfirst : from_store env broadcaster_id (stamped env t config) ∧
                   TwitchApiBase.url (stamped env t config) = TwitchApiBase.url config).
  { split; [|reflexivity]. exists w, t. split; [exact Ht|]. split.
    - apply lookup_insert_eq.
    - simpl. rewrite lookup_insert_ne by done. rewrite lookup_insert_ne by done.
      apply lookup_insert_eq. }
  set (c := stamped env t config) in *.
  assert (Hgive : ∀ e (w0 : World),
            sent w0 = sent w ++ [c] →
            Some (@Reject AxiosResponse e, w0) = Some (r, w') →
            ∃ added, sent w' = sent w ++ added ∧
              Forall (λ c, from_store env broadcaster_id c ∧
                           TwitchApiBase.url c = TwitchApiBase.url config) added).
  { intros e w0 Hs [= <- <-]. exists [c]. split; [exact Hs|]. by constructor. }
  assert (Hrejected : ∀ st,
            clientResponseRejected env broadcaster_id
              (clientApi env broadcaster_id fuel) (AxiosError c st) (record_sent c w)
              = Some (r, w') →
            ∃ added, sent w' = sent w ++ added ∧
              Forall (λ c, from_store env broadcaster_id c ∧
                           TwitchApiBase.url c = TwitchApiBase.url config) added).
  { intros st. unfold clientResponseRejected.
    destruct (bool_decide (st = Some 401) && (default 0 (__retryCount c) <? MAX_RETRIES)).
    2:{ apply Hgive. reflexivity. }
    unfold refreshUserToken. api_unfold. rewrite Hb. api_unfold.
    destruct (user_token_endpoint env _ _) as [newToken|e].
    2:{ apply Hgive. reflexivity. }
    cbv beta iota. destruct (no_token newToken).
    { apply Hgive. reflexivity. }
    intros Hrec. apply IH in Hrec as (added & Hs & Hall).
    exists (c :: added). split.
    - rewrite Hs. simpl. by rewrite <- app_assoc.
    - constructor; [exact Hfirst|]. exact Hall. }
  destruct (adapter env w c) as [s|].
  - destruct ((200 <=? s) && (s <? 300)).
    + intros [= <- <-]. exists [c]. split; [reflexivity|]. by constructor.
    + apply Hrejected.
  - apply Hrejected.
Qed.

End ApiClientEdges.

Lemma client_other_failure_propagates_witness :
  ∃ c w',
    TwitchApiBase.client_call Cases.always_500 (Some "42") "/clips"
      TwitchApiBase.initial
      = Some (TwitchApiBase.Reject (TwitchApiBase.AxiosError c (Some 500%nat)), w') ∧
    TwitchApiBase.sent w' = [c] ∧
    TwitchApiBase.userRefreshes w' = [].
Proof.
  do 2 eexists. split; [|split].
  - apply (client_other_failure_propagates Cases.always_500 (Some "42") "/clips"
             TwitchApiBase.initial "stored-token" (Some 500%nat)).
    + reflexivity.
    + reflexivity.
    + reflexivity.
    + intros E. discriminate E.
    + intros st E. injection E as <-. reflexivity.
  - reflexivity.
  - reflexivity.
Defined.

Lemma client_refresh_failure_ends_call_witness :
  ∃ w',
    TwitchApiBase.client_call Cases.refusing_refresh (Some "42") "/clips"
      TwitchApiBase.initial
      = Some (TwitchApiBase.Reject
                (TwitchApiBase.PlainError (Error "No refresh token found for channel")),
              w') ∧
    length (TwitchApiBase.sent w') = 1%nat ∧
    TwitchApiBase.userRefreshes w' = ["42"].
Proof.
  destruct (client_refresh_failure_ends_call Cases.refusing_refresh (Some "42")
              "/clips" TwitchApiBase.initial "stored-token" eq_refl eq_refl eq_refl)
    as [Hrefused _].
  destruct (Hrefused _ eq_refl) as (w' & Hcall & Hsent & Hrefreshes).
  exists w'. split; [exact Hcall|]. split.
  - rewrite Hsent. reflexivity.
  - exact Hrefreshes.
Defined.

Lemma client_without_tenant_sends_nothing_witness :
  TwitchApiBase.client_call Scenario.always_401 None "/clips" TwitchApiBase.initial
  = Some (TwitchApiBase.Reject
            (TwitchApiBase.PlainError
               (Error "Broadcaster ID is required in Twitch client interceptor")),
          TwitchApiBase.initial).
Proof.
  apply (client_without_tenant_sends_nothing Scenario.always_401 None).
  reflexivity.
Defined.

Lemma client_requests_carry_store_token_witness :
  ∃ r w' added,
    TwitchApiBase.client_call Scenario.once_401 (Some "42") "/clips"
      TwitchApiBase.initial = Some (r, w') ∧
    TwitchApiBase.sent w' = added ∧
    Forall (λ c, TwitchApiBase.headers c !! "Authorization"
                 = Some "Bearer stored-token") added.
Proof.
  eassert (Hcall : TwitchApiBase.client_call Scenario.once_401 (Some "42") "/clips"
                     TwitchApiBase.initial = Some (_, _))
    by (vm_compute; reflexivity).
  destruct (client_requests_carry_store_token Scenario.once_401 (Some "42")
              "/clips" _ _ _ Hcall) as (added & Hsent & Hall).
  do 2 eexists. exists added. split; [exact Hcall|]. split; [exact Hsent|].
  eapply Forall_impl; [exact Hall|].
  intros c [(w & t & Ht & Hauth & _) _]. injection Ht as <-. exact Hauth.
Defined.

Section AppTokenEdges.
Import TwitchApiBase.

Variable env : Env.

(** X15.  While the stored app token has not expired (the instant of expiry
    included) the request interceptor does nothing but stamp the request:
    no refresh is attempted and the request goes out with the stored
    token. *)
Theorem app_request_unexpired (config : Config) (w : World) (tok : AppToken) :
  getTwitchAppToken env w = Ret tok →
  (Date_now env w ≤ updated_at tok + expires_in tok * 1000)%Z →
  request_phase env (appRequestInterceptor env) config w =
    dispatchRequest env (stamped env (access_token tok) config) w.
Proof.
  intros Htok Hfresh. apply Z.ltb_ge in Hfresh.
  unfold appRequestInterceptor, checkTokenExpiry. api_steps.
  rewrite Htok. cbv beta iota. rewrite Hfresh. api_steps.
  fold (stamped env (access_token tok) config).
  by destruct (dispatchRequest env _ w) as [[[a|e] w']|].
Qed.

(** X16.  When the stored app token is expired or unreadable and no new one
    can be had, the call fails before any request is sent: a store that
    throws fails the call with what it threw and without a refresh; a
    refresh that comes back empty, or fails with a plain error, fails the
    call after that one refresh. *)
Theorem app_call_fails_before_sending (url : string) (w : World) :
  (∀ e, getTwitchAppToken env w = Throw e →
        app_call env url w = Some (Reject (PlainError e), w)) ∧
  (∀ tok,
     getTwitchAppToken env w = Ret tok →
     (updated_at tok + expires_in tok * 1000 < Date_now env w)%Z →
     (∀ newToken,
        app_token_endpoint env w = Resolved newToken →
        no_token newToken = true →
        app_call env url w =
          Some (Reject (PlainError (Error "Failed to refresh app token")),
                record_app_refresh w)) ∧
     (∀ e,
        app_token_endpoint env w = Reject (PlainError e) →
        app_call env url w =
          Some (Reject (PlainError e),
                record_console "Token refresh failed:" (record_app_refresh w)))).
Proof.
  unfold app_call, appApi. simpl axios_request.
  split.
  - intros e He. unfold appRequestInterceptor. api_steps. by rewrite He.
  - intros tok Htok Hexp. apply Z.ltb_lt in Hexp.
    split.
    + intros newToken Hnew Hnone.
      unfold appRequestInterceptor, checkTokenExpiry, refreshAppToken. api_steps.
      rewrite Htok. cbv beta iota. rewrite Hexp. api_steps.
      rewrite Hnew. cbv beta iota. by rewrite Hnone.
    + intros e He.
      unfold appRequestInterceptor, checkTokenExpiry, refreshAppToken. api_steps.
      rewrite Htok. cbv beta iota. rewrite Hexp. api_steps.
      by rewrite He.
Qed.

End AppTokenEdges.

Lemma app_request_unexpired_witness :
  TwitchApiBase.request_phase Cases.at_expiry
    (TwitchApiBase.appRequestInterceptor Cases.at_expiry)
    (TwitchApiBase.fresh_config "/eventsub/conduits") TwitchApiBase.initial
  = TwitchApiBase.dispatchRequest Cases.at_expiry
      (TwitchApiBase.stamped Cases.at_expiry "old-app-token"
         (TwitchApiBase.fresh_config "/eventsub/conduits"))
      TwitchApiBase.initial.
Proof.
  apply (app_request_unexpired Cases.at_expiry
           (TwitchApiBase.fresh_config "/eventsub/conduits") TwitchApiBase.initial
           Scenario.stored_app_token).
  - reflexivity.
  - simpl. lia.
Defined.

Lemma app_call_fails_before_sending_witness :
  TwitchApiBase.app_call Cases.refusing_refresh "/eventsub/conduits"
    TwitchApiBase.initial
  = Some (TwitchApiBase.Reject
            (TwitchApiBase.PlainError (Error "Failed to refresh app token")),
          TwitchApiBase.record_app_refresh TwitchApiBase.initial).
Proof.
  destruct (app_call_fails_before_sending Cases.refusing_refresh
              "/eventsub/conduits" TwitchApiBase.initial) as [_ Hexpired].
  destruct (Hexpired Scenario.stored_app_token) as [Hempty _].
  - reflexivity.
  - simpl. lia.
  - apply (Hempty None); reflexivity.
Defined.

(* ===================================================================== *)
(** * Further properties: the receiver's life cycle *)
(* ===================================================================== *)

Section ReceiverLifeCycle.
Import EventSub Inbound.

Variable url_ok : string → bool.

Lemma cleanup_host (r : Receiver) :
  next_timer (cleanup r) = next_timer r ∧
  keepaliveTimer (cleanup r) = None ∧
  sessionId (cleanup r) = sessionId r ∧
  keepaliveInterval (cleanup r) = keepaliveInterval r ∧
  lastKeepaliveTime (cleanup r) = lastKeepaliveTime r ∧
  missedKeepalives (cleanup r) = missedKeepalives r.
Proof. receiver_cases r; repeat split; reflexivity. Qed.

(** X17.  [disconnect] stops the receiver for good: it is left
    [disconnected] without a socket, the keepalive check it had scheduled
    is cancelled (no pending timer carries that handle any more, every
    other timer stays), and a reconnect timer that is still pending gives
    up when it fires, without opening a socket. *)
Theorem disconnect_is_final (r : Receiver) (random : Q) :
  let r' := disconnect r in
  ws r' = None ∧
  connectionState r' = disconnected ∧
  keepaliveTimer r' = None ∧
  timers r' = match keepaliveTimer r with
              | Some id => filter (λ t, timer_id t ≠ id) (timers r)
              | None => timers r
              end ∧
  (∀ t, t ∈ timers r' → Some (timer_id t) ≠ keepaliveTimer r) ∧
  reconnect url_ok r' random =
    (set_connectionState disconnected
       (print "Max reconnection attempts reached. Giving up." r'), None).
Proof.
  intros r'.
  assert (Htimers : timers r' = match keepaliveTimer r with
                                | Some id => filter (λ t, timer_id t ≠ id) (timers r)
                                | None => timers r
                                end)
    by (subst r'; receiver_cases r; reflexivity).
  subst r'. unfold disconnect in *.
  match goal with |- context [cleanup ?x] => set (r0 := x) in * end.
  destruct (cleanup_frame r0) as (Ho & _ & Ha & Hs & Hw).
  destruct (cleanup_host r0) as (_ & Hk & _).
  split; [exact Hw|]. split; [by rewrite Hs|]. split; [exact Hk|].
  split; [exact Htimers|]. split.
  - intros t Hin. rewrite Htimers in Hin.
    destruct (keepaliveTimer r) as [id|]; [|done].
    apply list_elem_of_filter in Hin as [Hne _]. congruence.
  - unfold reconnect. rewrite Hs, Ho, Ha. simpl. by rewrite Nat.leb_refl.
Qed.

(** One failed attempt while attempts are left: the close schedules a
    reconnect, which raises the counter and opens a socket on the
    configured URL. *)
Lemma failed_attempt_counts (r : Receiver) (closeCode : Z) (random : Q) :
  live r →
  known (reconnectUrl r) = false →
  url_ok (wsUrl (options r)) = true →
  closeCode ≠ 4001%Z → closeCode ≠ 1000%Z →
  (reconnectAttempts r < maxReconnectAttempts (options r))%nat →
  let r1 := close_event r closeCode random in
  let r' := failed_attempt url_ok r (closeCode, random) in
  reconnect_scheduled r1 = true ∧
  live r' ∧
  known (reconnectUrl r') = false ∧
  options r' = options r ∧
  reconnectAttempts r' = S (reconnectAttempts r) ∧
  connectionState r' = connecting.
Proof.
  intros (s & Hws & Hh) Hk Hok H1 H2 Hlt r1 r'.
  subst r1 r'. unfold failed_attempt, close_event. simpl. rewrite Hws, Hh.
  apply Z.eqb_neq in H1, H2. apply Nat.leb_gt in Hlt.
  destruct r as [opts w sid url kt ki lk mk st n ts nt cl out].
  simpl in *. subst w.
  unfold handleClose. rewrite H1, H2.
  destruct s as [u rs h]. simpl in Hh. subst h.
  assert (Hsched : ∀ x, reconnect_scheduled (scheduleReconnect x random) = true).
  { intros x. unfold reconnect_scheduled, scheduleReconnect. simpl.
    rewrite existsb_app. simpl. by rewrite orb_true_r. }
  destruct (closeCode =? 4003)%Z; [|destruct (closeCode =? 4007)%Z].
  - split; [apply Hsched|].
    destruct kt; unfold reconnect, connect, live; simpl; rewrite Hlt; simpl;
      rewrite Hok; simpl; repeat split; eauto.
  - split; [apply Hsched|].
    destruct kt; unfold reconnect, connect, live; simpl; rewrite Hlt; simpl;
      rewrite Hok; simpl; repeat split; eauto.
  - destruct kt; simpl; rewrite Hk; (split; [apply Hsched|]);
      unfold reconnect, connect, live; simpl; rewrite Hlt; simpl; rewrite Hk; simpl;
      rewrite Hok; simpl; repeat split; eauto.
Qed.

(** Once the counter has reached the maximum, the next reconnect gives
    up. *)
Lemma failed_attempt_gives_up (r : Receiver) (a : Z * Q) :
  (maxReconnectAttempts (options r) ≤ reconnectAttempts r)%nat →
  live r ∨ (ws r = None ∧ connectionState r = disconnected) →
  let r' := failed_attempt url_ok r a in
  ws r' = None ∧
  connectionState r' = disconnected ∧
  options r' = options r ∧
  reconnectAttempts r' = reconnectAttempts r.
Proof.
  intros Hge Hr r'. subst r'. unfold failed_attempt, close_event.
  apply Nat.leb_le in Hge.
  destruct Hr as [(s & Hws & Hh)|[Hws Hst]]; rewrite Hws.
  - rewrite Hh.
    match goal with |- context [handleClose ?x ?c ?q] => set (r0 := x) end.
    pose proof (handleClose_disconnected r0 a.1 a.2) as Hd.
    destruct (handleClose_frame r0 a.1 a.2) as [Ho Ha].
    assert (Hw : ws (handleClose r0 a.1 a.2) = None).
    { unfold handleClose.
      repeat (match goal with |- context [if ?b then _ else _] => destruct b end);
        subst r0; receiver_cases r; reflexivity. }
    unfold reconnect. rewrite Hd, Ho, Ha. subst r0. simpl. rewrite Hge. simpl.
    done.
  - unfold reconnect. rewrite Hst, Hge. simpl. done.
Qed.

(** A receiver that has given up stays down whatever follows. *)
Lemma given_up_stays_down (attempts : list (Z * Q)) :
  ∀ r : Receiver,
    ws r = None → connectionState r = disconnected →
    (maxReconnectAttempts (options r) ≤ reconnectAttempts r)%nat →
    let r' := failed_attempts url_ok attempts r in
    ws r' = None ∧ connectionState r' = disconnected ∧
    options r' = options r ∧ reconnectAttempts r' = reconnectAttempts r.
Proof.
  induction attempts as [|a rest IH]; intros r Hws Hst Hge; [done|].
  simpl.
  destruct (failed_attempt_gives_up r a Hge (or_intror (conj Hws Hst)))
    as (Hw1 & Hs1 & Ho1 & Ha1).
  destruct (IH (failed_attempt url_ok r a) Hw1 Hs1) as (Hw & Hs & Ho & Ha).
  { rewrite Ho1, Ha1. exact Hge. }
  unfold failed_attempts in *. cbv zeta in *.
  rewrite Hw, Hs, Ho, Ha, Ho1, Ha1. done.
Qed.

(** X18.  Retries on the configured URL are counted and bounded: each
    close that is followed by the scheduled reconnect raises the attempt
    counter by one while attempts are left, and once
    [maxReconnectAttempts] have been made without the connection ever
    opening, the receiver is [disconnected] without a socket and stays
    so. *)
Theorem retries_stop_at_max (attempts : list (Z * Q)) (r : Receiver) :
  live r →
  known (reconnectUrl r) = false →
  url_ok (wsUrl (options r)) = true →
  Forall (λ a, a.1 ≠ 4001%Z ∧ a.1 ≠ 1000%Z) attempts →
  (reconnectAttempts r ≤ maxReconnectAttempts (options r))%nat →
  let r' := failed_attempts url_ok attempts r in
  ((reconnectAttempts r + length attempts ≤ maxReconnectAttempts (options r))%nat →
   reconnectAttempts r' = (reconnectAttempts r + length attempts)%nat ∧ live r') ∧
  ((maxReconnectAttempts (options r) < reconnectAttempts r + length attempts)%nat →
   connectionState r' = disconnected ∧ ws r' = None ∧
   reconnectAttempts r' = maxReconnectAttempts (options r)).
Proof.
  intros Hlive Hk Hok Hcodes. revert r Hlive Hk Hok.
  induction Hcodes as [|[code q] rest [H1 H2] _ IH]; intros r Hlive Hk Hok Hle r'.
  - subst r'. simpl. split; [intros _; split; [lia|exact Hlive]|lia].
  - subst r'. simpl in H1, H2. simpl.
    destruct (decide (reconnectAttempts r < maxReconnectAttempts (options r))%nat)
      as [Hlt|Hge].
    + destruct (failed_attempt_counts r code q Hlive Hk Hok H1 H2 Hlt)
        as (_ & Hlive1 & Hk1 & Ho1 & Ha1 & _).
      specialize (IH (failed_attempt url_ok r (code, q)) Hlive1 Hk1).
      rewrite Ho1, Ha1 in IH. cbv zeta in IH.
      destruct IH as [IHa IHb]; [exact Hok|lia|].
      unfold failed_attempts in *. split.
      * intros Hroom. destruct IHa as [-> Hl]; [lia|]. split; [lia|exact Hl].
      * intros Hover. apply IHb. lia.
    + assert (Hmax : reconnectAttempts r = maxReconnectAttempts (options r)) by lia.
      destruct (failed_attempt_gives_up r (code, q)) as (Hw1 & Hs1 & Ho1 & Ha1);
        [lia|by left|].
      destruct (given_up_stays_down rest (failed_attempt url_ok r (code, q)) Hw1 Hs1)
        as (Hw & Hs & Ho & Ha).
      { rewrite Ho1, Ha1. lia. }
      unfold failed_attempts in *. cbv zeta in *. split; [lia|].
      intros _. rewrite Hs, Hw, Ha, Ha1. done.
Qed.

(** X19.  A stored reconnect URL that the socket constructor rejects
    stalls the receiver: the failed attempt leaves the state at
    [reconnecting] and schedules a retry, but every later [reconnect]
    finds that state and returns without opening a socket or scheduling
    anything. *)
Theorem rejected_reconnect_url_stalls (r : Receiver) (random : Q) (later : list Q) :
  connectionState r = disconnected ∨ connectionState r = connected →
  (reconnectAttempts r < maxReconnectAttempts (options r))%nat →
  known (reconnectUrl r) = true →
  url_ok (default "" (reconnectUrl r)) = false →
  let r1 := (reconnect url_ok r random).1 in
  let rN := fold_left (λ r q, (reconnect url_ok r q).1) later r1 in
  reconnect_scheduled r1 = true ∧
  connectionState rN = reconnecting ∧
  ws rN = None ∧
  timers rN = timers r1 ∧
  closed rN = closed r1.
Proof.
  intros Hst Hlt Hk Hbad r1 rN.
  assert (H1 : reconnect_scheduled r1 = true ∧ connectionState r1 = reconnecting ∧
               ws r1 = None).
  { subst r1. apply Nat.leb_gt in Hlt. unfold reconnect.
    destruct Hst as [-> | ->]; rewrite Hlt; simpl; rewrite Hk.
    all: repeat match goal with
           | |- context [cleanup ?x] =>
               let H1 := fresh in let H2 := fresh in
               destruct (cleanup_frame x) as (H1 & H2 & _);
               rewrite ?H1, ?H2; clear H1 H2; simpl
           end.
    all: rewrite Hbad; simpl.
    all: match goal with
         | |- context [cleanup ?x] =>
             destruct (cleanup_frame x) as (_ & _ & _ & Hs & Hw)
         end.
    all: unfold reconnect_scheduled, scheduleReconnect; simpl.
    all: rewrite existsb_app; simpl; rewrite orb_true_r.
    all: repeat split; [exact Hs | exact Hw]. }
  destruct H1 as (Hsched & Hs1 & Hw1). split; [exact Hsched|].
  subst rN. clearbody r1. clear Hsched r Hst Hlt Hk Hbad.
  revert r1 Hs1 Hw1.
  induction later as [|q rest IH]; intros r1 Hs1 Hw1; [done|].
  simpl.
  assert (Hstep : (reconnect url_ok r1 q).1
                  = print "Already attempting to connect, skipping duplicate reconnect" r1).
  { unfold reconnect. by rewrite Hs1. }
  rewrite Hstep. destruct (IH (print "Already attempting to connect, skipping duplicate reconnect" r1))
    as (Hs & Hw & Ht & Hc); [exact Hs1|exact Hw1|].
  rewrite Hs, Hw, Ht, Hc. done.
Qed.

Lemma Math_pow2_mono (n m : nat) :
  (n ≤ m)%nat → (Math_pow2 n <= Math_pow2 m)%Q.
Proof.
  intros Hle. unfold Math_pow2. rewrite <- Zle_Qle.
  apply Z.pow_le_mono_r; lia.
Qed.

(** X20.  For a positive base delay the backoff never shrinks as attempts
    accumulate: with the same options and jitter, a receiver with more
    attempts behind it waits at least as long; and once the exponential
    term has reached the cap, further attempts no longer change the
    delay. *)
Theorem backoff_is_monotone (r r' : Receiver) (random : Q) :
  options r' = options r →
  (0 < baseReconnectDelay (options r))%Q →
  (reconnectAttempts r ≤ reconnectAttempts r')%nat →
  (getReconnectDelay r random <= getReconnectDelay r' random)%Q ∧
  ((maxReconnectDelay (options r)
    <= baseReconnectDelay (options r) * Math_pow2 (reconnectAttempts r))%Q →
   (getReconnectDelay r' random == getReconnectDelay r random)%Q).
Proof.
  intros Ho Hbase Hle. unfold getReconnectDelay. rewrite Ho.
  pose proof (Math_pow2_mono _ _ Hle) as Hpow.
  set (b := baseReconnectDelay (options r)) in *.
  set (cap := maxReconnectDelay (options r)) in *.
  assert (Hmul : (b * Math_pow2 (reconnectAttempts r)
                  <= b * Math_pow2 (reconnectAttempts r'))%Q).
  { rewrite !(Qmult_comm b). apply Qmult_le_compat_r; [exact Hpow|].
    by apply Qlt_le_weak. }
  set (x := (b * Math_pow2 (reconnectAttempts r))%Q) in *.
  set (y := (b * Math_pow2 (reconnectAttempts r'))%Q) in *.
  clearbody x y cap b.
  destruct (Q.min_spec x cap) as [[? Hx]|[? Hx]];
    destruct (Q.min_spec y cap) as [[? Hy]|[? Hy]]; rewrite Hx, Hy;
    (split; [lra|intros ?; lra]).
Qed.

(** A late check counts one miss and leaves everything it compares
    untouched. *)
Lemma checkKeepalive_frame (r : Receiver) (now : Z) :
  options (checkKeepalive r now) = options r ∧
  ws (checkKeepalive r now) = ws r ∧
  lastKeepaliveTime (checkKeepalive r now) = lastKeepaliveTime r ∧
  keepaliveInterval (checkKeepalive r now) = keepaliveInterval r.
Proof.
  unfold checkKeepalive. cbv zeta.
  destruct (_ <? _)%Z; simpl;
    [destruct (_ <=? _)%nat; [destruct (ws r) eqn:E|]|];
    simpl; rewrite ?E; repeat split; reflexivity.
Qed.

(** One check that runs after the deadline. *)
Lemma keepalive_step (r : Receiver) (now : Z) (s : WebSocket) :
  ws r = Some s →
  (keepaliveInterval r * 1000 + 2000 < now - lastKeepaliveTime r)%Z →
  ((S (missedKeepalives r) < maxMissedKeepalives (options r))%nat →
   missedKeepalives (checkKeepalive r now) = S (missedKeepalives r) ∧
   closed (checkKeepalive r now) = closed r ∧
   length (timers (checkKeepalive r now)) = S (length (timers r))) ∧
  ((maxMissedKeepalives (options r) ≤ S (missedKeepalives r))%nat →
   missedKeepalives (checkKeepalive r now) = S (missedKeepalives r) ∧
   closed (checkKeepalive r now) = closed r ++ [ws_url s] ∧
   length (timers (checkKeepalive r now)) = length (timers r)).
Proof.
  intros Hws Hlate. apply Z.ltb_lt in Hlate.
  unfold checkKeepalive. cbv zeta. rewrite Hlate.
  cbn [options missedKeepalives ws set_missedKeepalives]. split.
  - intros Hbelow. apply Nat.leb_gt in Hbelow. rewrite Hbelow. simpl.
    rewrite length_app. simpl. repeat split; lia.
  - intros Hreach. apply Nat.leb_le in Hreach. rewrite Hreach.
    cbn [ws set_missedKeepalives]. rewrite Hws. done.
Qed.

(** X21.  Without keepalive messages the monitor counts every check that
    runs after the deadline, and the check that brings the count to
    [maxMissedKeepalives] closes the socket and schedules no further
    check; until then the socket is left alone. *)
Theorem silent_connection_is_closed (times : list Z) (r : Receiver) (s : WebSocket) :
  ws r = Some s →
  Forall (λ t, keepaliveInterval r * 1000 + 2000 < t - lastKeepaliveTime r)%Z times →
  let r' := checks times r in
  ((missedKeepalives r + length times < maxMissedKeepalives (options r))%nat →
   missedKeepalives r' = (missedKeepalives r + length times)%nat ∧
   closed r' = closed r) ∧
  (times ≠ [] →
   (missedKeepalives r + length times = maxMissedKeepalives (options r))%nat →
   missedKeepalives r' = maxMissedKeepalives (options r) ∧
   closed r' = closed r ++ [ws_url s] ∧
   length (timers r') = (length (timers r) + length times - 1)%nat).
Proof.
  intros Hws Hlate. revert r Hws Hlate.
  induction times as [|t rest IH]; intros r Hws Hlate r'.
  - subst r'. simpl. split; [intros _; split; [lia|done]|done].
  - subst r'. apply Forall_cons in Hlate as [Ht Hrest]. simpl.
    destruct (keepalive_step r t s Hws Ht) as (Hbelow & Hreach).
    destruct (checkKeepalive_frame r t) as (Ho & Hw & Hl & Hi).
    specialize (IH (checkKeepalive r t)).
    rewrite Ho, Hw, Hl, Hi in IH. specialize (IH Hws Hrest). cbv zeta in IH.
    destruct IH as [IHa IHb]. unfold checks in *.
    split.
    + intros Hroom. destruct Hbelow as (Hm & Hc & _); [lia|].
      rewrite Hm, Hc in IHa. destruct IHa as [-> ->]; [lia|]. split; [lia|done].
    + intros _ Hsum. destruct rest as [|t' rest'].
      * simpl in *. destruct Hreach as (Hm & Hc & Ht'); [lia|].
        rewrite Hm, Hc, Ht'. split; [lia|]. split; [done|lia].
      * destruct Hbelow as (Hm & Hc & Ht'); [simpl in Hsum; lia|].
        rewrite Hm, Hc, Ht' in IHb.
        destruct IHb as (-> & -> & ->); [done|simpl in *; lia|].
        split; [done|]. split; [done|]. simpl. lia.
Qed.

End ReceiverLifeCycle.

Lemma disconnect_is_final_witness :
  EventSub.timers (EventSub.disconnect Scenario.live_receiver) = [] ∧
  EventSub.connectionState
    (EventSub.reconnect Scenario.any_url
       (EventSub.disconnect Scenario.live_receiver) 0).1 = EventSub.disconnected.
Proof.
  destruct (disconnect_is_final Scenario.any_url Scenario.live_receiver 0)
    as (_ & _ & _ & Htimers & _ & Hgives_up).
  split; [exact Htimers|]. rewrite Hgives_up. reflexivity.
Defined.

Lemma retries_stop_at_max_witness :
  let r' := Inbound.failed_attempts Scenario.any_url
              [(1006%Z, 0%Q); (1006%Z, (1 # 2)%Q); (4000%Z, 0%Q)]
              Cases.quiet_receiver in
  EventSub.connectionState r' = EventSub.disconnected ∧
  EventSub.ws r' = None ∧
  EventSub.reconnectAttempts r' = 2%nat.
Proof.
  intros r'.
  destruct (retries_stop_at_max Scenario.any_url
              [(1006%Z, 0%Q); (1006%Z, (1 # 2)%Q); (4000%Z, 0%Q)]
              Cases.quiet_receiver) as [_ Hover].
  - eexists. split; reflexivity.
  - reflexivity.
  - reflexivity.
  - repeat constructor; simpl; lia.
  - simpl. lia.
  - apply Hover. simpl. lia.
Defined.

Lemma rejected_reconnect_url_stalls_witness :
  let r1 := (EventSub.reconnect Cases.production_only
               (Scenario.retrying_receiver (Some Scenario.resume_url)) 0).1 in
  let rN := fold_left (λ r q, (EventSub.reconnect Cases.production_only r q).1)
              [0%Q; (1 # 2)%Q] r1 in
  EventSub.reconnect_scheduled r1 = true ∧
  EventSub.connectionState rN = EventSub.reconnecting ∧
  EventSub.ws rN = None ∧
  EventSub.timers rN = EventSub.timers r1 ∧
  EventSub.closed rN = EventSub.closed r1.
Proof.
  apply (rejected_reconnect_url_stalls Cases.production_only
           (Scenario.retrying_receiver (Some Scenario.resume_url)) 0%Q
           [0%Q; (1 # 2)%Q]).
  - left. reflexivity.
  - simpl. lia.
  - reflexivity.
  - reflexivity.
Defined.

Lemma backoff_is_monotone_witness :
  (EventSub.getReconnectDelay (Scenario.retrying_receiver None) (1 # 2)
   <= EventSub.getReconnectDelay
        (EventSub.set_reconnectAttempts 5 (Scenario.retrying_receiver None)) (1 # 2))%Q.
Proof.
  destruct (backoff_is_monotone (Scenario.retrying_receiver None)
              (EventSub.set_reconnectAttempts 5 (Scenario.retrying_receiver None))
              (1 # 2)) as [Hmono _].
  - reflexivity.
  - unfold Qlt. simpl. lia.
  - simpl. lia.
  - exact Hmono.
Defined.

Lemma silent_connection_is_closed_witness :
  let r' := Inbound.checks [13000%Z; 23000%Z] Cases.quiet_receiver in
  EventSub.missedKeepalives r' = 2%nat ∧
  EventSub.closed r' = ["wss://eventsub.wss.twitch.tv/ws"] ∧
  length (EventSub.timers r') = 1%nat.
Proof.
  intros r'.
  destruct (silent_connection_is_closed [13000%Z; 23000%Z] Cases.quiet_receiver
              {| EventSub.ws_url := "wss://eventsub.wss.twitch.tv/ws";
                 EventSub.readyState := EventSub.OPEN;
                 EventSub.hooked := true |}) as [_ Hclosed].
  - reflexivity.
  - repeat constructor; simpl; lia.
  - apply Hclosed; [intros E; discriminate E | reflexivity].
Defined.

(* ===================================================================== *)
(** * Further properties: the receiver's inbound messages *)
(* ===================================================================== *)

Section MessageProperties.
Import EventSub Inbound.

Variable url_ok : string → bool.
Variable conduitId : string.
Variable updateShardTransport : string → string → string → M unit.
Variable processTwitchEvent : string → WebSocketMessage → M unit.
Variable JSON_parse : string → Outcome WebSocketMessage.

#[local] Abbreviation handle :=
  (handleMessage conduitId updateShardTransport processTwitchEvent).
#[local] Abbreviation on_message :=
  (onmessage conduitId updateShardTransport processTwitchEvent JSON_parse).

(** X22.  A keepalive message clears the miss counter and restarts the
    clock the monitor reads, without touching the pending timers; a check
    that then runs within [keepaliveInterval * 1000 + 2000] ms of the
    message counts no miss and closes nothing, and a later one counts
    exactly one. *)
Theorem keepalive_resets_monitor (r : Receiver) (now now' : Z) (m : WebSocketMessage) :
  message_type (metadata m) = "session_keepalive" →
  let r1 := (handle r now m).1 in
  missedKeepalives r1 = 0%nat ∧
  lastKeepaliveTime r1 = now ∧
  timers r1 = timers r ∧
  keepaliveTimer r1 = keepaliveTimer r ∧
  ((now' - now ≤ keepaliveInterval r1 * 1000 + 2000)%Z →
   missedKeepalives (checkKeepalive r1 now') = 0%nat ∧
   closed (checkKeepalive r1 now') = closed r) ∧
  ((keepaliveInterval r1 * 1000 + 2000 < now' - now)%Z →
   missedKeepalives (checkKeepalive r1 now') = 1%nat).
Proof.
  intros Hty r1. subst r1. unfold handleMessage. rewrite Hty. simpl.
  set (r1 := if nonzero _ then _ else _).
  assert (H1 : missedKeepalives r1 = 0%nat ∧ lastKeepaliveTime r1 = now ∧
               timers r1 = timers r ∧ keepaliveTimer r1 = keepaliveTimer r ∧
               closed r1 = closed r).
  { subst r1. destruct (nonzero _); repeat split; reflexivity. }
  destruct H1 as (Hm & Hl & Ht & Hk & Hc).
  split; [exact Hm|]. split; [exact Hl|]. split; [exact Ht|]. split; [exact Hk|].
  unfold checkKeepalive. cbv zeta. rewrite Hl. split.
  - intros Hin. apply Z.ltb_ge in Hin. rewrite Hin. simpl. by rewrite Hm, Hc.
  - intros Hlate. apply Z.ltb_lt in Hlate. rewrite Hlate.
    cbn [options missedKeepalives ws set_missedKeepalives]. rewrite Hm.
    destruct (_ <=? _)%nat; [destruct (ws r1)|]; reflexivity.
Qed.

Lemma startKeepaliveTimer_frame (r : Receiver) (t : Z) :
  let r' := startKeepaliveTimer r t in
  options r' = options r ∧ ws r' = ws r ∧ sessionId r' = sessionId r ∧
  reconnectUrl r' = reconnectUrl r ∧ lastKeepaliveTime r' = lastKeepaliveTime r ∧
  missedKeepalives r' = missedKeepalives r ∧
  connectionState r' = connectionState r ∧
  reconnectAttempts r' = reconnectAttempts r ∧
  keepaliveInterval r' = t ∧
  keepaliveTimer r' = Some (next_timer r) ∧
  ∃ kept, timers r' = kept ++ [{| timer_id := next_timer r;
                                  callback := CheckKeepalive;
                                  delay := inject_Z ((t + 2) * 1000) |}].
Proof.
  unfold startKeepaliveTimer.
  destruct (keepaliveTimer r); simpl; repeat split; eexists; reflexivity.
Qed.

(** X23.  A welcome message records the session, replaces the stored
    reconnect URL by the one it brings (none, normally), and starts the
    keepalive monitor with its first check [(t + 2) * 1000] ms ahead; it
    leaves the connection state and the attempt counter alone; it returns
    normally even when the conduit update fails; and the first check
    counts a miss exactly when it runs more than [t * 1000 + 2000] ms
    after the welcome without a keepalive in between. *)
Theorem welcome_starts_monitor (r : Receiver) (now now' : Z) (m : WebSocketMessage)
    (sess : Session) (t : Z) :
  message_type (metadata m) = "session_welcome" →
  session (payload m) = Some sess →
  keepalive_timeout_seconds sess = Some t →
  t ≠ 0%Z →
  let r1 := (handle r now m).1 in
  sessionId r1 = or_null (id sess) ∧
  reconnectUrl r1 = or_null (reconnect_url sess) ∧
  keepaliveTimer r1 = Some (next_timer r) ∧
  (∃ kept, timers r1 = kept ++ [{| timer_id := next_timer r;
                                   callback := CheckKeepalive;
                                   delay := inject_Z ((t + 2) * 1000) |}]) ∧
  connectionState r1 = connectionState r ∧
  reconnectAttempts r1 = reconnectAttempts r ∧
  outcome (handle r now m).2 = Ret tt ∧
  missedKeepalives (checkKeepalive r1 now')
    = (missedKeepalives r + if (t * 1000 + 2000 <? now' - now)%Z then 1 else 0)%nat.
Proof.
  intros Hty Hs Ht Hnz r1. apply Z.eqb_neq in Hnz.
  set (r0 := set_lastKeepaliveTime now
               (set_reconnectUrl (or_null (reconnect_url sess))
                  (set_sessionId (or_null (id sess)) r))).
  assert (Hform : r1 = startKeepaliveTimer r0 t).
  { subst r1. unfold handleMessage. rewrite Hty, Hs. simpl. rewrite Ht. simpl.
    by rewrite Hnz. }
  assert (Hret : outcome (handle r now m).2 = Ret tt).
  { unfold handleMessage. rewrite Hty. simpl.
    destruct (negb (conduitId =? "")%string && _); [|reflexivity].
    unfold try_catch, console_log, console_error, emit, mbind, M_bind, bind, outcome.
    destruct (updateShardTransport _ _ _) as [tr [[]|e]]; reflexivity. }
  clearbody r1. subst r1.
  destruct (startKeepaliveTimer_frame r0 t)
    as (Ho & Hw & Hsid & Hu & Hl & Hm & Hst & Ha & Hi & Hk & Htimers).
  cbv zeta in *.
  split; [by rewrite Hsid|]. split; [by rewrite Hu|]. split; [by rewrite Hk|].
  split; [exact Htimers|]. split; [by rewrite Hst|]. split; [by rewrite Ha|].
  split; [exact Hret|].
  unfold checkKeepalive. cbv zeta. rewrite Hl, Hi.
  change (lastKeepaliveTime r0) with now.
  destruct (t * 1000 + 2000 <? now' - now)%Z.
  - cbn [options missedKeepalives ws set_missedKeepalives]. rewrite Hm.
    change (missedKeepalives r0) with (missedKeepalives r).
    destruct (_ <=? _)%nat; [destruct (ws _)|]; simpl; lia.
  - unfold setTimeout. cbn [missedKeepalives set_keepaliveTimer set_host].
    rewrite Hm. simpl. lia.
Qed.

(** X24.  A [session_reconnect] message that brings a URL stores it and
    schedules the socket's close 5000 ms ahead; when that timer has
    closed the socket and the close arrives with a code that keeps the
    URL, the scheduled reconnect opens the next socket on that URL.
    Without a URL in the message nothing is scheduled and a URL stored
    before is erased. *)
Theorem session_reconnect_switches_socket (r : Receiver) (now : Z)
    (m : WebSocketMessage) (s : WebSocket) (closeCode : Z) (random random' : Q) :
  message_type (metadata m) = "session_reconnect" →
  ws r = Some s → hooked s = true →
  (reconnectAttempts r < maxReconnectAttempts (options r))%nat →
  closeCode ≠ 4001%Z → closeCode ≠ 4003%Z → closeCode ≠ 4007%Z →
  (∀ u,
     or_null (session (payload m) ≫= reconnect_url) = Some u →
     url_ok u = true →
     let r1 := (handle r now m).1 in
     let r2 := closeSocket r1 in
     let r3 := close_event r2 closeCode random in
     let r4 := (reconnect url_ok r3 random').1 in
     timers r1 = timers r ++ [{| timer_id := next_timer r; callback := CloseSocket;
                                 delay := 5000 |}] ∧
     closed r2 = closed r ++ [ws_url s] ∧
     reconnect_scheduled r3 = true ∧
     ws r4 = Some {| ws_url := u; readyState := CONNECTING; hooked := true |}) ∧
  (or_null (session (payload m) ≫= reconnect_url) = None →
   (handle r now m).1 = set_reconnectUrl None r).
Proof.
  intros Hty Hws Hh Hlt H1 H3 H7. split.
  - intros u Hu Hok.
    assert (Hk : known (Some u) = true).
    { unfold or_null in Hu. destruct (known _) eqn:E; [|done]. by rewrite Hu in E. }
    assert (Hform : (handle r now m).1
                    = (setTimeout CloseSocket 5000 (set_reconnectUrl (Some u) r)).2).
    { unfold handleMessage. rewrite Hty. simpl. rewrite Hu.
      cbn [reconnectUrl set_reconnectUrl]. by rewrite Hk. }
    rewrite Hform. clear Hform Hu.
    apply Z.eqb_neq in H1, H3, H7. apply Nat.leb_gt in Hlt.
    destruct r as [opts w sid url kt ki lk mk st n ts nt cl out].
    simpl in *. subst w. destruct s as [su rs h]. simpl in Hh. subst h.
    split; [reflexivity|]. split; [reflexivity|].
    unfold close_event, closeSocket. simpl.
    unfold handleClose. rewrite H1, H3, H7.
    destruct (closeCode =? 1000)%Z; destruct kt; simpl; rewrite Hk; simpl.
    all: split;
      [unfold reconnect_scheduled, scheduleReconnect; simpl;
       rewrite existsb_app; simpl; by rewrite orb_true_r|].
    all: unfold reconnect; simpl; rewrite Hlt; simpl; rewrite Hk; simpl;
      rewrite Hok; reflexivity.
  - intros Hnone. unfold handleMessage. rewrite Hty. simpl. by rewrite Hnone.
Qed.

(** X25.  Handling an inbound frame never fails: whatever the frame, the
    parser and the collaborators do, [onmessage] returns; a frame that
    does not parse, and a parsed message of any type other than
    [session_welcome], [session_keepalive] and [session_reconnect],
    leave the receiver exactly as it was, notifications included. *)
Theorem onmessage_never_throws (r : Receiver) (now : Z) (data : string) :
  outcome (on_message r now data).2 = Ret tt ∧
  (∀ e, JSON_parse data = Throw e → (on_message r now data).1 = r) ∧
  (∀ m, JSON_parse data = Ret m → session_message m = false →
        (on_message r now data).1 = r).
Proof.
  unfold onmessage. split; [|split].
  - destruct (JSON_parse data) as [m|e]; [|reflexivity].
    destruct (handleMessage _ _ _ r now m) as [r' [tr [[]|e]]]; reflexivity.
  - intros e ->. reflexivity.
  - intros m -> Hm. unfold session_message in Hm.
    apply orb_false_iff in Hm as [Hm Hr]. apply orb_false_iff in Hm as [Hw Hk].
    unfold handleMessage. rewrite Hw, Hk, Hr.
    repeat (match goal with |- context [if ?b then _ else _] => destruct b end);
      reflexivity.
Qed.

(** X26.  The collaborators are reached selectively.  The application's
    registry is consulted only for a [notification] that names a
    subscription type and carries an event, and then with exactly that
    type and the whole message; the conduit is updated only on a
    [session_welcome] that brings a session id, and only if a conduit id
    is configured. *)
Theorem collaborators_are_reached_selectively (r : Receiver) (now : Z)
    (m : WebSocketMessage) :
  (message_type (metadata m) = "notification" →
   known (subscription_type (metadata m)) = true →
   truthy (event (payload m)) = true →
   handle r now m
     = (r, processTwitchEvent (default "" (subscription_type (metadata m))) m)) ∧
  (message_type (metadata m) ≠ "notification"
   ∨ known (subscription_type (metadata m)) = false
   ∨ truthy (event (payload m)) = false →
   ∀ other, handle r now m = handleMessage conduitId updateShardTransport other r now m) ∧
  (message_type (metadata m) ≠ "session_welcome"
   ∨ conduitId = ""
   ∨ or_null (session (payload m) ≫= id) = None →
   ∀ other, handle r now m = handleMessage conduitId other processTwitchEvent r now m).
Proof.
  split; [|split].
  - intros Hty Hk He. unfold handleMessage. rewrite Hty, Hk, He. reflexivity.
  - intros H other. unfold handleMessage.
    destruct (String.eqb_spec (message_type (metadata m)) "session_welcome");
      [reflexivity|].
    destruct (String.eqb_spec (message_type (metadata m)) "session_keepalive");
      [reflexivity|].
    destruct (String.eqb_spec (message_type (metadata m)) "notification");
      [|reflexivity].
    destruct H as [H|[-> | ->]]; [done|reflexivity|].
    by rewrite andb_false_r.
  - intros H other. unfold handleMessage.
    destruct (String.eqb_spec (message_type (metadata m)) "session_welcome");
      [|reflexivity].
    destruct H as [H|[-> | H]]; [done|reflexivity|].
    set (r1 := if nonzero _ then _ else _).
    assert (Hsid : sessionId r1 = None).
    { subst r1. destruct (nonzero _); simpl; [|exact H].
      unfold startKeepaliveTimer. destruct (keepaliveTimer _); exact H. }
    rewrite Hsid. simpl. by rewrite andb_false_r.
Qed.

End MessageProperties.

Lemma keepalive_resets_monitor_witness :
  let r := EventSub.set_missedKeepalives 1 Cases.quiet_receiver in
  let r1 := (Inbound.handleMessage Cases.conduit Cases.failing_update
               Cases.recording_registry r 20000 Cases.keepalive).1 in
  EventSub.missedKeepalives r1 = 0%nat ∧
  EventSub.lastKeepaliveTime r1 = 20000%Z ∧
  EventSub.missedKeepalives (EventSub.checkKeepalive r1 32000) = 0%nat.
Proof.
  intros r r1.
  destruct (keepalive_resets_monitor Cases.conduit Cases.failing_update
              Cases.recording_registry r 20000 32000 Cases.keepalive eq_refl)
    as (Hmissed & Hlast & _ & _ & Hontime & _).
  split; [exact Hmissed|]. split; [exact Hlast|].
  apply Hontime. simpl. lia.
Defined.

Lemma welcome_starts_monitor_witness :
  let r := Scenario.retrying_receiver (Some Scenario.resume_url) in
  let result := Inbound.handleMessage Cases.conduit Cases.failing_update
                  Cases.recording_registry r 5000 Cases.welcome in
  EventSub.sessionId result.1 = Some "session-2" ∧
  EventSub.reconnectUrl result.1 = None ∧
  outcome result.2 = Ret tt ∧
  EventSub.missedKeepalives (EventSub.checkKeepalive result.1 37000) = 0%nat ∧
  EventSub.missedKeepalives (EventSub.checkKeepalive result.1 37001) = 1%nat.
Proof.
  intros r result.
  destruct (welcome_starts_monitor Cases.conduit Cases.failing_update
              Cases.recording_registry r 5000 37000 Cases.welcome
              {| Inbound.id := Some "session-2"; Inbound.reconnect_url := None;
                 Inbound.keepalive_timeout_seconds := Some 30%Z |} 30)
    as (Hsid & Hurl & _ & _ & _ & _ & Hret & Hcheck);
    [reflexivity | reflexivity | reflexivity | lia |].
  destruct (welcome_starts_monitor Cases.conduit Cases.failing_update
              Cases.recording_registry r 5000 37001 Cases.welcome
              {| Inbound.id := Some "session-2"; Inbound.reconnect_url := None;
                 Inbound.keepalive_timeout_seconds := Some 30%Z |} 30)
    as (_ & _ & _ & _ & _ & _ & _ & Hlate);
    [reflexivity | reflexivity | reflexivity | lia |].
  split; [exact Hsid|]. split; [exact Hurl|]. split; [exact Hret|].
  split; [exact Hcheck | exact Hlate].
Defined.

Lemma session_reconnect_switches_socket_witness :
  let r1 := (Inbound.handleMessage Cases.conduit Cases.failing_update
               Cases.recording_registry Scenario.live_receiver 60000
               Cases.move_on).1 in
  let r3 := EventSub.close_event (Inbound.closeSocket r1) 1000 0 in
  EventSub.closed (Inbound.closeSocket r1) = ["wss://eventsub.wss.twitch.tv/ws"] ∧
  EventSub.ws (EventSub.reconnect Scenario.any_url r3 0).1
    = Some {| EventSub.ws_url := Cases.move_url;
              EventSub.readyState := EventSub.CONNECTING;
              EventSub.hooked := true |}.
Proof.
  intros r1 r3.
  destruct (session_reconnect_switches_socket Scenario.any_url Cases.conduit
              Cases.failing_update Cases.recording_registry
              Scenario.live_receiver 60000 Cases.move_on
              {| EventSub.ws_url := "wss://eventsub.wss.twitch.tv/ws";
                 EventSub.readyState := EventSub.OPEN;
                 EventSub.hooked := true |} 1000 0 0)
    as [Hmove _]; try reflexivity; try lia.
  - simpl. lia.
  - destruct (Hmove Cases.move_url eq_refl eq_refl) as (_ & Hclosed & _ & Hws).
    split; [exact Hclosed | exact Hws].
Defined.

Lemma onmessage_never_throws_witness :
  let result := Inbound.onmessage Cases.conduit Cases.failing_update
                  (λ _ _, throw (Error "boom")) Cases.parse_frame
                  Scenario.live_receiver 60000 "went-live" in
  outcome result.2 = Ret tt ∧ result.1 = Scenario.live_receiver.
Proof.
  intros result.
  destruct (onmessage_never_throws Cases.conduit Cases.failing_update
              (λ _ _, throw (Error "boom")) Cases.parse_frame
              Scenario.live_receiver 60000 "went-live") as (Hret & _ & Hsame).
  split; [exact Hret|].
  apply (Hsame Cases.went_live); reflexivity.
Defined.

Lemma collaborators_are_reached_selectively_witness :
  Inbound.handleMessage Cases.conduit Cases.failing_update Cases.recording_registry
    Scenario.live_receiver 60000 Cases.went_live
  = (Scenario.live_receiver,
     Cases.recording_registry "stream.online" Cases.went_live).
Proof.
  destruct (collaborators_are_reached_selectively Cases.conduit Cases.failing_update
              Cases.recording_registry Scenario.live_receiver 60000 Cases.went_live)
    as (Hcalled & _ & _).
  apply Hcalled; reflexivity.
Defined.

(* ===================================================================== *)
(** * Further properties: brute-force protection in front of the routes *)
(* ===================================================================== *)

Section BruteForceProperties.
Import BruteForce.

Variable config : BruteForceOptions.
Variable ip : string.

Lemma enter_absent (now : Z) (st : Store) :
  bruteForceStore st !! ip = None →
  enter ip now st = (st, Proceed None).
Proof. intros H. unfold enter. rewrite H. reflexivity. Qed.

Lemma enter_expired (now : Z) (st : Store) (ref : nat) (o : BruteForceRecord) :
  bruteForceStore st !! ip = Some ref → objects st !! ref = Some o →
  (resetAt o < now)%Z →
  enter ip now st = (store_delete ip st, Proceed None).
Proof.
  intros Hs Ho Hexp. apply Z.ltb_lt in Hexp.
  unfold enter. rewrite Hs. simpl. rewrite Ho, Hexp. reflexivity.
Qed.

Lemma enter_open (now : Z) (st : Store) (ref : nat) (o : BruteForceRecord) :
  bruteForceStore st !! ip = Some ref → objects st !! ref = Some o →
  (now ≤ resetAt o)%Z →
  match blockedUntil o with
  | Some until => until = 0%Z ∨ (until ≤ now)%Z
  | None => True
  end →
  enter ip now st = (st, Proceed (Some ref)).
Proof.
  intros Hs Ho Hin Hfree. apply Z.ltb_ge in Hin.
  unfold enter. rewrite Hs. simpl. rewrite Ho, Hin. simpl. rewrite Ho. simpl.
  destruct (blockedUntil o) as [until|]; [|reflexivity].
  destruct Hfree as [-> | Hpast]; [reflexivity|].
  apply Z.ltb_ge in Hpast. rewrite Hpast. by rewrite andb_false_r.
Qed.


(** A failure counted on a record that is already there. *)
Lemma leave_counts (now : Z) (st : Store) (ref : nat) (o : BruteForceRecord) :
  objects st !! ref = Some o →
  let st' := (leave config ip now (Some ref) 401 st).1 in
  bruteForceStore st' = <[ip := ref]> (bruteForceStore st) ∧
  objects st' = <[ref := counted config now o]> (objects st) ∧
  next_object st' = next_object st.
Proof.
  intros Ho. unfold leave, counted. simpl. unfold update_record at 2. simpl.
  rewrite Ho. simpl. rewrite lookup_insert_eq. simpl.
  destruct (maxAttempts config <=? S (count o))%nat; simpl.
  - unfold update_record. simpl. rewrite Ho. simpl. rewrite lookup_insert_eq.
    by rewrite insert_insert_eq.
  - unfold update_record. simpl. by rewrite Ho.
Qed.

(** A failure when the request found no record. *)
Lemma leave_first (now : Z) (st : Store) :
  let st' := (leave config ip now None 401 st).1 in
  bruteForceStore st' = <[ip := next_object st]> (bruteForceStore st) ∧
  objects st' = <[next_object st := first_record config now]> (objects st) ∧
  next_object st' = S (next_object st).
Proof.
  unfold leave, first_record. simpl. rewrite lookup_insert_eq. simpl.
  destruct (maxAttempts config <=? 1)%nat; simpl.
  - unfold update_record. simpl. rewrite lookup_insert_eq.
    by rewrite insert_insert_eq.
  - done.
Qed.

Lemma request_unfold (st : Store) (now : Z) (status : nat) :
  request config ip st (now, status) =
    match enter ip now st with
    | (st1, Blocked _) => st1
    | (st1, Proceed record) => (leave config ip now record status st1).1
    end.
Proof.
  unfold request, bruteForceProtection. simpl.
  destruct (enter ip now st) as [st1 [w|record]]; [reflexivity|].
  by destruct (leave config ip now record status st1).
Qed.

(** One more failure within the window of a record that is not
    blocking. *)
Lemma failure_counted (st : Store) (ref : nat) (o : BruteForceRecord) (t : Z) :
  bruteForceStore st !! ip = Some ref → objects st !! ref = Some o →
  blockedUntil o = None → (t ≤ resetAt o)%Z →
  let st' := request config ip st (t, 401%nat) in
  bruteForceStore st' !! ip = Some ref ∧
  objects st' !! ref = Some (counted config t o).
Proof.
  intros Hs Ho Hfree Ht st'. subst st'. rewrite request_unfold.
  rewrite (enter_open t st ref o Hs Ho Ht) by (by rewrite Hfree).
  destruct (leave_counts t st ref o Ho) as (-> & -> & _).
  split; apply lookup_insert_eq.
Qed.



(** X28.  The block does not outlast the counting window: once [resetAt]
    has passed, the record is dropped before the block is looked at, so
    the request goes through to the rest of the chain whatever
    [blockedUntil] says, and the count starts again from that request. *)
Theorem block_ends_with_window (st : Store) (o : BruteForceRecord) (now : Z)
    (next : M Webhook.Response) (resp : Webhook.Response) :
  record_of st ip = Some o →
  (resetAt o < now)%Z →
  outcome next = Ret resp →
  let result := bruteForceProtection config ip now next st in
  (∃ t, result.2 = (t, Ret (Downstream resp))) ∧
  record_of result.1 ip
    = if (Webhook.status resp =? 401)%nat then Some (first_record config now)
      else None.
Proof.
  intros Hrec Hexp Hnext result. subst result.
  unfold record_of in Hrec.
  destruct (bruteForceStore st !! ip) as [ref|] eqn:Hs; [|done]. simpl in Hrec.
  unfold bruteForceProtection. rewrite (enter_expired now st ref o Hs Hrec Hexp).
  rewrite Hnext.
  assert (Hgone : bruteForceStore (store_delete ip st) !! ip = None)
    by apply lookup_delete_eq.
  destruct (Webhook.status resp =? 401)%nat eqn:E401.
  - apply Nat.eqb_eq in E401.
    destruct (leave config ip now None (Webhook.status resp) (store_delete ip st))
      as [st' log] eqn:Hleave.
    pose proof (leave_first now (store_delete ip st)) as Hfirst.
    rewrite <- E401 in Hfirst. rewrite Hleave in Hfirst.
    destruct Hfirst as (Hs' & Ho' & _). simpl in Hs', Ho'. split.
    + destruct next as [t o']. simpl in Hnext. subst o'.
      unfold leave in Hleave. rewrite E401 in Hleave. simpl in Hleave.
      rewrite lookup_insert_eq in Hleave. simpl in Hleave.
      destruct (maxAttempts config <=? 1)%nat; injection Hleave as _ <-;
        eexists; reflexivity.
    + simpl. unfold record_of. rewrite Hs', lookup_insert_eq. simpl.
      rewrite Ho'. apply lookup_insert_eq.
  - unfold leave. rewrite E401.
    destruct next as [t o']. simpl in Hnext. subst o'.
    destruct (Webhook.status resp =? 200)%nat; simpl.
    + split; [eexists; reflexivity|]. unfold record_of. simpl.
      by rewrite lookup_delete_eq.
    + split; [eexists; reflexivity|]. unfold record_of. by rewrite Hgone.
Qed.

(** X29.  Overlapping requests see each other only through the record
    object.  Two first failures that overlap leave a count of one (each
    creates its own record and the later one replaces the earlier), where
    the same two in sequence leave two; with a record already there both
    failures are counted on it; and a success that comes back before an
    overlapping failure does not clear the count, because the failure
    puts the record it still holds back into the map. *)
Theorem overlapping_requests (st : Store) (nowA nowB : Z) :
  (bruteForceStore st !! ip = None →
   record_of (overlapped config ip (nowA, 401%nat) (nowB, 401%nat) st) ip
     = Some (first_record config nowB) ∧
   ((1 < maxAttempts config)%nat → (nowB ≤ nowA + windowMs config)%Z →
    record_of (requests config ip [(nowA, 401%nat); (nowB, 401%nat)] st) ip
      = Some (counted config nowB (first_record config nowA)))) ∧
  (∀ ref o,
     bruteForceStore st !! ip = Some ref → objects st !! ref = Some o →
     blockedUntil o = None → (nowA ≤ resetAt o)%Z → (nowB ≤ resetAt o)%Z →
     record_of (overlapped config ip (nowA, 401%nat) (nowB, 401%nat) st) ip
       = Some (counted config nowB (counted config nowA o)) ∧
     record_of (overlapped config ip (nowA, 200%nat) (nowB, 401%nat) st) ip
       = Some (counted config nowB o) ∧
     record_of (requests config ip [(nowA, 200%nat); (nowB, 401%nat)] st) ip
       = Some (first_record config nowB)).
Proof.
  split.
  - intros Hnone. split.
    + unfold overlapped. cbn [fst snd].
      rewrite (enter_absent nowA st Hnone), (enter_absent nowB st Hnone).
      destruct (leave_first nowA st) as (Hs1 & Ho1 & Hn1).
      set (st1 := (leave config ip nowA None 401 st).1) in *.
      destruct (leave_first nowB st1) as (Hs2 & Ho2 & _).
      unfold record_of. rewrite Hs2, lookup_insert_eq. simpl.
      rewrite Ho2. apply lookup_insert_eq.
    + intros Hmax Hwin. unfold requests. cbn [fold_left].
      set (st1 := request config ip st (nowA, 401%nat)).
      assert (H1 : bruteForceStore st1 !! ip = Some (next_object st) ∧
                   objects st1 !! next_object st = Some (first_record config nowA)).
      { subst st1. rewrite request_unfold, (enter_absent nowA st Hnone).
        destruct (leave_first nowA st) as (-> & -> & _).
        split; apply lookup_insert_eq. }
      destruct H1 as [Hs1 Ho1].
      assert (Hfree : blockedUntil (first_record config nowA) = None).
      { unfold first_record. simpl.
        replace (maxAttempts config <=? 1)%nat with false; [done|].
        symmetry. apply Nat.leb_gt. lia. }
      destruct (failure_counted st1 _ _ nowB Hs1 Ho1 Hfree Hwin) as [Hs2 Ho2].
      unfold record_of. rewrite Hs2. simpl. exact Ho2.
  - intros ref o Hs Ho Hfree HinA HinB.
    assert (HopenA : enter ip nowA st = (st, Proceed (Some ref)))
      by (apply (enter_open nowA st ref o Hs Ho HinA); by rewrite Hfree).
    assert (HopenB : enter ip nowB st = (st, Proceed (Some ref)))
      by (apply (enter_open nowB st ref o Hs Ho HinB); by rewrite Hfree).
    split; [|split].
    + unfold overlapped. cbn [fst snd]. rewrite HopenA, HopenB.
      destruct (leave_counts nowA st ref o Ho) as (Hs1 & Ho1 & _).
      set (st1 := (leave config ip nowA (Some ref) 401 st).1) in *.
      assert (Ho1' : objects st1 !! ref = Some (counted config nowA o))
        by (rewrite Ho1; apply lookup_insert_eq).
      destruct (leave_counts nowB st1 ref _ Ho1') as (Hs2 & Ho2 & _).
      unfold record_of. rewrite Hs2, lookup_insert_eq. simpl.
      rewrite Ho2. apply lookup_insert_eq.
    + unfold overlapped. cbn [fst snd]. rewrite HopenA, HopenB.
      change (leave config ip nowA (Some ref) 200 st).1 with (store_delete ip st).
      destruct (leave_counts nowB (store_delete ip st) ref o Ho) as (Hs2 & Ho2 & _).
      unfold record_of. rewrite Hs2, lookup_insert_eq. simpl.
      rewrite Ho2. apply lookup_insert_eq.
    + unfold requests. cbn [fold_left]. rewrite !request_unfold.
      rewrite HopenA.
      change (leave config ip nowA (Some ref) 200 st).1 with (store_delete ip st).
      rewrite (enter_absent nowB (store_delete ip st)) by apply lookup_delete_eq.
      destruct (leave_first nowB (store_delete ip st)) as (Hs2 & Ho2 & _).
      unfold record_of. rewrite Hs2, lookup_insert_eq. simpl.
      rewrite Ho2. apply lookup_insert_eq.
Qed.

Lemma enter_only_expires (now : Z) (st : Store) :
  (enter ip now st).1 = st ∨ (enter ip now st).1 = store_delete ip st.
Proof.
  unfold enter.
  destruct (bruteForceStore st !! ip) as [ref|]; simpl; [|by left].
  destruct (objects st !! ref) as [o|] eqn:Ho; simpl.
  - destruct (resetAt o <? now)%Z; simpl; [by right|].
    rewrite Ho. simpl. destruct (blockedUntil o) as [until|]; [|by left].
    destruct (negb (until =? 0)%Z && (now <? until)%Z); by left.
  - rewrite Ho. by left.
Qed.

(** X30.  The webhook endpoint cannot get its caller blocked: behind the
    brute-force protection it never answers 401, so whatever is sent to
    it, no record is created, no count is raised and no block is set; the
    map can only lose the caller's record (when it has expired, or when
    a verification challenge is answered 200). *)
Theorem webhook_never_counts_as_failure
    (TWITCH_WEBHOOK_SECRET : string)
    (createHmac_sha256_hex : string → string → string)
    (JSON_parse : string → Outcome JsValue) (isDevelopment : bool)
    (select_user_id : JsValue → Dispatch.DbResult)
    (handlers : gmap string Dispatch.InternalHandler)
    (c : Webhook.Context) (now : Z) (st : Store) :
  let next := Webhook.eventsub_endpoint TWITCH_WEBHOOK_SECRET createHmac_sha256_hex
                JSON_parse isDevelopment select_user_id handlers c in
  let st' := (bruteForceProtection config ip now next st).1 in
  objects st' = objects st ∧
  next_object st' = next_object st ∧
  (bruteForceStore st' = bruteForceStore st
   ∨ bruteForceStore st' = delete ip (bruteForceStore st)).
Proof.
  intros next st'. subst st' next.
  destruct (endpoint_answers TWITCH_WEBHOOK_SECRET createHmac_sha256_hex JSON_parse
              select_user_id handlers isDevelopment c)
    as (t & resp & -> & H401 & _).
  unfold bruteForceProtection.
  pose proof (enter_only_expires now st) as Henter.
  destruct (enter ip now st) as [st1 [w|record]]; simpl in Henter |- *.
  - destruct Henter as [-> | ->]; simpl; auto.
  - unfold leave. apply Nat.eqb_neq in H401. rewrite H401.
    destruct (Webhook.status resp =? 200)%nat; simpl;
      destruct Henter as [-> | ->]; simpl; auto.
    do 2 (split; [done|]). right. by rewrite delete_delete_eq.
Qed.

End BruteForceProperties.


Lemma block_ends_with_window_witness :
  let result := BruteForce.bruteForceProtection Cases.three_strikes Cases.caller
                  900001 Cases.no_content Cases.struck_out in
  (∃ t, result.2 = (t, Ret (BruteForce.Downstream
                              {| Webhook.status := 204;
                                 Webhook.body := Webhook.BodyNull |}))) ∧
  BruteForce.record_of result.1 Cases.caller = None.
Proof.
  apply (block_ends_with_window Cases.three_strikes Cases.caller Cases.struck_out
           {| BruteForce.count := 3; BruteForce.resetAt := 900000;
              BruteForce.blockedUntil := Some 3602000%Z |}
           900001 Cases.no_content
           {| Webhook.status := 204; Webhook.body := Webhook.BodyNull |}).
  - vm_compute. reflexivity.
  - simpl. lia.
  - reflexivity.
Defined.

Lemma overlapping_requests_witness :
  BruteForce.record_of
    (BruteForce.overlapped Cases.three_strikes Cases.caller
       (0%Z, 401%nat) (10%Z, 401%nat) BruteForce.empty_store) Cases.caller
  = Some (BruteForce.first_record Cases.three_strikes 10).
Proof.
  destruct (overlapping_requests Cases.three_strikes Cases.caller
              BruteForce.empty_store 0 10) as [Hfirst _].
  destruct (Hfirst eq_refl) as [Hlost _]. exact Hlost.
Defined.
